(** * chezmoi: the mutation backends (RealSystem, GitDiffSystem) and the entry model

    A shallow embedding of

    - [v2/chezmoi/gitdiffsystem.go]: the diff-encoding backend [GitDiffSystem],
      its patch data types, [diffChunks] and [isBinary];
    - the direct backend ([RealSystem.RunScript], [RealSystem.WriteSymlink],
      [WriteFile]);
    - the entry model exercised by [lib/chezmoi/chezmoi_test.go].

    Go values are modelled as the code has them: [[]byte] is [list byte],
    [string] is [string], [os.FileMode] and the other fixed-width integers are
    [Z] with their masks written out, [(T, error)] results are a sum type and a
    bare [error] is [option error] ([None] is Go's [nil]).  Stateful code is
    written in state-passing style over explicit worlds. *)

From Stdlib Require Import ZArith Strings.Byte Ascii String List Lia Bool.
From stdpp Require Import gmap strings list.

Import ListNotations.
Local Open Scope string_scope.
Local Open Scope Z_scope.

(** ** Go basics: bytes, strings, errors *)

Module Go.

(** The numeric value of a byte. *)
Definition byte_val (b : byte) : Z := Z.of_N (Byte.to_N b).

(** [[]byte(s)] and [string(b)]: Go strings are byte sequences. *)
Definition bytes_of_string (s : string) : list byte := list_byte_of_string s.
Definition string_of_bytes (b : list byte) : string := string_of_list_byte b.

(** [strings.HasPrefix(s, prefix)]. *)
Fixpoint HasPrefix (s prefix : string) {struct prefix} : bool :=
  match prefix with
  | EmptyString => true
  | String c prefix' =>
      match s with
      | EmptyString => false
      | String d s' => if Ascii.eqb c d then HasPrefix s' prefix' else false
      end
  end.

(** [s[n:]] for a string. *)
Fixpoint drop_string (n : nat) (s : string) : string :=
  match n with
  | O => s
  | S n' => match s with
            | EmptyString => EmptyString
            | String _ s' => drop_string n' s'
            end
  end.

(** [strings.TrimPrefix(s, prefix)]: [s] without the leading [prefix], or [s]
    itself when it does not start with [prefix]. *)
Definition TrimPrefix (s prefix : string) : string :=
  if HasPrefix s prefix then drop_string (String.length prefix) s else s.

(** [bytes.HasPrefix(data, sig)]. *)
Fixpoint bytesHasPrefix (data sig : list byte) {struct sig} : bool :=
  match sig with
  | [] => true
  | c :: sig' =>
      match data with
      | [] => false
      | d :: data' => if Byte.eqb c d then bytesHasPrefix data' sig' else false
      end
  end.

(** A Go [error] value.  [multiError] is go.uber.org/multierr's aggregate: it
    keeps every error that was appended, in order, and is never nested. *)
Inductive error : Type :=
| errorString (msg : string)
| multiError (errors : list string).

(** The flat list of errors an error value stands for ([multierr.Errors]). *)
Definition Errors (e : option error) : list string :=
  match e with
  | None => []
  | Some (errorString m) => [m]
  | Some (multiError ms) => ms
  end.

(** [multierr.Append(left, right)]: [nil] is the unit; two non-nil errors are
    combined into one [multiError] holding the errors of both, flattened. *)
Definition Append (left right : option error) : option error :=
  match left, right with
  | None, _ => right
  | _, None => left
  | Some _, Some _ => Some (multiError (Errors left ++ Errors right))
  end.

(** A Go [(T, error)] result. *)
Inductive result (A : Type) : Type :=
| Ok (a : A)
| Err (e : error).
Arguments Ok {A} a.
Arguments Err {A} e.

(** [strconv.FormatInt(i, 10)].  The digits are produced from the least
    significant one: [for u >= 10 { q := u / 10; a[i] = digit(u - q*10); u = q }]
    and then the leading digit.  The loop runs at most once per bit of [u]. *)
Definition digit (d : Z) : byte :=
  match Byte.of_N (Z.to_N (48 + d)) with
  | Some b => b
  | None => x30
  end.

Fixpoint formatBits (fuel : nat) (u : Z) (a : list byte) : list byte :=
  match fuel with
  | O => digit u :: a
  | S fuel' =>
      if 10 <=? u then
        let q := u / 10 in
        formatBits fuel' q (digit (u - q * 10) :: a)
      else digit u :: a
  end.

Definition FormatInt (i : Z) : list byte :=
  if i <? 0 then x2d :: formatBits (Z.to_nat (Z.log2 (- i))) (- i) []
  else formatBits (Z.to_nat (Z.log2 i)) i [].

(** What it is to be the decimal numeral of [n]: only digits, value [n], no
    leading zero except for zero itself. *)
Definition digit_val (b : byte) : option Z :=
  let v := byte_val b in
  if (48 <=? v) && (v <=? 57) then Some (v - 48) else None.

Fixpoint decimal_value (acc : Z) (d : list byte) : option Z :=
  match d with
  | [] => Some acc
  | b :: d' =>
      match digit_val b with
      | Some v => decimal_value (acc * 10 + v) d'
      | None => None
      end
  end.

Definition decimal (n : Z) (d : list byte) : Prop :=
  d <> [] /\ decimal_value 0 d = Some n /\ (hd x00 d = x30 -> d = [x30]).

End Go.

(** ** crypto/sha1 *)

Module Sha1.

(** [uint32] arithmetic wraps around. *)
Definition u32 (x : Z) : Z := Z.land x 0xFFFFFFFF.

Definition rotl (n x : Z) : Z :=
  u32 (Z.lor (Z.shiftl x n) (Z.shiftr x (32 - n))).

(** Big-endian value of a byte string. *)
Definition be (bs : list Z) : Z := fold_left (fun acc b => acc * 256 + b) bs 0.

(** Big-endian encoding of [x] on [n] bytes. *)
Fixpoint be_bytes (n : nat) (x : Z) : list Z :=
  match n with
  | O => []
  | S n' => Z.land (Z.shiftr x (8 * Z.of_nat n')) 0xFF :: be_bytes n' x
  end.

(** Message padding: a one bit, zeros up to 56 mod 64, the bit length on 64
    bits. *)
Definition pad (msg : list Z) : list Z :=
  let len := Z.of_nat (length msg) in
  msg ++ [0x80] ++ repeat 0 (Z.to_nat ((55 - len) mod 64)) ++ be_bytes 8 (8 * len).

Fixpoint words (n : nat) (l : list Z) : list Z :=
  match n with
  | O => []
  | S n' => be (firstn 4 l) :: words n' (skipn 4 l)
  end.

Fixpoint blocks (n : nat) (l : list Z) : list (list Z) :=
  match n with
  | O => []
  | S n' => words 16 (firstn 64 l) :: blocks n' (skipn 64 l)
  end.

(** The message schedule: 16 words extended to 80. *)
Fixpoint schedule (n : nat) (w : list Z) : list Z :=
  match n with
  | O => w
  | S n' =>
      let t := length w in
      let g i := nth (t - i) w 0 in
      schedule n' (w ++ [rotl 1 (Z.lxor (Z.lxor (g 3%nat) (g 8%nat))
                                        (Z.lxor (g 14%nat) (g 16%nat)))])
  end.

Definition round (t : nat) (wt : Z) (s : Z * Z * Z * Z * Z) : Z * Z * Z * Z * Z :=
  let '(a, b, c, d, e) := s in
  let '(f, k) :=
    if (t <? 20)%nat then
      (Z.lor (Z.land b c) (Z.land (Z.lxor b 0xFFFFFFFF) d), 0x5A827999)
    else if (t <? 40)%nat then
      (Z.lxor (Z.lxor b c) d, 0x6ED9EBA1)
    else if (t <? 60)%nat then
      (Z.lor (Z.lor (Z.land b c) (Z.land b d)) (Z.land c d), 0x8F1BBCDC)
    else
      (Z.lxor (Z.lxor b c) d, 0xCA62C1D6) in
  (u32 (rotl 5 a + f + e + k + wt), a, rotl 30 b, c, d).

Fixpoint rounds (t : nat) (w : list Z) (s : Z * Z * Z * Z * Z) : Z * Z * Z * Z * Z :=
  match w with
  | [] => s
  | wt :: w' => rounds (S t) w' (round t wt s)
  end.

Definition block (h : Z * Z * Z * Z * Z) (w : list Z) : Z * Z * Z * Z * Z :=
  let '(h0, h1, h2, h3, h4) := h in
  let '(a, b, c, d, e) := rounds 0 (schedule 64 w) h in
  (u32 (h0 + a), u32 (h1 + b), u32 (h2 + c), u32 (h3 + d), u32 (h4 + e)).

Definition init : Z * Z * Z * Z * Z :=
  (0x67452301, 0xEFCDAB89, 0x98BADCFE, 0x10325476, 0xC3D2E1F0).

Definition to_byte (z : Z) : byte :=
  match Byte.of_N (Z.to_N z) with
  | Some b => b
  | None => x00
  end.

(** The SHA-1 digest of a byte sequence, 20 bytes. *)
Definition Sum (data : list byte) : list byte :=
  let p := pad (map Go.byte_val data) in
  let '(h0, h1, h2, h3, h4) :=
    fold_left block (blocks (length p / 64) p) init in
  map to_byte (be_bytes 4 h0 ++ be_bytes 4 h1 ++ be_bytes 4 h2
               ++ be_bytes 4 h3 ++ be_bytes 4 h4).

End Sha1.

(** Hexadecimal rendering of a hash, for readable examples. *)
Definition hex_digit (n : Z) : ascii :=
  ascii_of_nat (Z.to_nat (if n <? 10 then 48 + n else 87 + n)).

Fixpoint hex (bs : list byte) : string :=
  match bs with
  | [] => EmptyString
  | b :: bs' =>
      String (hex_digit (Go.byte_val b / 16))
        (String (hex_digit (Go.byte_val b mod 16)) (hex bs'))
  end.

(** ** os.FileMode *)

Module os.

(** [os.FileMode] is a [uint32]: the nine least significant bits are the Unix
    permission bits, the most significant ones describe the file type. *)
Definition FileMode := Z.

Definition ModeDir : FileMode := Z.shiftl 1 31.
Definition ModeAppend : FileMode := Z.shiftl 1 30.
Definition ModeExclusive : FileMode := Z.shiftl 1 29.
Definition ModeTemporary : FileMode := Z.shiftl 1 28.
Definition ModeSymlink : FileMode := Z.shiftl 1 27.
Definition ModeDevice : FileMode := Z.shiftl 1 26.
Definition ModeNamedPipe : FileMode := Z.shiftl 1 25.
Definition ModeSocket : FileMode := Z.shiftl 1 24.
Definition ModeSetuid : FileMode := Z.shiftl 1 23.
Definition ModeSetgid : FileMode := Z.shiftl 1 22.
Definition ModeCharDevice : FileMode := Z.shiftl 1 21.
Definition ModeSticky : FileMode := Z.shiftl 1 20.
Definition ModeIrregular : FileMode := Z.shiftl 1 19.

Definition ModeType : FileMode :=
  Z.lor ModeDir (Z.lor ModeSymlink (Z.lor ModeNamedPipe (Z.lor ModeSocket
    (Z.lor ModeDevice (Z.lor ModeCharDevice ModeIrregular))))).

(** [0777]. *)
Definition ModePerm : FileMode := 511.

(** [m &^ mask] on [uint32]. *)
Definition andnot (m mask : FileMode) : FileMode := Z.land m (Z.lxor mask 0xFFFFFFFF).

Definition IsDir (m : FileMode) : bool := negb (Z.land m ModeDir =? 0).
Definition IsRegular (m : FileMode) : bool := Z.land m ModeType =? 0.
Definition Perm (m : FileMode) : FileMode := Z.land m ModePerm.

(** The bits of a mode that reach the system in [Chmod] and [OpenFile], as
    [syscallMode] selects them: the permission bits, [ModeSetuid],
    [ModeSetgid] and [ModeSticky].  They are kept here in their [FileMode]
    positions, as [Stat] reports them back. *)
Definition chmodBits : FileMode :=
  Z.lor ModePerm (Z.lor ModeSetuid (Z.lor ModeSetgid ModeSticky)).

Definition syscallMode (m : FileMode) : FileMode := Z.land m chmodBits.

(** [os.FileInfo], as far as the backends look at it. *)
Record FileInfo : Type := mkFileInfo {
  Name : string;
  Size : Z;
  Mode : FileMode;
}.

End os.

(** ** go-git: plumbing/filemode and plumbing *)

Module filemode.

(** The closed vocabulary of git file modes, with their octal values. *)
Inductive FileMode : Type :=
| Empty        (* 0 *)
| Dir          (* 0040000 *)
| Regular      (* 0100644 *)
| Deprecated   (* 0100664 *)
| Executable   (* 0100755 *)
| Symlink      (* 0120000 *)
| Submodule.   (* 0160000 *)

Definition bits (m : FileMode) : Z :=
  match m with
  | Empty => 0
  | Dir => 16384
  | Regular => 33188
  | Deprecated => 33204
  | Executable => 33261
  | Symlink => 40960
  | Submodule => 57344
  end.

Definition isSetCharDevice (m : os.FileMode) : bool := negb (Z.land m os.ModeCharDevice =? 0).
Definition isSetTemporary (m : os.FileMode) : bool := negb (Z.land m os.ModeTemporary =? 0).
Definition isSetUserExecutable (m : os.FileMode) : bool := negb (Z.land m 64 =? 0).
Definition isSetSymLink (m : os.FileMode) : bool := negb (Z.land m os.ModeSymlink =? 0).

Definition noEquivalent : Go.error := Go.errorString "no equivalent git mode".

(** [filemode.NewFromOSFileMode]: the git mode of an operating-system mode, or
    an error when there is none (devices, pipes, sockets, temporary files). *)
Definition NewFromOSFileMode (m : os.FileMode) : Go.result FileMode :=
  if os.IsRegular m then
    if isSetTemporary m then Go.Err noEquivalent
    else if isSetCharDevice m then Go.Err noEquivalent
    else if isSetUserExecutable m then Go.Ok Executable
    else Go.Ok Regular
  else if os.IsDir m then Go.Ok Dir
  else if isSetSymLink m then Go.Ok Symlink
  else Go.Err noEquivalent.

End filemode.

Module plumbing.

(** A [plumbing.Hash] is a 20-byte array. *)
Definition Hash := list byte.

(** [plumbing.ZeroHash]: the hash of an unknown content. *)
Definition ZeroHash : Hash := repeat x00 20.

Inductive ObjectType : Type :=
| CommitObject
| TreeObject
| BlobObject
| TagObject.

(** [ObjectType.Bytes]. *)
Definition Bytes (t : ObjectType) : list byte :=
  Go.bytes_of_string
    match t with
    | CommitObject => "commit"
    | TreeObject => "tree"
    | BlobObject => "blob"
    | TagObject => "tag"
    end.

(** A [Hasher] wraps a SHA-1 [hash.Hash]; [Write] feeds it bytes and [Sum]
    returns the digest of everything written so far. *)
Record Hasher : Type := mkHasher { written : list byte }.

Definition Write (h : Hasher) (p : list byte) : Hasher :=
  mkHasher (written h ++ p).

Definition Sum (h : Hasher) : Hash := Sha1.Sum (written h).

(** [plumbing.NewHasher(t, size)] writes the object header. *)
Definition NewHasher (t : ObjectType) (size : Z) : Hasher :=
  let h := mkHasher [] in
  let h := Write h (Bytes t) in
  let h := Write h (Go.bytes_of_string " ") in
  let h := Write h (Go.FormatInt size) in
  let h := Write h [x00] in
  h.

(** [plumbing.ComputeHash(t, content)]. *)
Definition ComputeHash (t : ObjectType) (content : list byte) : Hash :=
  let h := NewHasher t (Z.of_nat (length content)) in
  let h := Write h content in
  Sum h.

End plumbing.

(** ** net/http: content sniffing

    [http.DetectContentType] is Go's standard library (net/http/sniff.go), an
    implementation of the WHATWG MIME Sniffing algorithm; [isBinary] is decided
    by it, so it is embedded here with its signature table. *)

Module http.

(** At most [sniffLen] bytes are looked at. *)
Definition sniffLen : nat := 512.

Definition isWS (b : byte) : bool :=
  match b with
  | x09 | x0a | x0c | x0d | x20 => true
  | _ => false
  end.

(** A tag-terminating byte: space or right angle bracket. *)
Definition isTT (b : byte) : bool :=
  match b with
  | x20 | x3e => true
  | _ => false
  end.

Inductive sniffSig : Type :=
| htmlSig (h : list byte)
| maskedSig (mask pat : list byte) (skipWS : bool) (ct : string)
| exactSig (sig : list byte) (ct : string)
| mp4Sig
| textSig.

(** Bytes written numerically. *)
Definition B (l : list Z) : list byte := map Sha1.to_byte l.
(** Bytes written as text. *)
Definition T (s : string) : list byte := Go.bytes_of_string s.

Definition FF (n : nat) : list byte := repeat xff n.
Definition ZZ (n : nat) : list byte := repeat x00 n.

Definition sniffSignatures : list sniffSig :=
  [ htmlSig (T "<!DOCTYPE HTML");
    htmlSig (T "<HTML");
    htmlSig (T "<HEAD");
    htmlSig (T "<SCRIPT");
    htmlSig (T "<IFRAME");
    htmlSig (T "<H1");
    htmlSig (T "<DIV");
    htmlSig (T "<FONT");
    htmlSig (T "<TABLE");
    htmlSig (T "<A");
    htmlSig (T "<STYLE");
    htmlSig (T "<TITLE");
    htmlSig (T "<B");
    htmlSig (T "<BODY");
    htmlSig (T "<BR");
    htmlSig (T "<P");
    htmlSig (T "<!--");
    maskedSig (FF 5) (T "<?xml") true "text/xml; charset=utf-8";
    exactSig (T "%PDF-") "application/pdf";
    exactSig (T "%!PS-Adobe-") "application/postscript";
    (* UTF BOMs *)
    maskedSig (FF 2 ++ ZZ 2) (B [0xFE; 0xFF; 0; 0]) false "text/plain; charset=utf-16be";
    maskedSig (FF 2 ++ ZZ 2) (B [0xFF; 0xFE; 0; 0]) false "text/plain; charset=utf-16le";
    maskedSig (FF 3 ++ ZZ 1) (B [0xEF; 0xBB; 0xBF; 0]) false "text/plain; charset=utf-8";
    (* images *)
    exactSig (B [0; 0; 1; 0]) "image/x-icon";
    exactSig (B [0; 0; 2; 0]) "image/x-icon";
    exactSig (T "BM") "image/bmp";
    exactSig (T "GIF87a") "image/gif";
    exactSig (T "GIF89a") "image/gif";
    maskedSig (FF 4 ++ ZZ 4 ++ FF 6) (T "RIFF" ++ ZZ 4 ++ T "WEBPVP") false "image/webp";
    exactSig (B [0x89] ++ T "PNG" ++ B [0x0D; 0x0A; 0x1A; 0x0A]) "image/png";
    exactSig (B [0xFF; 0xD8; 0xFF]) "image/jpeg";
    (* audio and video *)
    maskedSig (FF 4) (T ".snd") false "audio/basic";
    maskedSig (FF 4 ++ ZZ 4 ++ FF 4) (T "FORM" ++ ZZ 4 ++ T "AIFF") false "audio/aiff";
    maskedSig (FF 3) (T "ID3") false "audio/mpeg";
    maskedSig (FF 5) (T "OggS" ++ ZZ 1) false "application/ogg";
    maskedSig (FF 8) (T "MThd" ++ B [0; 0; 0; 6]) false "audio/midi";
    maskedSig (FF 4 ++ ZZ 4 ++ FF 4) (T "RIFF" ++ ZZ 4 ++ T "AVI ") false "video/avi";
    maskedSig (FF 4 ++ ZZ 4 ++ FF 4) (T "RIFF" ++ ZZ 4 ++ T "WAVE") false "audio/wave";
    mp4Sig;
    exactSig (B [0x1A; 0x45; 0xDF; 0xA3]) "video/webm";
    (* fonts *)
    maskedSig (ZZ 34 ++ FF 2) (ZZ 34 ++ T "LP") false "application/vnd.ms-fontobject";
    exactSig (B [0; 1; 0; 0]) "font/ttf";
    exactSig (T "OTTO") "font/otf";
    exactSig (T "ttcf") "font/collection";
    exactSig (T "wOFF") "font/woff";
    exactSig (T "wOF2") "font/woff2";
    (* archives *)
    exactSig (B [0x1F; 0x8B; 0x08]) "application/x-gzip";
    exactSig (T "PK" ++ B [3; 4]) "application/zip";
    exactSig (T "Rar!" ++ B [0x1A; 0x07; 0x00]) "application/x-rar-compressed";
    exactSig (T "Rar!" ++ B [0x1A; 0x07; 0x01; 0x00]) "application/x-rar-compressed";
    exactSig (B [0x00; 0x61; 0x73; 0x6D]) "application/wasm";
    textSig (* should be last *) ].

(** The loop of [htmlSig.match]: every byte of the signature equals the data
    byte, the data byte upper-cased where the signature has a capital. *)
Fixpoint htmlBytes (h data : list byte) : bool :=
  match h, data with
  | [], _ => true
  | _ :: _, [] => false
  | b :: h', db :: data' =>
      let vb := Go.byte_val b in
      let vdb := if (65 <=? vb) && (vb <=? 90)
                 then Z.land (Go.byte_val db) 0xDF else Go.byte_val db in
      if vb =? vdb then htmlBytes h' data' else false
  end.

(** The loop of [maskedSig.match]. *)
Fixpoint maskedBytes (pat mask data : list byte) : bool :=
  match pat, mask, data with
  | [], _, _ => true
  | pb :: pat', m :: mask', d :: data' =>
      if Z.land (Go.byte_val d) (Go.byte_val m) =? Go.byte_val pb
      then maskedBytes pat' mask' data' else false
  | _, _, _ => false
  end.

Definition bytesEqual (a b : list byte) : bool :=
  (length a =? length b)%nat && Go.bytesHasPrefix a b.

(** [data[i:j]]. *)
Definition slice {A} (l : list A) (i j : nat) : list A := firstn (j - i) (skipn i l).

(** The loop of [mp4Sig.match]: [for st := 8; st < boxSize; st += 4]. *)
Fixpoint mp4Boxes (fuel st boxSize : nat) (data : list byte) : string :=
  match fuel with
  | O => ""
  | S fuel' =>
      if (st <? boxSize)%nat then
        if (st =? 12)%nat then mp4Boxes fuel' (st + 4) boxSize data
        else if bytesEqual (slice data st (st + 3)) (T "mp4") then "video/mp4"
        else mp4Boxes fuel' (st + 4) boxSize data
      else ""
  end.

Definition textByte (b : byte) : bool :=
  let v := Go.byte_val b in
  negb ((v <=? 0x08) || (v =? 0x0B) || ((0x0E <=? v) && (v <=? 0x1A))
        || ((0x1C <=? v) && (v <=? 0x1F))).

(** [sig.match(data, firstNonWS)]: the content type, or [""] for no match. *)
Definition sig_match (sig : sniffSig) (data : list byte) (firstNonWS : nat) : string :=
  match sig with
  | htmlSig h =>
      let data := skipn firstNonWS data in
      if (length data <? length h + 1)%nat then ""
      else if negb (htmlBytes h data) then ""
      else if negb (isTT (nth (length h) data x00)) then ""
      else "text/html; charset=utf-8"
  | maskedSig mask pat skipWS ct =>
      let data := if skipWS then skipn firstNonWS data else data in
      if negb (length pat =? length mask)%nat then ""
      else if (length data <? length pat)%nat then ""
      else if maskedBytes pat mask data then ct else ""
  | exactSig sig ct =>
      if Go.bytesHasPrefix data sig then ct else ""
  | mp4Sig =>
      if (length data <? 12)%nat then ""
      else
        let boxSize := Z.to_nat (Sha1.be (map Go.byte_val (slice data 0 4))) in
        if (length data <? boxSize)%nat || negb (boxSize mod 4 =? 0)%nat then ""
        else if negb (bytesEqual (slice data 4 8) (T "ftyp")) then ""
        else mp4Boxes sniffLen 8 boxSize data
  | textSig =>
      if forallb textByte (skipn firstNonWS data) then "text/plain; charset=utf-8" else ""
  end.

(** The index of the first non-whitespace byte. *)
Fixpoint firstNonWS (data : list byte) : nat :=
  match data with
  | [] => O
  | b :: data' => if isWS b then S (firstNonWS data') else O
  end.

Definition isEmptyString (s : string) : bool :=
  match s with
  | EmptyString => true
  | _ => false
  end.

(** The first signature that matches decides. *)
Fixpoint firstMatch (sigs : list sniffSig) (data : list byte) (fnws : nat) : string :=
  match sigs with
  | [] => "application/octet-stream"
  | sig :: sigs' =>
      let ct := sig_match sig data fnws in
      if isEmptyString ct then firstMatch sigs' data fnws else ct
  end.

Definition DetectContentType (data : list byte) : string :=
  let data := firstn sniffLen data in
  firstMatch sniffSignatures data (firstNonWS data).

End http.

(** ** gitdiffsystem.go: [isBinary] *)

Definition isBinary (data : list byte) : bool :=
  negb (length data =? 0)%nat
  && negb (Go.HasPrefix (http.DetectContentType data) "text/").


(** ** go-git's diff interfaces and sergi/go-diff *)

Module diff.

(** [diff.Operation], an [iota] enumeration: [Equal] is its zero value. *)
Inductive Operation : Type :=
| Equal
| Add
| Delete.

End diff.

Module diffmatchpatch.

(** [diffmatchpatch.Operation] is an [int8]. *)
Definition Operation := Z.
Definition DiffDelete : Operation := -1.
Definition DiffInsert : Operation := 1.
Definition DiffEqual : Operation := 0.

Record Diff : Type := mkDiff {
  Type_ : Operation;
  Text : string;
}.

(** [time.Second], in nanoseconds. *)
Definition Second : Z := 1000000000.

(** The three entry points of the library that [diffChunks] calls.  The
    library is not part of this repository and is taken as given.
    [DiffMainRunes] compares [time.Now()] with a deadline, so what it returns
    depends on the wall clock as well as on its arguments: it takes the clock
    and hands it back. *)
Record Library (Clock : Type) : Type := mkLibrary {
  DiffLinesToRunes : string -> string -> list Z * list Z * list string;
  DiffMainRunes :
    Z (* DiffTimeout *) -> list Z -> list Z -> bool -> Clock -> list Diff * Clock;
  DiffCharsToLines : list Diff -> list string -> list Diff;
}.
Arguments DiffLinesToRunes {Clock} _ _ _.
Arguments DiffMainRunes {Clock} _ _ _ _ _ _.
Arguments DiffCharsToLines {Clock} _ _ _.

End diffmatchpatch.

(** ** gitdiffsystem.go: patch data *)

Record gitDiffChunk : Type := mkChunk {
  content : string;
  operation : diff.Operation;
}.

Record gitDiffFile : Type := mkFile {
  hash : plumbing.Hash;
  fileMode : filemode.FileMode;
  path : string;
}.

(** [from] and [to] are [diff.File] interface values: [None] is [nil].  The
    field [isBinary] is [isBinaryFlag] here, [isBinary] being the function. *)
Record gitDiffFilePatch : Type := mkFilePatch {
  isBinaryFlag : bool;
  from : option gitDiffFile;
  to : option gitDiffFile;
  chunks : list gitDiffChunk;
}.

Record gitDiffPatch : Type := mkPatch {
  filePatches : list gitDiffFilePatch;
  message : string;
}.

(** [var gitDiffOperation = map[diffmatchpatch.Operation]diff.Operation{...}] *)
Definition gitDiffOperation : gmap Z diff.Operation :=
  {[ diffmatchpatch.DiffDelete := diff.Delete;
     diffmatchpatch.DiffEqual := diff.Equal;
     diffmatchpatch.DiffInsert := diff.Add ]}.

(** Indexing a Go map with a missing key gives the zero value. *)
Definition gitDiffOperation_at (t : diffmatchpatch.Operation) : diff.Operation :=
  default diff.Equal (gitDiffOperation !! t).

(** [diffChunks(from, to)].  The clock is the one effect it has. *)
Definition diffChunks {Clock} (dmp : diffmatchpatch.Library Clock)
    (from_ to_ : string) (clk : Clock) : list gitDiffChunk * Clock :=
  let DiffTimeout := diffmatchpatch.Second in
  let '(fromRunes, toRunes, runesToLines) :=
    diffmatchpatch.DiffLinesToRunes dmp from_ to_ in
  let '(ds, clk) := diffmatchpatch.DiffMainRunes dmp DiffTimeout fromRunes toRunes false clk in
  let diffs := diffmatchpatch.DiffCharsToLines dmp ds runesToLines in
  (map (fun d => mkChunk (diffmatchpatch.Text d)
                         (gitDiffOperation_at (diffmatchpatch.Type_ d))) diffs,
   clk).

(** ** The read-only half of the System interface *)

(** [exec.Cmd], as far as it is identified here: the program and its
    arguments. *)
Definition Cmd := list string.

(** A [SystemReader] over a state [St].  A Go method may change the state of
    its receiver, so every method hands the state back. *)
Class SystemReader (St : Type) : Type := {
  sr_Get : list byte -> list byte -> St -> Go.result (list byte) * St;
  sr_Glob : string -> St -> Go.result (list string) * St;
  sr_IdempotentCmdOutput : Cmd -> St -> Go.result (list byte) * St;
  sr_Lstat : string -> St -> Go.result os.FileInfo * St;
  sr_ReadDir : string -> St -> Go.result (list os.FileInfo) * St;
  sr_ReadFile : string -> St -> Go.result (list byte) * St;
  sr_Readlink : string -> St -> Go.result string * St;
  sr_Stat : string -> St -> Go.result os.FileInfo * St;
}.

(** The calls a [GitDiffSystem] can make on the reader it wraps. *)
Inductive Call : Type :=
| CallGet (bucket key : list byte)
| CallGlob (pattern : string)
| CallIdempotentCmdOutput (cmd : Cmd)
| CallLstat (name : string)
| CallReadDir (dirname : string)
| CallReadFile (filename : string)
| CallReadlink (name : string)
| CallStat (name : string).

(** [diff.UnifiedEncoder]: [Encode] renders the patch on an [io.Writer] and
    returns the writer's error.  The patches handed to it are kept in order. *)
Record UnifiedEncoder : Type := mkEncoder {
  encoded : list gitDiffPatch;
  writeErr : option Go.error;
}.

Definition Encode (e : UnifiedEncoder) (p : gitDiffPatch) : option Go.error * UnifiedEncoder :=
  (writeErr e, mkEncoder (encoded e ++ [p])%list (writeErr e)).

(** ** gitdiffsystem.go: [GitDiffSystem] *)

Module GitDiffSystem.

Section GitDiffSystem.

Context {St Clock : Type} `{SystemReader St} (dmp : diffmatchpatch.Library Clock).

(** What a [GitDiffSystem] can touch: the reader behind [sr], with the calls
    made on it, the encoder behind [unifiedEncoder], and the clock. *)
Record World : Type := mkWorld {
  sr_state : St;
  sr_calls : list Call;
  encoder : UnifiedEncoder;
  clock : Clock;
}.

Record GitDiffSystem : Type := NewGitDiffSystem {
  prefix : string;
}.

(** Calling method [m] of [s.sr], recorded as call [c]. *)
Definition sr_call {A} (c : Call) (m : St -> A * St) (w : World) : A * World :=
  let '(r, st) := m (sr_state w) in
  (r, mkWorld st (sr_calls w ++ [c])%list (encoder w) (clock w)).

(** [s.unifiedEncoder.Encode(patch)]. *)
Definition encode (p : gitDiffPatch) (w : World) : option Go.error * World :=
  let '(err, e) := Encode (encoder w) p in
  (err, mkWorld (sr_state w) (sr_calls w) e (clock w)).

Definition trimPrefix (s : GitDiffSystem) (path : string) : string :=
  Go.TrimPrefix path (prefix s).

Definition getFileMode (s : GitDiffSystem) (name : string) (w : World)
    : Go.result (filemode.FileMode * os.FileInfo) * World :=
  let '(r, w) := sr_call (CallStat name) (sr_Stat name) w in
  match r with
  | Go.Err err => (Go.Err err, w)
  | Go.Ok info =>
      match filemode.NewFromOSFileMode (os.Mode info) with
      | Go.Err err => (Go.Err err, w)
      | Go.Ok fileMode => (Go.Ok (fileMode, info), w)
      end
  end.

Definition Chmod (s : GitDiffSystem) (name : string) (mode : os.FileMode) (w : World)
    : option Go.error * World :=
  let '(r, w) := getFileMode s name w in
  match r with
  | Go.Err err => (Some err, w)
  | Go.Ok (fromFileMode, info) =>
      (* Assume that we're only changing permissions. *)
      match filemode.NewFromOSFileMode
              (Z.lor (os.andnot (os.Mode info) os.ModePerm) mode) with
      | Go.Err err => (Some err, w)
      | Go.Ok toFileMode =>
          let path := trimPrefix s name in
          encode (mkPatch
            [ mkFilePatch false
                (Some (mkFile plumbing.ZeroHash fromFileMode path))
                (Some (mkFile plumbing.ZeroHash toFileMode path))
                [] ] "") w
      end
  end.

Definition Delete (s : GitDiffSystem) (bucket key : list byte) (w : World)
    : option Go.error * World :=
  (None, w).

Definition Get (s : GitDiffSystem) (bucket key : list byte) (w : World) :=
  sr_call (CallGet bucket key) (sr_Get bucket key) w.

Definition Glob (s : GitDiffSystem) (pattern : string) (w : World) :=
  sr_call (CallGlob pattern) (sr_Glob pattern) w.

Definition Lstat (s : GitDiffSystem) (name : string) (w : World) :=
  sr_call (CallLstat name) (sr_Lstat name) w.

Definition IdempotentCmdOutput (s : GitDiffSystem) (cmd : Cmd) (w : World) :=
  sr_call (CallIdempotentCmdOutput cmd) (sr_IdempotentCmdOutput cmd) w.

Definition Mkdir (s : GitDiffSystem) (name : string) (perm : os.FileMode) (w : World)
    : option Go.error * World :=
  match filemode.NewFromOSFileMode (Z.lor os.ModeDir perm) with
  | Go.Err err => (Some err, w)
  | Go.Ok toFileMode =>
      encode (mkPatch
        [ mkFilePatch false
            None
            (Some (mkFile plumbing.ZeroHash toFileMode (trimPrefix s name)))
            [] ] "") w
  end.

Definition ReadDir (s : GitDiffSystem) (dirname : string) (w : World) :=
  sr_call (CallReadDir dirname) (sr_ReadDir dirname) w.

Definition ReadFile (s : GitDiffSystem) (filename : string) (w : World) :=
  sr_call (CallReadFile filename) (sr_ReadFile filename) w.

Definition Readlink (s : GitDiffSystem) (name : string) (w : World) :=
  sr_call (CallReadlink name) (sr_Readlink name) w.

Definition RemoveAll (s : GitDiffSystem) (name : string) (w : World)
    : option Go.error * World :=
  let '(r, w) := getFileMode s name w in
  match r with
  | Go.Err err => (Some err, w)
  | Go.Ok (fromFileMode, _) =>
      encode (mkPatch
        [ mkFilePatch false
            (Some (mkFile plumbing.ZeroHash fromFileMode (trimPrefix s name)))
            None
            [] ] "") w
  end.

Definition RunScript (s : GitDiffSystem) (name : string) (data : list byte) (w : World)
    : option Go.error * World :=
  let isBinary := isBinary data in
  let chunks : list gitDiffChunk := [] in
  let chunks :=
    if negb isBinary
    then (chunks ++ [mkChunk (Go.string_of_bytes data) diff.Add])%list
    else chunks in
  encode (mkPatch
    [ mkFilePatch isBinary
        None
        (Some (mkFile (plumbing.ComputeHash plumbing.BlobObject data)
                      filemode.Executable (trimPrefix s name)))
        chunks ] "") w.

Definition Stat (s : GitDiffSystem) (name : string) (w : World) :=
  sr_call (CallStat name) (sr_Stat name) w.

Definition Rename (s : GitDiffSystem) (oldpath newpath : string) (w : World)
    : option Go.error * World :=
  let '(r, w) := getFileMode s oldpath w in
  match r with
  | Go.Err err => (Some err, w)
  | Go.Ok (fileMode, _) =>
      encode (mkPatch
        [ mkFilePatch false
            (Some (mkFile plumbing.ZeroHash fileMode (trimPrefix s oldpath)))
            (Some (mkFile plumbing.ZeroHash fileMode (trimPrefix s newpath)))
            [] ] "") w
  end.

Definition Set_ (s : GitDiffSystem) (bucket key value : list byte) (w : World)
    : option Go.error * World :=
  (None, w).

Definition WriteFile (s : GitDiffSystem) (filename : string) (data : list byte)
    (perm : os.FileMode) (w : World) : option Go.error * World :=
  let '(r, w) := getFileMode s filename w in
  match r with
  | Go.Err err => (Some err, w)
  | Go.Ok (fromFileMode, _) =>
      let '(r, w) := sr_call (CallReadFile filename) (sr_ReadFile filename) w in
      match r with
      | Go.Err err => (Some err, w)
      | Go.Ok fromData =>
          match filemode.NewFromOSFileMode perm with
          | Go.Err err => (Some err, w)
          | Go.Ok toFileMode =>
              let path := trimPrefix s filename in
              let isBinary := isBinary fromData || isBinary data in
              let '(chunks, w) :=
                if negb isBinary then
                  let '(cs, clk) :=
                    diffChunks dmp (Go.string_of_bytes fromData)
                               (Go.string_of_bytes data) (clock w) in
                  (cs, mkWorld (sr_state w) (sr_calls w) (encoder w) clk)
                else ([], w) in
              encode (mkPatch
                [ mkFilePatch isBinary
                    (Some (mkFile (plumbing.ComputeHash plumbing.BlobObject fromData)
                                  fromFileMode path))
                    (Some (mkFile (plumbing.ComputeHash plumbing.BlobObject data)
                                  toFileMode path))
                    chunks ] "") w
          end
      end
  end.

Definition WriteSymlink (s : GitDiffSystem) (oldname newname : string) (w : World)
    : option Go.error * World :=
  encode (mkPatch
    [ mkFilePatch false
        None
        (Some (mkFile (plumbing.ComputeHash plumbing.BlobObject (Go.bytes_of_string oldname))
                      filemode.Symlink (trimPrefix s newname)))
        [ mkChunk oldname diff.Add ] ] "") w.

(** The write calls of the System interface, as data, and running a sequence
    of them through one [GitDiffSystem]. *)
Inductive WriteCall : Type :=
| DoChmod (name : string) (mode : os.FileMode)
| DoMkdir (name : string) (perm : os.FileMode)
| DoRemoveAll (name : string)
| DoRename (oldpath newpath : string)
| DoRunScript (name : string) (data : list byte)
| DoWriteFile (filename : string) (data : list byte) (perm : os.FileMode)
| DoWriteSymlink (oldname newname : string)
| DoSet (bucket key value : list byte)
| DoDelete (bucket key : list byte).

Definition write (s : GitDiffSystem) (c : WriteCall) (w : World) : option Go.error * World :=
  match c with
  | DoChmod name mode => Chmod s name mode w
  | DoMkdir name perm => Mkdir s name perm w
  | DoRemoveAll name => RemoveAll s name w
  | DoRename oldpath newpath => Rename s oldpath newpath w
  | DoRunScript name data => RunScript s name data w
  | DoWriteFile filename data perm => WriteFile s filename data perm w
  | DoWriteSymlink oldname newname => WriteSymlink s oldname newname w
  | DoSet bucket key value => Set_ s bucket key value w
  | DoDelete bucket key => Delete s bucket key w
  end.

(** The errors are collected; the caller goes on whatever they are. *)
Fixpoint writes (s : GitDiffSystem) (cs : list WriteCall) (w : World)
    : list (option Go.error) * World :=
  match cs with
  | [] => ([], w)
  | c :: cs' =>
      let '(err, w) := write s c w in
      let '(errs, w) := writes s cs' w in
      (err :: errs, w)
  end.

End GitDiffSystem.

Arguments World St Clock : clear implicits.

End GitDiffSystem.

(** ** The operating system behind the direct backend *)

(** [path.Base]: the last element of a path, trailing slashes removed. *)
Module path_.

Fixpoint stripSlashes (rev : list ascii) : list ascii :=
  match rev with
  | "/"%char :: rev' => stripSlashes rev'
  | _ => rev
  end.

Fixpoint lastElement (rev : list ascii) : list ascii :=
  match rev with
  | [] => []
  | "/"%char :: _ => []
  | c :: rev' => c :: lastElement rev'
  end.

Definition Base (path : string) : string :=
  match path with
  | EmptyString => "."
  | _ =>
      let p := lastElement (stripSlashes (rev (list_ascii_of_string path))) in
      match p with
      | [] => "/"
      | _ => string_of_list_ascii (rev p)
      end
  end.

End path_.

Module vfs.

(** What a path names.  A [File] carries its whole [os.FileMode], so that
    pipes, sockets and devices are files with the matching type bit. *)
Inductive Node : Type :=
| File (mode : os.FileMode) (data : list byte)
| Symlink (target : string)
| Dir (mode : os.FileMode).

(** Which [vfs.FS] value a backend holds: [vfs.OSFS], the live
    operating-system filesystem, or any other implementation (in memory, for
    tests). *)
Inductive FS : Type :=
| OSFS
| TestFS.

Definition FS_eqb (a b : FS) : bool :=
  match a, b with
  | OSFS, OSFS | TestFS, TestFS => true
  | _, _ => false
  end.

End vfs.

(** The files of both filesystems. *)
Record Disk : Type := mkDisk {
  live : gmap string vfs.Node;
  test : gmap string vfs.Node;
}.

Definition files (fs : vfs.FS) (d : Disk) : gmap string vfs.Node :=
  match fs with
  | vfs.OSFS => live d
  | vfs.TestFS => test d
  end.

Definition set_files (fs : vfs.FS) (m : gmap string vfs.Node) (d : Disk) : Disk :=
  match fs with
  | vfs.OSFS => mkDisk m (test d)
  | vfs.TestFS => mkDisk (live d) m
  end.

(** An open file: the filesystem and the path it was opened at. *)
Record Handle : Type := mkHandle {
  h_fs : vfs.FS;
  h_name : string;
}.

(** The primitive operations the direct backend issues. *)
Inductive Event : Type :=
| EvTempFile (dir pattern : string)
| EvOpenFile (fs : vfs.FS) (name : string) (flag : Z) (perm : os.FileMode)
| EvChmod (f : Handle) (mode : os.FileMode)
| EvWrite (f : Handle) (data : list byte)
| EvClose (f : Handle)
| EvRun (name : string)
| EvRemoveAll (fs : vfs.FS) (name : string)
| EvSymlink (fs : vfs.FS) (oldname newname : string)
| EvRenameioSymlink (oldname newname : string).

(** What the environment decides: which primitive fails and how, how many
    bytes a failing write still gets out, the umask, the random part of
    temporary names and what a subprocess does to the disk. *)
Record Env : Type := mkEnv {
  fault : Event -> option Go.error;
  shortWrite : Event -> nat;
  umask : os.FileMode;
  random : string;
  subprocess : string -> Disk -> Disk;
  globber : string -> Disk -> Go.result (list string);
  cmdOutput : Cmd -> Go.result (list byte);
}.

(** One primitive call: what was called, how it ended, the disk afterwards. *)
Record Step : Type := mkStep {
  event : Event;
  outcome : option Go.error;
  disk_after : Disk;
}.

Record OS : Type := mkOS {
  env : Env;
  disk : Disk;
  pstate : list (list byte * list byte * list byte);
  trace : list Step;
}.

Definition ErrNotExist : Go.error := Go.errorString "file does not exist".
Definition ErrExist : Go.error := Go.errorString "file already exists".
Definition ErrIsDir : Go.error := Go.errorString "is a directory".
Definition ErrLoop : Go.error := Go.errorString "too many levels of symbolic links".
Definition ErrInvalid : Go.error := Go.errorString "invalid argument".

Definition error_eqb (a b : Go.error) : bool :=
  match a, b with
  | Go.errorString x, Go.errorString y => String.eqb x y
  | _, _ => false
  end.

(** [os.IsNotExist(err)]. *)
Definition IsNotExist (err : option Go.error) : bool :=
  match err with
  | Some e => error_eqb e ErrNotExist
  | None => false
  end.

Definition O_WRONLY : Z := 0x1.
Definition O_CREATE : Z := 0x40.
Definition O_TRUNC : Z := 0x200.

(** Following symbolic links from [name] to the path they end at. *)
Fixpoint follow (fuel : nat) (m : gmap string vfs.Node) (name : string) : Go.result string :=
  match m !! name with
  | Some (vfs.Symlink target) =>
      match fuel with
      | O => Go.Err ErrLoop
      | S fuel' => follow fuel' m target
      end
  | _ => Go.Ok name
  end.

Definition maxLinks : nat := 40.

(** [dir] itself and everything below it. *)
Definition under (dir name : string) : bool :=
  String.eqb dir name || Go.HasPrefix name (dir +:+ "/").

Definition removeTree (name : string) (m : gmap string vfs.Node) : gmap string vfs.Node :=
  filter (fun kv => under name kv.1 = false) m.

(** Recording a primitive call. *)
Definition record (ev : Event) (err : option Go.error) (d : Disk) (o : OS) : OS :=
  mkOS (env o) d (pstate o) (trace o ++ [mkStep ev err d]).

(** A primitive with no result but an error: it fails when the environment
    says so, leaving the disk as it is, and otherwise has its effect. *)
Definition primitive (ev : Event) (effect : Disk -> Disk) (o : OS) : option Go.error * OS :=
  match fault (env o) ev with
  | Some err => (Some err, record ev (Some err) (disk o) o)
  | None => (None, record ev None (effect (disk o)) o)
  end.

(** [fs.OpenFile(name, flag, perm)] for writing: an existing file is truncated
    under [O_TRUNC] and keeps its mode; a missing one is created under
    [O_CREATE] with the bits of [perm] that reach the system, less the
    permission bits of the umask. *)
Definition fs_OpenFile (fs : vfs.FS) (name : string) (flag : Z) (perm : os.FileMode)
    (o : OS) : Go.result Handle * OS :=
  let ev := EvOpenFile fs name flag perm in
  let fail err := (Go.Err err, record ev (Some err) (disk o) o) in
  let m := files fs (disk o) in
  match fault (env o) ev with
  | Some err => fail err
  | None =>
      match follow maxLinks m name with
      | Go.Err err => fail err
      | Go.Ok target =>
          match m !! target with
          | Some (vfs.Dir _) => fail ErrIsDir
          | Some (vfs.Symlink _) => fail ErrLoop
          | Some (vfs.File mode data) =>
              let data' := if Z.land flag O_TRUNC =? 0 then data else [] in
              (Go.Ok (mkHandle fs target),
               record ev None (set_files fs (<[target := vfs.File mode data']> m) (disk o)) o)
          | None =>
              if Z.land flag O_CREATE =? 0 then fail ErrNotExist
              else
                let mode := os.andnot (os.syscallMode perm) (os.Perm (umask (env o))) in
                (Go.Ok (mkHandle fs target),
                 record ev None (set_files fs (<[target := vfs.File mode []]> m) (disk o)) o)
          end
      end
  end.

(** Changing what an open file holds. *)
Definition update_file (f : Handle) (g : os.FileMode -> list byte -> vfs.Node) (d : Disk) : Disk :=
  let m := files (h_fs f) d in
  match m !! h_name f with
  | Some (vfs.File mode data) => set_files (h_fs f) (<[h_name f := g mode data]> m) d
  | _ => d
  end.

(** [f.Chmod(mode)] changes the mode of the file to [mode]: the permission
    bits, [ModeSetuid], [ModeSetgid] and [ModeSticky] of [mode] replace those
    of the file; the other bits of the file's mode stay. *)
Definition f_Chmod (f : Handle) (mode : os.FileMode) (o : OS) : option Go.error * OS :=
  primitive (EvChmod f mode)
    (update_file f (fun old data =>
       vfs.File (Z.lor (os.andnot old os.chmodBits) (os.syscallMode mode)) data)) o.

(** [f.Write(data)] on a file opened at offset zero and written once.  A
    failing write may still have written the first bytes. *)
Definition f_Write (f : Handle) (data : list byte) (o : OS) : option Go.error * OS :=
  let ev := EvWrite f data in
  match fault (env o) ev with
  | Some err =>
      let d := update_file f (fun mode old =>
                 vfs.File mode (firstn (shortWrite (env o) ev) data ++ skipn (shortWrite (env o) ev) old)%list)
               (disk o) in
      (Some err, record ev (Some err) d o)
  | None =>
      let d := update_file f (fun mode old =>
                 vfs.File mode (data ++ skipn (length data) old)%list) (disk o) in
      (None, record ev None d o)
  end.

Definition f_Close (f : Handle) (o : OS) : option Go.error * OS :=
  primitive (EvClose f) (fun d => d) o.

(** [os.TempDir()]. *)
Definition TempDir : string := "/tmp".

(** The part of [pattern] before and after its last ["*"]. *)
Fixpoint prefixAndSuffix (pattern : string) : option (string * string) :=
  match pattern with
  | EmptyString => None
  | String c rest =>
      match prefixAndSuffix rest with
      | Some (p, s) => Some (String c p, s)
      | None => if Ascii.eqb c "*" then Some (EmptyString, rest) else None
      end
  end.

(** [ioutil.TempFile(dir, pattern)]: a new file, mode [0600], in [dir] (the
    default temporary directory when [dir] is empty) whose name is [pattern]
    with the last ["*"] replaced by a random string. *)
Definition ioutil_TempFile (dir pattern : string) (o : OS) : Go.result Handle * OS :=
  let ev := EvTempFile dir pattern in
  let fail err := (Go.Err err, record ev (Some err) (disk o) o) in
  let dir' := match dir with EmptyString => TempDir | _ => dir end in
  let '(pre, suf) := match prefixAndSuffix pattern with
                     | Some ps => ps
                     | None => (pattern, EmptyString)
                     end in
  let name := dir' +:+ "/" +:+ pre +:+ random (env o) +:+ suf in
  match fault (env o) ev with
  | Some err => fail err
  | None =>
      match live (disk o) !! name with
      | Some _ => fail ErrExist
      | None =>
          (Go.Ok (mkHandle vfs.OSFS name),
           record ev None (set_files vfs.OSFS (<[name := vfs.File 384 []]> (live (disk o))) (disk o)) o)
      end
  end.

(** [fs.RemoveAll(name)]: [name] and everything below it go; it is no error
    when there is nothing to remove. *)
Definition fs_RemoveAll (fs : vfs.FS) (name : string) (o : OS) : option Go.error * OS :=
  primitive (EvRemoveAll fs name) (fun d => set_files fs (removeTree name (files fs d)) d) o.

(** [fs.Symlink(oldname, newname)] fails when [newname] exists. *)
Definition fs_Symlink (fs : vfs.FS) (oldname newname : string) (o : OS) : option Go.error * OS :=
  let ev := EvSymlink fs oldname newname in
  match fault (env o) ev with
  | Some err => (Some err, record ev (Some err) (disk o) o)
  | None =>
      match files fs (disk o) !! newname with
      | Some _ => (Some ErrExist, record ev (Some ErrExist) (disk o) o)
      | None =>
          (None, record ev None
                   (set_files fs (<[newname := vfs.Symlink oldname]> (files fs (disk o))) (disk o)) o)
      end
  end.

(** [renameio.Symlink(oldname, newname)]: the link is created under a
    temporary name and renamed over [newname], so [newname] goes from what it
    was to the new link in one step.  It works on the live filesystem. *)
Definition renameio_Symlink (oldname newname : string) (o : OS) : option Go.error * OS :=
  primitive (EvRenameioSymlink oldname newname)
    (fun d => set_files vfs.OSFS (<[newname := vfs.Symlink oldname]> (live d)) d) o.

(** [exec.Command(name).Run()]: the subprocess does to the disk what the
    environment says, and may exit with an error. *)
Definition cmd_Run (name : string) (o : OS) : option Go.error * OS :=
  let ev := EvRun name in
  let d := subprocess (env o) name (disk o) in
  (fault (env o) ev, record ev (fault (env o) ev) d o).

(** ** The persistent state store: exactly [Get], [Set] and [Delete] *)

Module PersistentState.

Definition bytes_eqb (a b : list byte) : bool :=
  (length a =? length b)%nat && Go.bytesHasPrefix a b.

Definition is_at (bucket key : list byte) (r : list byte * list byte * list byte) : bool :=
  bytes_eqb bucket r.1.1 && bytes_eqb key r.1.2.

(** The value stored at (bucket, key); [nil] when there is none. *)
Definition Get (bucket key : list byte) (o : OS) : Go.result (list byte) * OS :=
  match List.find (is_at bucket key) (pstate o) with
  | Some r => (Go.Ok r.2, o)
  | None => (Go.Ok [], o)
  end.

Definition Delete (bucket key : list byte) (o : OS) : option Go.error * OS :=
  (None, mkOS (env o) (disk o)
              (List.filter (fun r => negb (is_at bucket key r)) (pstate o)) (trace o)).

Definition Set_ (bucket key value : list byte) (o : OS) : option Go.error * OS :=
  (None, mkOS (env o) (disk o)
              ((bucket, key, value)
                 :: List.filter (fun r => negb (is_at bucket key r)) (pstate o)) (trace o)).

End PersistentState.

(** ** The direct backend *)

(** [WriteFile(fs, filename, data, perm)]: like [ioutil.WriteFile] but always
    sets [perm] before writing [data].  The deferred [f.Close()] runs on every
    path once the file is open. *)
Definition WriteFile (fs : vfs.FS) (filename : string) (data : list byte)
    (perm : os.FileMode) (o : OS) : option Go.error * OS :=
  (* Create a new file, or truncate any existing one. *)
  let '(r, o) := fs_OpenFile fs filename (Z.lor O_WRONLY (Z.lor O_CREATE O_TRUNC)) perm o in
  match r with
  | Go.Err err => (Some err, o)
  | Go.Ok f =>
      let '(err, o) :=
        (* Set permissions after truncation but before writing any data. *)
        let '(err, o) := f_Chmod f perm o in
        match err with
        | Some _ => (err, o)
        | None => f_Write f data o
        end in
      (* defer *)
      let '(cerr, o) := f_Close f o in
      (Go.Append err cerr, o)
  end.

Module RealSystem.

(** A [RealSystem] holds a [vfs.FS] and a [PersistentState]; the store and
    the files are in the [OS].  (Its two caches are not used by the methods
    below.) *)
Record RealSystem : Type := NewRealSystem {
  FS : vfs.FS;
}.

(** [RunScript]: what runs between the creation of the temporary file and its
    deferred removal. *)
Definition runTempFile (f : Handle) (data : list byte) (o : OS) : option Go.error * OS :=
  (* Make the script private before writing it in case it contains any secrets. *)
  let '(err, o) := f_Chmod f 448 o in
  match err with
  | Some _ => (err, o)
  | None =>
      let '(err, o) := f_Write f data o in
      let '(cerr, o) := f_Close f o in
      let err := Go.Append err cerr in
      match err with
      | Some _ => (err, o)
      | None =>
          (* Run the temporary script file. *)
          cmd_Run (h_name f) o
      end
  end.

Definition RunScript (s : RealSystem) (name : string) (data : list byte) (o : OS)
    : option Go.error * OS :=
  (* Write the temporary script file. Put the randomness at the front of the
     filename to preserve any file extension for Windows scripts. *)
  let '(r, o) := ioutil_TempFile "" ("*." +:+ path_.Base name) o in
  match r with
  | Go.Err err => (Some err, o)
  | Go.Ok f =>
      let '(err, o) := runTempFile f data o in
      (* defer: err = multierr.Append(err, os.RemoveAll(f.Name())) *)
      let '(rerr, o) := fs_RemoveAll vfs.OSFS (h_name f) o in
      (Go.Append err rerr, o)
  end.

Definition WriteSymlink (s : RealSystem) (oldname newname : string) (o : OS)
    : option Go.error * OS :=
  (* Special case: if writing to the real filesystem, use renameio. *)
  if vfs.FS_eqb (FS s) vfs.OSFS then renameio_Symlink oldname newname o
  else
    let '(err, o) := fs_RemoveAll (FS s) newname o in
    match err with
    | Some e => if negb (IsNotExist err) then (err, o)
                else fs_Symlink (FS s) oldname newname o
    | None => fs_Symlink (FS s) oldname newname o
    end.

(** The reads a [RealSystem] inherits from its [vfs.FS] and its
    [PersistentState].  None of them changes anything. *)

Definition info_of (name : string) (n : vfs.Node) : os.FileInfo :=
  match n with
  | vfs.File mode data => os.mkFileInfo (path_.Base name) (Z.of_nat (length data)) mode
  | vfs.Symlink target =>
      os.mkFileInfo (path_.Base name) (Z.of_nat (String.length target))
                    (Z.lor os.ModeSymlink os.ModePerm)
  | vfs.Dir mode => os.mkFileInfo (path_.Base name) 0 (Z.lor os.ModeDir (os.Perm mode))
  end.

Definition Lstat (s : RealSystem) (name : string) (o : OS) : Go.result os.FileInfo * OS :=
  match files (FS s) (disk o) !! name with
  | Some n => (Go.Ok (info_of name n), o)
  | None => (Go.Err ErrNotExist, o)
  end.

Definition Stat (s : RealSystem) (name : string) (o : OS) : Go.result os.FileInfo * OS :=
  match follow maxLinks (files (FS s) (disk o)) name with
  | Go.Err err => (Go.Err err, o)
  | Go.Ok target =>
      match files (FS s) (disk o) !! target with
      | Some (vfs.Symlink _) => (Go.Err ErrLoop, o)
      | Some n => (Go.Ok (info_of name n), o)
      | None => (Go.Err ErrNotExist, o)
      end
  end.

Definition ReadFile (s : RealSystem) (filename : string) (o : OS) : Go.result (list byte) * OS :=
  match follow maxLinks (files (FS s) (disk o)) filename with
  | Go.Err err => (Go.Err err, o)
  | Go.Ok target =>
      match files (FS s) (disk o) !! target with
      | Some (vfs.File _ data) => (Go.Ok data, o)
      | Some (vfs.Dir _) => (Go.Err ErrIsDir, o)
      | Some (vfs.Symlink _) => (Go.Err ErrLoop, o)
      | None => (Go.Err ErrNotExist, o)
      end
  end.

Definition Readlink (s : RealSystem) (name : string) (o : OS) : Go.result string * OS :=
  match files (FS s) (disk o) !! name with
  | Some (vfs.Symlink target) => (Go.Ok target, o)
  | Some _ => (Go.Err ErrInvalid, o)
  | None => (Go.Err ErrNotExist, o)
  end.

(** Whether [name] is an entry of directory [dirname]. *)
Definition entry_of (dirname name : string) : bool :=
  Go.HasPrefix name (dirname +:+ "/")
  && negb (existsb (Ascii.eqb "/")
             (list_ascii_of_string (Go.drop_string (S (String.length dirname)) name))).

Fixpoint insert_sorted (x : string * vfs.Node) (l : list (string * vfs.Node)) :=
  match l with
  | [] => [x]
  | y :: l' => if String.leb x.1 y.1 then x :: l else y :: insert_sorted x l'
  end.

(** The entries of a directory, sorted by name. *)
Definition ReadDir (s : RealSystem) (dirname : string) (o : OS)
    : Go.result (list os.FileInfo) * OS :=
  match files (FS s) (disk o) !! dirname with
  | Some (vfs.Dir _) =>
      let entries :=
        List.filter (fun kv : string * vfs.Node => entry_of dirname kv.1)
                    (map_to_list (files (FS s) (disk o))) in
      (Go.Ok (map (fun kv : string * vfs.Node => info_of kv.1 kv.2)
                  (foldr insert_sorted [] entries)), o)
  | Some _ => (Go.Err ErrInvalid, o)
  | None => (Go.Err ErrNotExist, o)
  end.

(** [doublestar.GlobOS] and [cmd.Output()] are the environment's. *)
Definition Glob (s : RealSystem) (pattern : string) (o : OS) : Go.result (list string) * OS :=
  (globber (env o) pattern (disk o), o).

Definition IdempotentCmdOutput (s : RealSystem) (cmd : Cmd) (o : OS)
    : Go.result (list byte) * OS :=
  (cmdOutput (env o) cmd, o).

(** A [RealSystem] is a [SystemReader]. *)
Definition reader (s : RealSystem) : SystemReader OS := {|
  sr_Get := PersistentState.Get;
  sr_Glob := Glob s;
  sr_IdempotentCmdOutput := IdempotentCmdOutput s;
  sr_Lstat := Lstat s;
  sr_ReadDir := ReadDir s;
  sr_ReadFile := ReadFile s;
  sr_Readlink := Readlink s;
  sr_Stat := Stat s;
|}.

End RealSystem.

(** ** Stating the properties *)

(** The object a git blob with content [C] is hashed as, given the decimal
    numeral [d] of its length. *)
Definition blob (d C : list byte) : list byte :=
  (Go.bytes_of_string "blob " ++ d ++ [x00] ++ C)%list.

Section Emits.

Context {St Clock : Type}.

(** Going from [w] to [w'], exactly one patch was encoded, of exactly one
    file-patch [fp]. *)
Definition emits (w w' : GitDiffSystem.World St Clock) (fp : gitDiffFilePatch) : Prop :=
  encoded (GitDiffSystem.encoder w')
  = (encoded (GitDiffSystem.encoder w) ++ [mkPatch [fp] ""])%list.

(** Going from [w] to [w'], nothing was encoded. *)
Definition silent (w w' : GitDiffSystem.World St Clock) : Prop :=
  encoded (GitDiffSystem.encoder w') = encoded (GitDiffSystem.encoder w).

(** The world after the calls [cs] on the reader, which they leave in [st]. *)
Definition called (w : GitDiffSystem.World St Clock) (st : St) (cs : list Call)
    : GitDiffSystem.World St Clock :=
  GitDiffSystem.mkWorld st (GitDiffSystem.sr_calls w ++ cs)
    (GitDiffSystem.encoder w) (GitDiffSystem.clock w).

(** The world after encoding [p] on top of that, the clock at [clk]. *)
Definition encoding (w : GitDiffSystem.World St Clock) (st : St) (cs : list Call)
    (clk : Clock) (p : gitDiffPatch) : GitDiffSystem.World St Clock :=
  GitDiffSystem.mkWorld st (GitDiffSystem.sr_calls w ++ cs)
    (mkEncoder (encoded (GitDiffSystem.encoder w) ++ [p])
               (writeErr (GitDiffSystem.encoder w))) clk.

(** The chunks of a WriteFile patch and the clock afterwards. *)
Definition WriteFile_chunks (dmp : diffmatchpatch.Library Clock)
    (fromData data : list byte) (clk : Clock) : list gitDiffChunk * Clock :=
  if isBinary fromData || isBinary data then ([], clk)
  else diffChunks dmp (Go.string_of_bytes fromData) (Go.string_of_bytes data) clk.

(** [fp] is a change of mode only: both descriptors are there, at path [p],
    with the hash of unknown content, the modes being [fm] and [tm]. *)
Definition mode_change (fp : gitDiffFilePatch) (p : string)
    (fm tm : filemode.FileMode) : Prop :=
  exists f t,
    from fp = Some f /\ to fp = Some t
    /\ path f = p /\ path t = p
    /\ hash f = plumbing.ZeroHash /\ hash t = plumbing.ZeroHash
    /\ fileMode f = fm /\ fileMode t = tm.

(** What is said of Chmod for every name and mode on which Stat succeeds. *)
Definition Chmod_encodes_whenever_Stat_succeeds `{SystemReader St}
    (s : GitDiffSystem.GitDiffSystem) (name : string) (mode : os.FileMode)
    (w : GitDiffSystem.World St Clock) : Prop :=
  forall info st,
    sr_Stat name (GitDiffSystem.sr_state w) = (Go.Ok info, st) ->
    exists fp fm tm,
      emits w (GitDiffSystem.Chmod s name mode w).2 fp
      /\ mode_change fp (GitDiffSystem.trimPrefix s name) fm tm.

End Emits.

(** ** A small machine to run the backends on *)

Module Sample.

(** Nothing fails, umask [022], scripts do nothing. *)
Definition quiet : Env := {|
  fault := fun _ => None;
  shortWrite := fun _ => O;
  umask := 18;
  random := "316497";
  subprocess := fun _ d => d;
  globber := fun _ _ => Go.Ok [];
  cmdOutput := fun _ => Go.Ok [];
|}.

(** A home directory with a text file, a binary file, a pipe and a link. *)
Definition home : gmap string vfs.Node :=
  {[ "/home/user" := vfs.Dir 493;
     "/home/user/.bashrc" := vfs.File 420 (Go.bytes_of_string "foo");
     "/home/user/a" := vfs.File 511 (Go.bytes_of_string "old");
     "/home/user/icon" := vfs.File 420 [x00; x00; x01; x00; x01];
     "/home/user/pipe" := vfs.File (Z.lor os.ModeNamedPipe 420) [];
     "/home/user/link" := vfs.Symlink "/home/user/.bashrc" ]}.

Definition machine (fs : vfs.FS) (e : Env) : OS :=
  mkOS e (set_files fs home (mkDisk ∅ ∅))
       [(Go.bytes_of_string "scripts", Go.bytes_of_string "install.sh", [x01; x02])] [].

(** A stand-in for the diff library that takes each text as one line and
    uses up one tick of the clock. *)
Definition runesOf (s : string) : list Z := map (fun c => Z.of_nat (nat_of_ascii c)) (list_ascii_of_string s).

Definition wholeText : diffmatchpatch.Library nat := {|
  diffmatchpatch.DiffLinesToRunes from_ to_ :=
    ([1], if String.eqb from_ to_ then [1] else [2], [""; from_; to_]);
  diffmatchpatch.DiffMainRunes _ text1 text2 _ clk :=
    (match text1, text2 with
     | [a], [b] =>
         if a =? b then [diffmatchpatch.mkDiff diffmatchpatch.DiffEqual "1"]
         else [diffmatchpatch.mkDiff diffmatchpatch.DiffDelete "1";
               diffmatchpatch.mkDiff diffmatchpatch.DiffInsert "2"]
     | _, _ => []
     end, S clk);
  diffmatchpatch.DiffCharsToLines ds lines :=
    map (fun d =>
           diffmatchpatch.mkDiff (diffmatchpatch.Type_ d)
             (nth (if String.eqb (diffmatchpatch.Text d) "1" then 1 else 2) lines ""))
        ds;
|}.

(** A [GitDiffSystem] over a [RealSystem] on the test filesystem. *)
Definition real : RealSystem.RealSystem := RealSystem.NewRealSystem vfs.TestFS.

Definition gitDiff : GitDiffSystem.GitDiffSystem := GitDiffSystem.NewGitDiffSystem "/home/user/".

Definition world : GitDiffSystem.World OS nat :=
  GitDiffSystem.mkWorld (machine vfs.TestFS quiet) [] (mkEncoder [] None) O.

End Sample.

(** Whether a signature can be seen, from the table alone, not to yield a
    textual content type on data that begins with a null byte. *)
Definition nul_safe (sig : http.sniffSig) : bool :=
  match sig with
  | http.htmlSig h =>
      match h with
      | b :: _ => negb (Go.byte_val b =? 0)
      | [] => false
      end
  | http.maskedSig mask pat skipWS ct =>
      negb (Go.HasPrefix ct "text/")
      || match pat with
         | pb :: _ => negb (Go.byte_val pb =? 0)
         | [] => false
         end
  | http.exactSig sig ct => negb (Go.HasPrefix ct "text/")
  | http.mp4Sig => true
  | http.textSig => true
  end.

(** A run of every kind of write call. *)
Definition Sample_calls : list GitDiffSystem.WriteCall :=
  [ GitDiffSystem.DoWriteFile "/home/user/.bashrc" (Go.bytes_of_string "bar") 420;
    GitDiffSystem.DoChmod "/home/user/a" 420;
    GitDiffSystem.DoMkdir "/home/user/dir" 493;
    GitDiffSystem.DoRemoveAll "/home/user/icon";
    GitDiffSystem.DoRename "/home/user/a" "/home/user/b";
    GitDiffSystem.DoRunScript "install.sh" (Go.bytes_of_string "#!/bin/sh");
    GitDiffSystem.DoWriteSymlink ".bashrc" "/home/user/link";
    GitDiffSystem.DoSet (Go.bytes_of_string "scripts") (Go.bytes_of_string "install.sh") [x03];
    GitDiffSystem.DoDelete (Go.bytes_of_string "scripts") (Go.bytes_of_string "install.sh") ].

(** ** Stating the properties of the direct backend *)

(** The flags [WriteFile] opens with. *)
Definition WriteFile_flag : Z := Z.lor O_WRONLY (Z.lor O_CREATE O_TRUNC).

(** What the file behind [f] shows after a step: nothing, or bytes of [data]
    from its start, under permission [perm]. *)
Definition shows_only (f : Handle) (data : list byte) (perm : os.FileMode) (st : Step) : Prop :=
  exists m c,
    files (h_fs f) (disk_after st) !! h_name f = Some (vfs.File m c)
    /\ (c = [] \/ (os.Perm m = os.Perm perm /\ exists n, c = firstn n data)).

(** [filename] can be opened for writing: following links ends at a file or at
    a free name. *)
Definition writable (fs : vfs.FS) (filename : string) (d : Disk) : Prop :=
  exists target,
    follow maxLinks (files fs d) filename = Go.Ok target
    /\ match files fs d !! target with
       | Some (vfs.Dir _) | Some (vfs.Symlink _) => False
       | _ => True
       end.

(** The file at [name], if it is one. *)
Definition file_at (fs : vfs.FS) (name : string) (d : Disk) : option (os.FileMode * list byte) :=
  match files fs d !! name with
  | Some (vfs.File m c) => Some (m, c)
  | _ => None
  end.

(** A failing environment: the primitives on which [bad] answers with an
    error fail with it. *)
Definition failing (bad : Event -> option Go.error) : Env := {|
  fault := bad;
  shortWrite := fun _ => 1%nat;
  umask := 18;
  random := "316497";
  subprocess := fun _ d => d;
  globber := fun _ _ => Go.Ok [];
  cmdOutput := fun _ => Go.Ok [];
|}.

(** The script exits with an error and the temporary file cannot be removed. *)
Definition run_and_remove_fail (ev : Event) : option Go.error :=
  match ev with
  | EvRun _ => Some (Go.errorString "exit status 1")
  | EvRemoveAll _ _ => Some (Go.errorString "permission denied")
  | _ => None
  end.

(** The pattern of the temporary script file. *)
Definition script_pattern (name : string) : string := "*." +:+ path_.Base name.

(** ** The entry model (lib/chezmoi)

    [TargetState], its entries and [Populate] are exercised by
    lib/chezmoi/chezmoi_test.go, but their source is not at hand.  They are
    modelled from the specification's data model, with the markers spelled as
    the test table spells them. *)

Module TargetState.

(** Modelled from the spec: the entry variants of the data model (file:
    source name, target name, permission bits, template flag, content;
    directory: source name, target name, permission bits, children by name;
    symlink: source name, target name, template flag, link target), with the
    field names of the test table. *)
#[warnings="-register-all"] Inductive Entry : Type :=
| File (sourceName targetName : string) (Perm : os.FileMode) (Template : bool)
       (contents : list byte)
| Dir (sourceName targetName : string) (Perm : os.FileMode)
      (Entries : list (string * Entry))
| Symlink (sourceName targetName : string) (Template : bool) (linkname : string).

(** Modelled from the spec: the aggregate root, without the template bindings
    (template evaluation is an external collaborator). *)
Record TargetState : Type := mkTargetState {
  TargetDir : string;
  Umask : os.FileMode;
  SourceDir : string;
  Entries : list (string * Entry);
}.

Definition NewTargetState (targetDir : string) (umask : os.FileMode) (sourceDir : string) :=
  mkTargetState targetDir umask sourceDir [].

(** What is found under the source root. *)
#[warnings="-register-all"] Inductive Source : Type :=
| SrcFile (name : string) (contents : list byte)
| SrcDir (name : string) (children : list Source).

(** The naming markers, as the test table spells them.  The specification
    also names an executable marker; neither its spelling nor its permission
    rule is given, so its spelling is left open below. *)
Definition privatePrefix : string := "private_".
Definition dotPrefix : string := "dot_".
Definition symlinkPrefix : string := "symlink_".
Definition templateSuffix : string := ".tmpl".

(** [strings.HasSuffix] and [strings.TrimSuffix]. *)
Definition reverse (s : string) : string := string_of_list_ascii (rev (list_ascii_of_string s)).
Definition HasSuffix (s suffix : string) : bool := Go.HasPrefix (reverse s) (reverse suffix).
Definition TrimSuffix (s suffix : string) : string :=
  if HasSuffix s suffix then reverse (Go.drop_string (String.length suffix) (reverse s)) else s.

(** [filepath.Join] of a parent, empty at the root, and a name. *)
Definition join (parent name : string) : string :=
  match parent with
  | EmptyString => name
  | _ => parent +:+ "/" +:+ name
  end.

Section Decode.

(** The spelling of the executable marker. *)
Variable executablePrefix : string.

(** Modelled from the spec: the hidden-file marker becomes a leading dot. *)
Definition decodeDot (name : string) : string :=
  if Go.HasPrefix name dotPrefix then "." +:+ Go.TrimPrefix name dotPrefix else name.

(** Modelled from the spec: the part of a file name after the private marker:
    the executable marker, the hidden-file marker and the template suffix. *)
Definition decodeRest (name : string) : string * bool * bool :=
  let executable := Go.HasPrefix name executablePrefix in
  let name := Go.TrimPrefix name executablePrefix in
  let name := decodeDot name in
  let template := HasSuffix name templateSuffix in
  (TrimSuffix name templateSuffix, executable, template).

(** Modelled from the spec: the permission bits of a file: 0666 by default
    (0777 under the executable marker) masked by the umask, reduced to 0600
    when the private marker is present. *)
Definition filePerm (umask : os.FileMode) (private executable : bool) : os.FileMode :=
  if private then 384
  else os.andnot (if executable then 511 else 438) umask.

(** Modelled from the spec: the permission bits of a directory: 0777 masked
    by the umask, reduced to 0700 when the private marker is present. *)
Definition dirPerm (umask : os.FileMode) (private : bool) : os.FileMode :=
  if private then 448 else os.andnot 511 umask.

(** Modelled from the spec: the naming-convention decode of a directory name:
    target name and permission bits. *)
Definition parseDirName (umask : os.FileMode) (dirName : string) : string * os.FileMode :=
  let private := Go.HasPrefix dirName privatePrefix in
  let name := Go.TrimPrefix dirName privatePrefix in
  (decodeDot name, dirPerm umask private).

(** Modelled from the spec: the naming-convention decode of a file name:
    target name, whether it is a symlink, permission bits, template flag. *)
Definition parseFileName (umask : os.FileMode) (fileName : string)
    : string * bool * os.FileMode * bool :=
  if Go.HasPrefix fileName symlinkPrefix then
    let name := decodeDot (Go.TrimPrefix fileName symlinkPrefix) in
    (TrimSuffix name templateSuffix, true, 0, HasSuffix name templateSuffix)
  else
    let private := Go.HasPrefix fileName privatePrefix in
    let '(name, executable, template) := decodeRest (Go.TrimPrefix fileName privatePrefix) in
    (name, false, filePerm umask private executable, template).

(** Modelled from the spec: populating from what is found under the source
    root: every entry's target name is decoded from its source name, and a
    directory's children are populated under it.  The result is the entry
    with the name it is filed under. *)
Fixpoint populate (umask : os.FileMode) (sourceParent targetParent : string) (src : Source)
    : string * Entry :=
  match src with
  | SrcFile name contents =>
      let '(targetName, symlink, perm, template) := parseFileName umask name in
      (targetName,
       if symlink
       then Symlink (join sourceParent name) (join targetParent targetName) template
                    (Go.string_of_bytes contents)
       else File (join sourceParent name) (join targetParent targetName) perm template
                 contents)
  | SrcDir name children =>
      let '(targetName, perm) := parseDirName umask name in
      (targetName,
       Dir (join sourceParent name) (join targetParent targetName) perm
           (map (populate umask (join sourceParent name) (join targetParent targetName))
                children))
  end.

(** Modelled from the spec: [Populate] scans the source root. *)
Definition Populate (ts : TargetState) (root : list Source) : TargetState :=
  mkTargetState (TargetDir ts) (Umask ts) (SourceDir ts)
    (map (populate (Umask ts) "" "") root).

End Decode.

End TargetState.

(** ** Stating further properties *)

(** The write calls that are turned into a patch: all but the two on the
    persistent state. *)
Definition encodes (c : GitDiffSystem.WriteCall) : bool :=
  match c with
  | GitDiffSystem.DoSet _ _ _ | GitDiffSystem.DoDelete _ _ => false
  | _ => true
  end.

(** How many of the calls [cs], with results [errs], are turned into a patch
    and returned nil. *)
Fixpoint successes (cs : list GitDiffSystem.WriteCall) (errs : list (option Go.error)) : nat :=
  match cs, errs with
  | c :: cs', err :: errs' =>
      (if encodes c && (if err is None then true else false) then 1 else 0)%nat
      + successes cs' errs'
  | _, _ => O
  end.

(** A patch as every write method builds it: one file-patch, no message. *)
Definition single (p : gitDiffPatch) : Prop :=
  exists fp, p = mkPatch [fp] "".

(** The steps that going from [o] to [o'] added to the trace. *)
Definition new_steps (o o' : OS) : list Step := drop (length (trace o)) (trace o').

(** The path of the first subprocess started among [steps], and the disk as
    it was when it was started; [d0] is the disk before the steps. *)
Fixpoint disk_before_run (d0 : Disk) (steps : list Step) : option (string * Disk) :=
  match steps with
  | [] => None
  | st :: steps' =>
      match event st with
      | EvRun p => Some (p, d0)
      | _ => disk_before_run (disk_after st) steps'
      end
  end.

(** On disk [d] the file behind [f] is closed to group and others, and shows
    nothing, or bytes of [data] from its start under permission 0700. *)
Definition private_on (f : Handle) (data : list byte) (d : Disk) : Prop :=
  exists m c,
    files (h_fs f) d !! h_name f = Some (vfs.File m c)
    /\ Z.land m 63 = 0
    /\ (c = [] \/ (os.Perm m = 448 /\ exists n, c = firstn n data)).

(** The steps before a script is started or its file removed. *)
Definition setup_step (st : Step) : bool :=
  match event st with
  | EvRun _ | EvRemoveAll _ _ => false
  | _ => true
  end.

(** Whether a name has a ["*"]. *)
Fixpoint has_star (s : string) : bool :=
  match s with
  | EmptyString => false
  | String c s' => Ascii.eqb c "*" || has_star s'
  end.

(** The name of the temporary file of a script. *)
Definition script_file (e : Env) (name : string) : string :=
  TempDir +:+ "/" +:+ random e +:+ "." +:+ path_.Base name.

(** Disk [d] with node [n] at [name] of filesystem [fs]. *)
Definition put (fs : vfs.FS) (name : string) (n : vfs.Node) (d : Disk) : Disk :=
  set_files fs (<[name := n]> (files fs d)) d.

(** Mode [m] with its permission, setuid, setgid and sticky bits replaced by
    those of [perm]. *)
Definition replaced (m perm : os.FileMode) : os.FileMode :=
  Z.lor (os.andnot m os.chmodBits) (os.syscallMode perm).

(** What opening [target] for writing finds or makes: an existing file, whose
    mode is kept, or a free name, where a file is created with the bits of
    [perm] that reach the system, less the permission bits of the umask. *)
Definition opened (fs : vfs.FS) (target : string) (m0 : os.FileMode)
    (perm : os.FileMode) (o : OS) : Prop :=
  (files fs (disk o) !! target = None
   /\ m0 = os.andnot (os.syscallMode perm) (os.Perm (umask (env o))))
  \/ (exists c, files fs (disk o) !! target = Some (vfs.File m0 c)).


(** The errors of the primitives among [steps], in order. *)
Definition step_errors (steps : list Step) : list string :=
  concat (map (fun st => Go.Errors (outcome st)) steps).

(** * Properties *)

(** ** Sanity checks of the embedded library code *)

Example sha1_abc :
  hex (Sha1.Sum (Go.bytes_of_string "abc")) = "a9993e364706816aba3e25717850c26c9cd0d89d".
Proof. vm_compute. reflexivity. Qed.

Example sha1_empty :
  hex (Sha1.Sum []) = "da39a3ee5e6b4b0d3255bfef95601890afd80709".
Proof. vm_compute. reflexivity. Qed.

Example sha1_two_blocks :
  hex (Sha1.Sum (Go.bytes_of_string
         "abcdbcdecdefdefgefghfghighijhijkijkljklmklmnlmnomnopnopq"))
  = "84983e441c3bd26ebaae4aa1f95129e5e54670f1".
Proof. vm_compute. reflexivity. Qed.

Example hash_of_empty_blob :
  hex (plumbing.ComputeHash plumbing.BlobObject [])
  = "e69de29bb2d1d6434b8b29ae775ad8c2e48c5391".
Proof. vm_compute. reflexivity. Qed.

Example hash_of_hello_blob :
  hex (plumbing.ComputeHash plumbing.BlobObject (Go.bytes_of_string "hello
"))
  = "ce013625030ba8dba906f756967f9e9ca394464a".
Proof. vm_compute. reflexivity. Qed.

Example sniff_text : http.DetectContentType (Go.bytes_of_string "#!/bin/sh") = "text/plain; charset=utf-8".
Proof. vm_compute. reflexivity. Qed.

Example sniff_html : http.DetectContentType (Go.bytes_of_string "  <html >") = "text/html; charset=utf-8".
Proof. vm_compute. reflexivity. Qed.

Example sniff_png :
  http.DetectContentType (http.B [0x89; 0x50; 0x4E; 0x47; 0x0D; 0x0A; 0x1A; 0x0A; 0; 0]) = "image/png".
Proof. vm_compute. reflexivity. Qed.

Example sniff_mp4 :
  http.DetectContentType
    (http.B [0; 0; 0; 16] ++ http.T "ftypmp42" ++ http.B [0; 0; 0; 0]) = "video/mp4".
Proof. vm_compute. reflexivity. Qed.

Example sniff_nul : http.DetectContentType [x00] = "application/octet-stream".
Proof. vm_compute. reflexivity. Qed.

(** ** strconv.FormatInt writes the decimal numeral *)

Lemma digit_val_digit (d : Z) : 0 <= d <= 9 -> Go.digit_val (Go.digit d) = Some d.
Proof.
  intros Hd.
  assert (d = 0 \/ d = 1 \/ d = 2 \/ d = 3 \/ d = 4 \/ d = 5 \/ d = 6 \/ d = 7
          \/ d = 8 \/ d = 9) as Hcases by lia.
  repeat (destruct Hcases as [-> | Hcases]; [reflexivity |]).
  subst d. reflexivity.
Qed.

Lemma decimal_value_app (l1 l2 : list byte) : forall acc,
  Go.decimal_value acc (l1 ++ l2)
  = match Go.decimal_value acc l1 with
    | Some v => Go.decimal_value v l2
    | None => None
    end.
Proof.
  induction l1 as [| b l1 IH]; intros acc; simpl; [reflexivity |].
  destruct (Go.digit_val b); [apply IH | reflexivity].
Qed.

Lemma formatBits_acc (fuel : nat) : forall u a,
  Go.formatBits fuel u a = (Go.formatBits fuel u [] ++ a)%list.
Proof.
  induction fuel as [| fuel IH]; intros u a; simpl; [reflexivity |].
  destruct (10 <=? u); [| reflexivity].
  rewrite (IH _ (_ :: a)), (IH _ [_]), <- app_assoc. reflexivity.
Qed.

Lemma formatBits_value (fuel : nat) : forall u,
  0 <= u < 10 ^ Z.of_nat (S fuel) ->
  Go.decimal_value 0 (Go.formatBits fuel u []) = Some u.
Proof.
  induction fuel as [| fuel IH]; intros u Hu.
  - simpl. change (10 ^ Z.of_nat 1) with 10 in Hu.
    rewrite digit_val_digit by lia. f_equal.
  - cbn [Go.formatBits]. destruct (Z.leb_spec 10 u) as [Hge | Hlt].
    + rewrite formatBits_acc, decimal_value_app.
      assert (0 <= u / 10 < 10 ^ Z.of_nat (S fuel)) as Hq.
      { split; [apply Z.div_pos; lia |].
        apply Z.div_lt_upper_bound; [lia |].
        replace (Z.of_nat (S (S fuel))) with (Z.succ (Z.of_nat (S fuel))) in Hu by lia.
        rewrite Z.pow_succ_r in Hu by lia. lia. }
      rewrite (IH _ Hq). simpl.
      pose proof (Z.mod_pos_bound u 10 ltac:(lia)) as Hm.
      pose proof (Z.div_mod u 10 ltac:(lia)) as Hdm.
      rewrite digit_val_digit by lia. f_equal. lia.
    + simpl. rewrite digit_val_digit by lia. f_equal.
Qed.

Lemma formatBits_head (fuel : nat) : forall u,
  0 < u < 10 ^ Z.of_nat (S fuel) -> hd x00 (Go.formatBits fuel u []) <> x30.
Proof.
  assert (forall u, 0 < u < 10 -> Go.digit u <> x30) as Hdigit.
  { intros u Hu.
    assert (u = 1 \/ u = 2 \/ u = 3 \/ u = 4 \/ u = 5 \/ u = 6 \/ u = 7
            \/ u = 8 \/ u = 9) as Hcases by lia.
    repeat (destruct Hcases as [-> | Hcases]; [discriminate |]).
    subst u. discriminate. }
  induction fuel as [| fuel IH]; intros u Hu; cbn [Go.formatBits].
  - change (10 ^ Z.of_nat 1) with 10 in Hu. simpl. apply Hdigit. lia.
  - destruct (Z.leb_spec 10 u) as [Hge | Hlt].
    + rewrite formatBits_acc.
      assert (0 < u / 10 < 10 ^ Z.of_nat (S fuel)) as Hq.
      { split; [apply Z.div_str_pos; lia |].
        apply Z.div_lt_upper_bound; [lia |].
        replace (Z.of_nat (S (S fuel))) with (Z.succ (Z.of_nat (S fuel))) in Hu by lia.
        rewrite Z.pow_succ_r in Hu by lia. lia. }
      specialize (IH _ Hq).
      destruct (Go.formatBits fuel (u / 10) []) eqn:E; [| exact IH].
      destruct fuel; simpl in E; [discriminate |].
      destruct (10 <=? u / 10); [| discriminate].
      rewrite formatBits_acc in E. destruct (Go.formatBits _ _ []); discriminate.
    + simpl. apply Hdigit. lia.
Qed.

Lemma FormatInt_decimal (n : Z) : 0 <= n -> Go.decimal n (Go.FormatInt n).
Proof.
  intros Hn. unfold Go.FormatInt.
  destruct (Z.ltb_spec n 0) as [Hneg | _]; [lia |].
  assert (n < 10 ^ Z.of_nat (S (Z.to_nat (Z.log2 n)))) as Hbound.
  { pose proof (Z.log2_nonneg n) as Hl.
    replace (Z.of_nat (S (Z.to_nat (Z.log2 n)))) with (Z.succ (Z.log2 n)) by lia.
    destruct (Z.eq_dec n 0) as [-> | Hnz]; [reflexivity |].
    pose proof (Z.log2_spec n ltac:(lia)) as [_ Hlt].
    eapply Z.lt_le_trans; [exact Hlt |].
    apply Z.pow_le_mono_l. lia. }
  repeat split.
  - destruct (Z.to_nat (Z.log2 n)) as [| f]; cbn [Go.formatBits]; [discriminate |].
    destruct (10 <=? n); [| discriminate].
    rewrite formatBits_acc. destruct (Go.formatBits _ _ []); discriminate.
  - apply formatBits_value. lia.
  - intros Hhd. destruct (Z.eq_dec n 0) as [-> | Hnz]; [reflexivity |].
    exfalso. apply (formatBits_head (Z.to_nat (Z.log2 n)) n); [lia | exact Hhd].
Qed.

(** ** Content sniffing on data that begins with a null byte *)

Lemma mp4Boxes_not_text (fuel : nat) : forall st boxSize data,
  Go.HasPrefix (http.mp4Boxes fuel st boxSize data) "text/" = false.
Proof.
  induction fuel as [| fuel IH]; intros st boxSize data; cbn [http.mp4Boxes];
    [reflexivity |].
  destruct (st <? boxSize)%nat; [| reflexivity].
  destruct (st =? 12)%nat; [apply IH |].
  destruct (http.bytesEqual _ _); [reflexivity | apply IH].
Qed.

Lemma sig_match_nul (sig : http.sniffSig) (data : list byte) :
  nul_safe sig = true ->
  Go.HasPrefix (http.sig_match sig (x00 :: data) 0) "text/" = false.
Proof.
  destruct sig as [h | mask pat skipWS ct | sig ct | |]; cbn [nul_safe http.sig_match].
  - destruct h as [| b h]; [discriminate |]. intros Hb.
    cbn [skipn]. destruct (_ <? _)%nat; [reflexivity |].
    assert (http.htmlBytes (b :: h) (x00 :: data) = false) as ->; [| reflexivity].
    cbn [http.htmlBytes]. change (Go.byte_val x00) with 0.
    change (Z.land 0 223) with 0.
    replace (if (65 <=? Go.byte_val b) && (Go.byte_val b <=? 90) then 0 else 0)
      with 0 by (destruct (_ && _); reflexivity).
    apply negb_true_iff in Hb. rewrite Hb. reflexivity.
  - intros Hsafe.
    replace (if skipWS then skipn 0 (x00 :: data) else x00 :: data)
      with (x00 :: data) by (destruct skipWS; reflexivity).
    destruct (negb (length pat =? length mask)%nat); [reflexivity |].
    destruct (length (x00 :: data) <? length pat)%nat; [reflexivity |].
    destruct (http.maskedBytes pat mask (x00 :: data)) eqn:Hm; [| reflexivity].
    apply orb_true_iff in Hsafe as [Hct | Hpat].
    + apply negb_true_iff in Hct. exact Hct.
    + destruct pat as [| pb pat]; [discriminate |].
      destruct mask as [| m mask]; [discriminate |].
      cbn [http.maskedBytes] in Hm. change (Go.byte_val x00) with 0 in Hm.
      rewrite Z.land_0_l in Hm. apply negb_true_iff in Hpat.
      rewrite Z.eqb_sym, Hpat in Hm. discriminate.
  - intros Hct. apply negb_true_iff in Hct.
    destruct (Go.bytesHasPrefix _ _); [exact Hct | reflexivity].
  - intros _. destruct (_ <? _)%nat; [reflexivity |].
    destruct (_ || _); [reflexivity |].
    destruct (negb _); [reflexivity |].
    apply mp4Boxes_not_text.
  - intros _. reflexivity.
Qed.

Lemma firstMatch_nul (sigs : list http.sniffSig) (data : list byte) :
  forallb nul_safe sigs = true ->
  Go.HasPrefix (http.firstMatch sigs (x00 :: data) 0) "text/" = false.
Proof.
  induction sigs as [| sig sigs IH]; cbn [forallb http.firstMatch]; [reflexivity |].
  intros Hall. apply andb_true_iff in Hall as [Hsig Hrest].
  destruct (http.isEmptyString _); [apply IH; exact Hrest |].
  apply sig_match_nul. exact Hsig.
Qed.

Lemma DetectContentType_nul (rest : list byte) :
  Go.HasPrefix (http.DetectContentType (x00 :: rest)) "text/" = false.
Proof.
  unfold http.DetectContentType.
  change (firstn http.sniffLen (x00 :: rest)) with (x00 :: firstn 511 rest).
  cbn [http.firstNonWS http.isWS].
  apply firstMatch_nul. vm_compute. reflexivity.
Qed.

(** ** The diff-encoding backend *)

Section GitDiffSystemFacts.

Context {St Clock : Type} `{SystemReader St} (dmp : diffmatchpatch.Library Clock).

Implicit Types (s : GitDiffSystem.GitDiffSystem) (w : GitDiffSystem.World St Clock).

(** Encoding touches the encoder and nothing else. *)
Lemma encode_frame p w :
  GitDiffSystem.sr_state (GitDiffSystem.encode p w).2 = GitDiffSystem.sr_state w
  /\ GitDiffSystem.sr_calls (GitDiffSystem.encode p w).2 = GitDiffSystem.sr_calls w
  /\ GitDiffSystem.clock (GitDiffSystem.encode p w).2 = GitDiffSystem.clock w
  /\ (GitDiffSystem.encode p w).1 = writeErr (GitDiffSystem.encoder w)
  /\ encoded (GitDiffSystem.encoder (GitDiffSystem.encode p w).2)
     = (encoded (GitDiffSystem.encoder w) ++ [p])%list.
Proof. repeat split. Qed.

(** A call on the reader leaves the reader where the method leaves it. *)
Lemma sr_call_state {A} c (m : St -> A * St) w :
  GitDiffSystem.sr_state (GitDiffSystem.sr_call c m w).2 = (m (GitDiffSystem.sr_state w)).2
  /\ GitDiffSystem.encoder (GitDiffSystem.sr_call c m w).2 = GitDiffSystem.encoder w.
Proof.
  unfold GitDiffSystem.sr_call. destruct (m (GitDiffSystem.sr_state w)). split; reflexivity.
Qed.

Section ReadsDoNotWrite.

(** The contract of the read operations: they are not mutating.  Only the two
    that the write methods call are needed. *)
Hypothesis Stat_reads : forall name st, (sr_Stat name st).2 = st.
Hypothesis ReadFile_reads : forall name st, (sr_ReadFile name st).2 = st.

Lemma getFileMode_frame s name w :
  GitDiffSystem.sr_state (GitDiffSystem.getFileMode s name w).2 = GitDiffSystem.sr_state w.
Proof.
  unfold GitDiffSystem.getFileMode.
  pose proof (sr_call_state (CallStat name) (sr_Stat name) w) as [Hst _].
  rewrite Stat_reads in Hst.
  destruct (GitDiffSystem.sr_call _ _ w) as [[info | err] w1]; simpl in *; [| exact Hst].
  destruct (filemode.NewFromOSFileMode _); exact Hst.
Qed.

Lemma write_frame s c w :
  GitDiffSystem.sr_state (GitDiffSystem.write dmp s c w).2 = GitDiffSystem.sr_state w.
Proof.
  destruct c; cbn [GitDiffSystem.write];
    unfold GitDiffSystem.Chmod, GitDiffSystem.Mkdir, GitDiffSystem.RemoveAll,
      GitDiffSystem.Rename, GitDiffSystem.RunScript, GitDiffSystem.WriteFile,
      GitDiffSystem.WriteSymlink, GitDiffSystem.Set_, GitDiffSystem.Delete;
    try reflexivity;
    try (destruct (filemode.NewFromOSFileMode _); reflexivity);
    try (pose proof (getFileMode_frame s name w) as Hg;
         destruct (GitDiffSystem.getFileMode s name w) as [[[fm info] | err] w1];
         simpl in Hg; try exact Hg;
         try (destruct (filemode.NewFromOSFileMode _); exact Hg)).
  - pose proof (getFileMode_frame s oldpath w) as Hg.
    destruct (GitDiffSystem.getFileMode s oldpath w) as [[[fm info] | err] w1];
      simpl in Hg; exact Hg.
  - pose proof (getFileMode_frame s filename w) as Hg.
    destruct (GitDiffSystem.getFileMode s filename w) as [[[fm info] | err] w1];
      simpl in Hg; [| exact Hg].
    pose proof (sr_call_state (CallReadFile filename) (sr_ReadFile filename) w1)
      as [Hst _].
    rewrite ReadFile_reads, Hg in Hst.
    destruct (GitDiffSystem.sr_call _ _ w1) as [[fromData | err] w2]; simpl in Hst;
      [| exact Hst].
    destruct (filemode.NewFromOSFileMode perm); [| exact Hst].
    destruct (negb _); [| exact Hst].
    destruct (diffChunks _ _ _ _). exact Hst.
Qed.

Lemma writes_frame s cs : forall w,
  GitDiffSystem.sr_state (GitDiffSystem.writes dmp s cs w).2 = GitDiffSystem.sr_state w.
Proof.
  induction cs as [| c cs IH]; intros w; cbn [GitDiffSystem.writes]; [reflexivity |].
  pose proof (write_frame s c w) as Hc.
  destruct (GitDiffSystem.write dmp s c w) as [err w1]. simpl in Hc.
  specialize (IH w1). destruct (GitDiffSystem.writes dmp s cs w1) as [errs w2].
  simpl in *. congruence.
Qed.

End ReadsDoNotWrite.

End GitDiffSystemFacts.

(** The reads of the direct backend change nothing. *)
Lemma RealSystem_Stat_reads (r : RealSystem.RealSystem) name o :
  (RealSystem.Stat r name o).2 = o.
Proof.
  unfold RealSystem.Stat. destruct (follow _ _ _); [| reflexivity].
  destruct (_ !! _) as [[| |] |]; reflexivity.
Qed.

Lemma RealSystem_ReadFile_reads (r : RealSystem.RealSystem) name o :
  (RealSystem.ReadFile r name o).2 = o.
Proof.
  unfold RealSystem.ReadFile. destruct (follow _ _ _); [| reflexivity].
  destruct (_ !! _) as [[| |] |]; reflexivity.
Qed.

(** C1.  Whatever sequence of write calls (Chmod, Mkdir, RemoveAll, Rename,
    RunScript, WriteFile, WriteSymlink, Set, Delete) goes through a
    GitDiffSystem whose reader honours the contract that reads do not mutate,
    the state of the wrapped reader afterwards is the state before; so every
    file and every persistent-state key reads back, by a direct query of the
    reader, as it did before.  Set and Delete return nil and leave the whole
    world as it is, for all arguments. *)
Theorem GitDiffSystem_writes_leave_reader_unchanged :
  forall (St Clock : Type) (R : SystemReader St) (dmp : diffmatchpatch.Library Clock),
    (forall name st, (sr_Stat name st).2 = st) ->
    (forall name st, (sr_ReadFile name st).2 = st) ->
    forall (s : GitDiffSystem.GitDiffSystem) (cs : list GitDiffSystem.WriteCall)
           (w : GitDiffSystem.World St Clock),
      let w' := (GitDiffSystem.writes dmp s cs w).2 in
      GitDiffSystem.sr_state w' = GitDiffSystem.sr_state w
      /\ (forall filename,
            (sr_ReadFile filename (GitDiffSystem.sr_state w')).1
            = (sr_ReadFile filename (GitDiffSystem.sr_state w)).1)
      /\ (forall bucket key,
            (sr_Get bucket key (GitDiffSystem.sr_state w')).1
            = (sr_Get bucket key (GitDiffSystem.sr_state w)).1)
      /\ (forall bucket key value, GitDiffSystem.Set_ s bucket key value w = (None, w))
      /\ (forall bucket key, GitDiffSystem.Delete s bucket key w = (None, w)).
Proof.
  intros St Clock R dmp HStat HReadFile s cs w w'.
  assert (GitDiffSystem.sr_state w' = GitDiffSystem.sr_state w) as Hframe
    by (apply writes_frame; assumption).
  repeat split; try assumption; intros; rewrite Hframe; reflexivity.
Qed.

Lemma GitDiffSystem_writes_leave_reader_unchanged_witness :
  let w := Sample.world in
  let w' := (GitDiffSystem.writes (H := RealSystem.reader Sample.real)
               Sample.wholeText Sample.gitDiff Sample_calls w).2 in
  GitDiffSystem.sr_state w' = GitDiffSystem.sr_state w
  /\ (forall filename,
        (RealSystem.ReadFile Sample.real filename (GitDiffSystem.sr_state w')).1
        = (RealSystem.ReadFile Sample.real filename (GitDiffSystem.sr_state w)).1)
  /\ (forall bucket key,
        (PersistentState.Get bucket key (GitDiffSystem.sr_state w')).1
        = (PersistentState.Get bucket key (GitDiffSystem.sr_state w)).1)
  /\ (forall bucket key value,
        GitDiffSystem.Set_ Sample.gitDiff bucket key value w = (None, w))
  /\ (forall bucket key, GitDiffSystem.Delete Sample.gitDiff bucket key w = (None, w)).
Proof.
  exact (GitDiffSystem_writes_leave_reader_unchanged OS nat
           (RealSystem.reader Sample.real) Sample.wholeText
           (RealSystem_Stat_reads Sample.real) (RealSystem_ReadFile_reads Sample.real)
           Sample.gitDiff Sample_calls Sample.world).
Defined.

(** The sample run does encode: seven patches, for the seven calls that are
    not on the persistent state, and the store still holds its record. *)
Example sample_run_encodes :
  let r := GitDiffSystem.writes (H := RealSystem.reader Sample.real)
             Sample.wholeText Sample.gitDiff Sample_calls Sample.world in
  r.1 = [None; None; None; None; None; None; None; None; None]
  /\ length (encoded (GitDiffSystem.encoder r.2)) = 7%nat
  /\ pstate (GitDiffSystem.sr_state r.2)
     = [(Go.bytes_of_string "scripts", Go.bytes_of_string "install.sh", [x01; x02])].
Proof. vm_compute. repeat split. Qed.

(** By contrast the store of the direct backend does change under Set. *)
Example direct_Set_writes :
  pstate (PersistentState.Set_ (Go.bytes_of_string "scripts")
            (Go.bytes_of_string "install.sh") [x03]
            (Sample.machine vfs.TestFS Sample.quiet)).2
  = [(Go.bytes_of_string "scripts", Go.bytes_of_string "install.sh", [x03])].
Proof. vm_compute. reflexivity. Qed.

(** C10.  RunScript of the diff-encoding backend runs nothing and reads
    nothing: it makes no call on the wrapped reader and leaves its state and
    the clock alone.  For every name and data it encodes exactly one
    file-patch, with no from descriptor and a to descriptor of executable
    mode, the prefix-trimmed name and the blob hash of the data; the patch is
    marked binary exactly when isBinary(data), and it carries the one add
    chunk with the whole script when the data is not binary, no chunk
    otherwise. *)
Theorem GitDiffSystem_RunScript_encodes_script :
  forall (St Clock : Type) (R : SystemReader St) (s : GitDiffSystem.GitDiffSystem)
         (name : string) (data : list byte) (w : GitDiffSystem.World St Clock),
    let r := GitDiffSystem.RunScript s name data w in
    exists fp toFile,
      r.1 = writeErr (GitDiffSystem.encoder w)
      /\ GitDiffSystem.sr_state r.2 = GitDiffSystem.sr_state w
      /\ GitDiffSystem.sr_calls r.2 = GitDiffSystem.sr_calls w
      /\ GitDiffSystem.clock r.2 = GitDiffSystem.clock w
      /\ emits w r.2 fp
      /\ from fp = None
      /\ to fp = Some toFile
      /\ fileMode toFile = filemode.Executable
      /\ path toFile = Go.TrimPrefix name (GitDiffSystem.prefix s)
      /\ hash toFile = plumbing.ComputeHash plumbing.BlobObject data
      /\ isBinaryFlag fp = isBinary data
      /\ chunks fp = if isBinary data then []
                     else [mkChunk (Go.string_of_bytes data) diff.Add].
Proof.
  intros St Clock R s name data w r. subst r. unfold GitDiffSystem.RunScript.
  eexists. eexists. repeat split. simpl.
  destruct (isBinary data); reflexivity.
Qed.

(** Through the diff-encoding backend a script leaves no trace on the machine
    behind it; through the direct backend it is run. *)
Example RunScript_is_not_run :
  let data := Go.bytes_of_string "#!/bin/sh" in
  trace (GitDiffSystem.sr_state
           (GitDiffSystem.RunScript Sample.gitDiff "install.sh" data Sample.world).2)
  = []
  /\ In (EvRun "/tmp/316497.install.sh")
        (map event
           (trace (RealSystem.RunScript Sample.real "install.sh" data
                     (Sample.machine vfs.TestFS Sample.quiet)).2)).
Proof. vm_compute. split; [reflexivity | tauto]. Qed.

(** ** What each write method encodes *)

Section GitDiffSystemCases.

Context {St Clock : Type} `{SystemReader St} (dmp : diffmatchpatch.Library Clock).

Implicit Types (s : GitDiffSystem.GitDiffSystem) (w : GitDiffSystem.World St Clock).

Lemma getFileMode_cases s name w :
  GitDiffSystem.getFileMode s name w
  = match sr_Stat name (GitDiffSystem.sr_state w) with
    | (Go.Err err, st) => (Go.Err err, called w st [CallStat name])
    | (Go.Ok info, st) =>
        match filemode.NewFromOSFileMode (os.Mode info) with
        | Go.Err err => (Go.Err err, called w st [CallStat name])
        | Go.Ok fm => (Go.Ok (fm, info), called w st [CallStat name])
        end
    end.
Proof.
  unfold GitDiffSystem.getFileMode, GitDiffSystem.sr_call.
  destruct (sr_Stat name (GitDiffSystem.sr_state w)) as [[info | err] st]; [| reflexivity].
  destruct (filemode.NewFromOSFileMode (os.Mode info)); reflexivity.
Qed.

Lemma Chmod_cases s name mode w :
  GitDiffSystem.Chmod s name mode w
  = match sr_Stat name (GitDiffSystem.sr_state w) with
    | (Go.Err err, st) => (Some err, called w st [CallStat name])
    | (Go.Ok info, st) =>
        match filemode.NewFromOSFileMode (os.Mode info) with
        | Go.Err err => (Some err, called w st [CallStat name])
        | Go.Ok fm =>
            match filemode.NewFromOSFileMode
                    (Z.lor (os.andnot (os.Mode info) os.ModePerm) mode) with
            | Go.Err err => (Some err, called w st [CallStat name])
            | Go.Ok tm =>
                (writeErr (GitDiffSystem.encoder w),
                 encoding w st [CallStat name] (GitDiffSystem.clock w)
                   (mkPatch
                      [ mkFilePatch false
                          (Some (mkFile plumbing.ZeroHash fm (GitDiffSystem.trimPrefix s name)))
                          (Some (mkFile plumbing.ZeroHash tm (GitDiffSystem.trimPrefix s name)))
                          [] ] ""))
            end
        end
    end.
Proof.
  unfold GitDiffSystem.Chmod. rewrite getFileMode_cases.
  destruct (sr_Stat name (GitDiffSystem.sr_state w)) as [[info | err] st]; [| reflexivity].
  destruct (filemode.NewFromOSFileMode (os.Mode info)); [| reflexivity].
  destruct (filemode.NewFromOSFileMode (Z.lor _ mode)); reflexivity.
Qed.

Lemma WriteFile_cases s filename data perm w :
  GitDiffSystem.WriteFile dmp s filename data perm w
  = match sr_Stat filename (GitDiffSystem.sr_state w) with
    | (Go.Err err, st) => (Some err, called w st [CallStat filename])
    | (Go.Ok info, st) =>
        match filemode.NewFromOSFileMode (os.Mode info) with
        | Go.Err err => (Some err, called w st [CallStat filename])
        | Go.Ok fm =>
            match sr_ReadFile filename st with
            | (Go.Err err, st') =>
                (Some err, called w st' [CallStat filename; CallReadFile filename])
            | (Go.Ok fromData, st') =>
                match filemode.NewFromOSFileMode perm with
                | Go.Err err =>
                    (Some err, called w st' [CallStat filename; CallReadFile filename])
                | Go.Ok tm =>
                    let cs := WriteFile_chunks dmp fromData data (GitDiffSystem.clock w) in
                    (writeErr (GitDiffSystem.encoder w),
                     encoding w st' [CallStat filename; CallReadFile filename] cs.2
                       (mkPatch
                          [ mkFilePatch (isBinary fromData || isBinary data)
                              (Some (mkFile (plumbing.ComputeHash plumbing.BlobObject fromData)
                                            fm (GitDiffSystem.trimPrefix s filename)))
                              (Some (mkFile (plumbing.ComputeHash plumbing.BlobObject data)
                                            tm (GitDiffSystem.trimPrefix s filename)))
                              cs.1 ] ""))
                end
            end
        end
    end.
Proof.
  unfold GitDiffSystem.WriteFile. rewrite getFileMode_cases.
  destruct (sr_Stat filename (GitDiffSystem.sr_state w)) as [[info | err] st]; [| reflexivity].
  destruct (filemode.NewFromOSFileMode (os.Mode info)); [| reflexivity].
  unfold GitDiffSystem.sr_call, called, encoding. cbn [GitDiffSystem.sr_state].
  destruct (sr_ReadFile filename st) as [[fromData | err] st'];
    [| cbn; rewrite <- app_assoc; reflexivity].
  destruct (filemode.NewFromOSFileMode perm);
    [| cbn; rewrite <- app_assoc; reflexivity].
  unfold WriteFile_chunks.
  destruct (isBinary fromData || isBinary data); cbn.
  - rewrite <- app_assoc. reflexivity.
  - destruct (diffChunks _ _ _ _). cbn. rewrite <- app_assoc. reflexivity.
Qed.

(** An emitted file-patch is the one that was appended. *)
Lemma emits_encoding w st cs clk fp0 fp :
  emits w (encoding w st cs clk (mkPatch [fp0] "")) fp -> fp = fp0.
Proof.
  unfold emits, encoding. cbn. intros Heq.
  apply app_inv_head in Heq. congruence.
Qed.

Lemma emits_called w st cs fp : ~ emits w (called w st cs) fp.
Proof.
  unfold emits, called. cbn. intros Heq.
  apply (f_equal (@length _)) in Heq. rewrite length_app in Heq. simpl in Heq. lia.
Qed.

End GitDiffSystemCases.

(** ** Content hashes *)

Lemma ComputeHash_blob (C : list byte) :
  plumbing.ComputeHash plumbing.BlobObject C
  = Sha1.Sum (blob (Go.FormatInt (Z.of_nat (length C))) C).
Proof.
  unfold plumbing.ComputeHash, plumbing.Sum, plumbing.NewHasher, plumbing.Write, blob.
  cbn [plumbing.written]. f_equal.
  rewrite <- !app_assoc. reflexivity.
Qed.

(** C2.  For every byte sequence C there is the decimal numeral d of len(C)
    such that the hash of "blob " + d + NUL + C is the content hash of every
    patch descriptor whose content is C: the to-hash of the patch that
    WriteFile emits for data C, its from-hash when the existing content (what
    the reader's ReadFile returns) is C, the hash of the patch RunScript emits
    for script bytes C and the hash of the patch WriteSymlink emits for a
    link target whose bytes are C. *)
Theorem content_hash_is_blob_hash :
  forall C : list byte,
  exists d : list byte,
    Go.decimal (Z.of_nat (length C)) d
    /\ forall (St Clock : Type) (R : SystemReader St)
              (dmp : diffmatchpatch.Library Clock)
              (s : GitDiffSystem.GitDiffSystem) (w : GitDiffSystem.World St Clock),
         (forall filename perm fp,
             emits w (GitDiffSystem.WriteFile dmp s filename C perm w).2 fp ->
             exists f, to fp = Some f /\ hash f = Sha1.Sum (blob d C))
         /\ (forall filename data perm info st st' fp,
               sr_Stat filename (GitDiffSystem.sr_state w) = (Go.Ok info, st) ->
               sr_ReadFile filename st = (Go.Ok C, st') ->
               emits w (GitDiffSystem.WriteFile dmp s filename data perm w).2 fp ->
               exists f, from fp = Some f /\ hash f = Sha1.Sum (blob d C))
         /\ (forall name,
               exists fp f,
                 emits w (GitDiffSystem.RunScript s name C w).2 fp
                 /\ to fp = Some f /\ hash f = Sha1.Sum (blob d C))
         /\ (forall oldname newname,
               Go.bytes_of_string oldname = C ->
               exists fp f,
                 emits w (GitDiffSystem.WriteSymlink s oldname newname w).2 fp
                 /\ to fp = Some f /\ hash f = Sha1.Sum (blob d C)).
Proof.
  intros C. exists (Go.FormatInt (Z.of_nat (length C))).
  split; [apply FormatInt_decimal; lia |].
  intros St Clock R dmp s w. rewrite <- ComputeHash_blob. repeat split.
  - intros filename perm fp Hemit. rewrite WriteFile_cases in Hemit.
    destruct (sr_Stat filename _) as [[info | err] st];
      [| exfalso; exact (emits_called _ _ _ _ Hemit)].
    destruct (filemode.NewFromOSFileMode (os.Mode info));
      [| exfalso; exact (emits_called _ _ _ _ Hemit)].
    destruct (sr_ReadFile filename st) as [[fromData | err] st'];
      [| exfalso; exact (emits_called _ _ _ _ Hemit)].
    destruct (filemode.NewFromOSFileMode perm);
      [| exfalso; exact (emits_called _ _ _ _ Hemit)].
    apply emits_encoding in Hemit. subst fp. eexists. split; reflexivity.
  - intros filename data perm info st st' fp HStat HRead Hemit.
    rewrite WriteFile_cases, HStat in Hemit.
    destruct (filemode.NewFromOSFileMode (os.Mode info));
      [| exfalso; exact (emits_called _ _ _ _ Hemit)].
    rewrite HRead in Hemit.
    destruct (filemode.NewFromOSFileMode perm);
      [| exfalso; exact (emits_called _ _ _ _ Hemit)].
    apply emits_encoding in Hemit. subst fp. eexists. split; reflexivity.
  - intros name. eexists. eexists. repeat split.
  - intros oldname newname <-. eexists. eexists. repeat split.
Qed.

Lemma content_hash_is_blob_hash_witness :
  exists d fp f t,
    Go.decimal 3 d
    /\ emits Sample.world
         (GitDiffSystem.WriteFile (H := RealSystem.reader Sample.real) Sample.wholeText
            Sample.gitDiff "/home/user/.bashrc" (Go.bytes_of_string "foo") 420
            Sample.world).2 fp
    /\ from fp = Some f /\ to fp = Some t
    /\ hash f = Sha1.Sum (blob d (Go.bytes_of_string "foo"))
    /\ hash t = Sha1.Sum (blob d (Go.bytes_of_string "foo")).
Proof.
  destruct (content_hash_is_blob_hash (Go.bytes_of_string "foo")) as [d [Hd Hall]].
  destruct (Hall OS nat (RealSystem.reader Sample.real) Sample.wholeText
              Sample.gitDiff Sample.world) as (Hto & Hfrom & _ & _).
  set (fp := mkFilePatch false
               (Some (mkFile (plumbing.ComputeHash plumbing.BlobObject (Go.bytes_of_string "foo"))
                             filemode.Regular ".bashrc"))
               (Some (mkFile (plumbing.ComputeHash plumbing.BlobObject (Go.bytes_of_string "foo"))
                             filemode.Regular ".bashrc"))
               [mkChunk "foo" diff.Equal]).
  assert (emits Sample.world
            (GitDiffSystem.WriteFile (H := RealSystem.reader Sample.real) Sample.wholeText
               Sample.gitDiff "/home/user/.bashrc" (Go.bytes_of_string "foo") 420
               Sample.world).2 fp) as Hemit by (vm_compute; reflexivity).
  destruct (Hto "/home/user/.bashrc" 420 fp Hemit) as [t [Ht Hth]].
  destruct (Hfrom "/home/user/.bashrc" (Go.bytes_of_string "foo") 420
              (os.mkFileInfo ".bashrc" 3 420) (GitDiffSystem.sr_state Sample.world)
              (GitDiffSystem.sr_state Sample.world) fp
              ltac:(vm_compute; reflexivity) ltac:(vm_compute; reflexivity) Hemit)
    as [f [Hf Hfh]].
  exists d, fp, f, t.
  exact (conj Hd (conj Hemit (conj Hf (conj Ht (conj Hfh Hth))))).
Defined.

(** ** Binary content *)

(** C4.  isBinary holds exactly of the non-empty contents whose sniffed
    content type does not start with "text/": it is false of the empty byte
    sequence, false of every content sniffed as "text/...", true of every
    content that begins with a null byte.  When the existing content or the
    new content of a WriteFile is binary, the file-patch it emits is marked
    binary and carries no chunk, and it does emit one whenever the existing
    mode and perm have git equivalents; the line diff is not run: the clock
    it would have read is untouched and the outcome is the same whatever the
    diff library is. *)
Theorem isBinary_classification :
  (forall data,
      isBinary data = true
      <-> data <> [] /\ Go.HasPrefix (http.DetectContentType data) "text/" = false)
  /\ isBinary [] = false
  /\ (forall data,
        Go.HasPrefix (http.DetectContentType data) "text/" = true ->
        isBinary data = false)
  /\ (forall rest, isBinary (x00 :: rest) = true)
  /\ (forall (St Clock : Type) (R : SystemReader St)
             (dmp : diffmatchpatch.Library Clock) (s : GitDiffSystem.GitDiffSystem)
             filename data perm (w : GitDiffSystem.World St Clock) info st fromData st',
        sr_Stat filename (GitDiffSystem.sr_state w) = (Go.Ok info, st) ->
        sr_ReadFile filename st = (Go.Ok fromData, st') ->
        isBinary fromData = true \/ isBinary data = true ->
        let r := GitDiffSystem.WriteFile dmp s filename data perm w in
        (forall fp, emits w r.2 fp -> isBinaryFlag fp = true /\ chunks fp = [])
        /\ (forall fm tm,
              filemode.NewFromOSFileMode (os.Mode info) = Go.Ok fm ->
              filemode.NewFromOSFileMode perm = Go.Ok tm ->
              exists fp,
                emits w r.2 fp /\ isBinaryFlag fp = true /\ chunks fp = []
                /\ from fp = Some (mkFile (plumbing.ComputeHash plumbing.BlobObject fromData)
                                     fm (GitDiffSystem.trimPrefix s filename))
                /\ to fp = Some (mkFile (plumbing.ComputeHash plumbing.BlobObject data)
                                   tm (GitDiffSystem.trimPrefix s filename)))
        /\ GitDiffSystem.clock r.2 = GitDiffSystem.clock w
        /\ (forall dmp', GitDiffSystem.WriteFile dmp' s filename data perm w = r)).
Proof.
  split; [| split; [| split; [| split]]].
  - intros data. unfold isBinary. rewrite andb_true_iff, !negb_true_iff.
    destruct data; simpl; split; intros [Hne Hct]; split; congruence.
  - reflexivity.
  - intros data Hct. unfold isBinary. rewrite Hct. apply andb_false_r.
  - intros rest. unfold isBinary. rewrite DetectContentType_nul. reflexivity.
  - intros St Clock R dmp s filename data perm w info st fromData st' HStat HRead Hbin r.
    assert (isBinary fromData || isBinary data = true) as Hor
      by (apply orb_true_iff; exact Hbin).
    assert (forall dmp0, WriteFile_chunks dmp0 fromData data (GitDiffSystem.clock w)
                         = ([], GitDiffSystem.clock w)) as Hchunks
      by (intros dmp0; unfold WriteFile_chunks; rewrite Hor; reflexivity).
    assert (forall dmp0, GitDiffSystem.WriteFile dmp0 s filename data perm w
              = match filemode.NewFromOSFileMode (os.Mode info) with
                | Go.Err err => (Some err, called w st [CallStat filename])
                | Go.Ok fm =>
                    match filemode.NewFromOSFileMode perm with
                    | Go.Err err =>
                        (Some err, called w st' [CallStat filename; CallReadFile filename])
                    | Go.Ok tm =>
                        (writeErr (GitDiffSystem.encoder w),
                         encoding w st' [CallStat filename; CallReadFile filename]
                           (GitDiffSystem.clock w)
                           (mkPatch
                              [ mkFilePatch true
                                  (Some (mkFile (plumbing.ComputeHash plumbing.BlobObject fromData)
                                                fm (GitDiffSystem.trimPrefix s filename)))
                                  (Some (mkFile (plumbing.ComputeHash plumbing.BlobObject data)
                                                tm (GitDiffSystem.trimPrefix s filename)))
                                  [] ] ""))
                    end
                end) as Hrun.
    { intros dmp0. rewrite WriteFile_cases, HStat.
      destruct (filemode.NewFromOSFileMode (os.Mode info)); [| reflexivity].
      rewrite HRead. destruct (filemode.NewFromOSFileMode perm); [| reflexivity].
      cbv zeta. rewrite Hchunks, Hor. reflexivity. }
    subst r. split; [| split; [| split]].
    + intros fp Hemit. rewrite Hrun in Hemit.
      destruct (filemode.NewFromOSFileMode (os.Mode info));
        [| exfalso; exact (emits_called _ _ _ _ Hemit)].
      destruct (filemode.NewFromOSFileMode perm);
        [| exfalso; exact (emits_called _ _ _ _ Hemit)].
      apply emits_encoding in Hemit. subst fp. split; reflexivity.
    + intros fm tm Hfm Htm. rewrite Hrun, Hfm, Htm.
      eexists. split; [reflexivity |]. repeat split.
    + rewrite Hrun.
      destruct (filemode.NewFromOSFileMode (os.Mode info)); [| reflexivity].
      destruct (filemode.NewFromOSFileMode perm); reflexivity.
    + intros dmp'. rewrite !Hrun. reflexivity.
Qed.

Lemma isBinary_classification_witness :
  isBinary (Go.bytes_of_string "#!/bin/sh") = false
  /\ (let r := GitDiffSystem.WriteFile (H := RealSystem.reader Sample.real)
                 Sample.wholeText Sample.gitDiff "/home/user/icon"
                 (Go.bytes_of_string "new") 420 Sample.world in
      (forall fp, emits Sample.world r.2 fp -> isBinaryFlag fp = true /\ chunks fp = [])
      /\ (exists fp,
            emits Sample.world r.2 fp /\ isBinaryFlag fp = true /\ chunks fp = []
            /\ from fp
               = Some (mkFile (plumbing.ComputeHash plumbing.BlobObject
                                 [x00; x00; x01; x00; x01])
                         filemode.Regular "icon")
            /\ to fp
               = Some (mkFile (plumbing.ComputeHash plumbing.BlobObject
                                 (Go.bytes_of_string "new"))
                         filemode.Regular "icon"))
      /\ GitDiffSystem.clock r.2 = GitDiffSystem.clock Sample.world
      /\ (forall dmp',
            GitDiffSystem.WriteFile (H := RealSystem.reader Sample.real) dmp'
              Sample.gitDiff "/home/user/icon" (Go.bytes_of_string "new") 420 Sample.world
            = r)).
Proof.
  destruct isBinary_classification as (_ & _ & Htext & _ & Hwrite).
  split.
  - apply Htext. vm_compute. reflexivity.
  - destruct (Hwrite OS nat (RealSystem.reader Sample.real) Sample.wholeText Sample.gitDiff
                "/home/user/icon" (Go.bytes_of_string "new") 420 Sample.world
                (os.mkFileInfo "icon" 5 420) (GitDiffSystem.sr_state Sample.world)
                [x00; x00; x01; x00; x01] (GitDiffSystem.sr_state Sample.world))
      as (Hall & Hex & Hclock & Hlib).
    + vm_compute. reflexivity.
    + vm_compute. reflexivity.
    + left. vm_compute. reflexivity.
    + split; [exact Hall |]. split; [| split; [exact Hclock | exact Hlib]].
      apply (Hex filemode.Regular filemode.Regular); vm_compute; reflexivity.
Defined.

(** The binary patch of the sample is emitted, so the statement above is not
    about nothing; and a text patch does go through the line diff. *)
Example binary_patch_is_emitted :
  let r := GitDiffSystem.WriteFile (H := RealSystem.reader Sample.real)
             Sample.wholeText Sample.gitDiff "/home/user/icon"
             (Go.bytes_of_string "new") 420 Sample.world in
  exists fp, emits Sample.world r.2 fp /\ isBinaryFlag fp = true /\ chunks fp = [].
Proof. eexists. vm_compute. repeat split. Qed.

Example text_patch_is_diffed :
  let r := GitDiffSystem.WriteFile (H := RealSystem.reader Sample.real)
             Sample.wholeText Sample.gitDiff "/home/user/a"
             (Go.bytes_of_string "new") 420 Sample.world in
  exists fp,
    emits Sample.world r.2 fp /\ isBinaryFlag fp = false
    /\ chunks fp = [mkChunk "old" diff.Delete; mkChunk "new" diff.Add]
    /\ GitDiffSystem.clock r.2 = 1%nat.
Proof. eexists. vm_compute. repeat split. Qed.

(** ** Chmod *)

Lemma andnot_replaced_perm (m mode : os.FileMode) :
  os.andnot mode os.ModePerm = 0 ->
  os.andnot (Z.lor (os.andnot m os.ModePerm) mode) os.ModePerm = os.andnot m os.ModePerm.
Proof.
  unfold os.andnot. intros Hmode.
  rewrite Z.land_lor_distr_l, Hmode, Z.lor_0_r, <- Z.land_assoc, Z.land_diag.
  reflexivity.
Qed.

(** C5, as the code has it.  When Stat succeeds on name and the reported mode
    has a git equivalent, both as it is and with its permission bits replaced
    by mode, Chmod encodes exactly one file-patch: from and to descriptors at
    the same prefix-trimmed path, both with the zero hash, the from-mode the
    git mode of the reported mode and the to-mode the git mode of the reported
    mode with its permission bits replaced by mode (the two operating-system
    modes agree outside the permission bits when mode has permission bits
    only); Stat is the only call made on the reader, so no content is read.
    When one of the two modes has no git equivalent, Chmod returns the
    translation error and encodes nothing. *)
Theorem GitDiffSystem_Chmod_encodes_mode_change :
  forall (St Clock : Type) (R : SystemReader St) (s : GitDiffSystem.GitDiffSystem)
         (name : string) (mode : os.FileMode) (w : GitDiffSystem.World St Clock)
         (info : os.FileInfo) (st : St),
    sr_Stat name (GitDiffSystem.sr_state w) = (Go.Ok info, st) ->
    let replaced := Z.lor (os.andnot (os.Mode info) os.ModePerm) mode in
    let r := GitDiffSystem.Chmod s name mode w in
    GitDiffSystem.sr_calls r.2 = (GitDiffSystem.sr_calls w ++ [CallStat name])%list
    /\ GitDiffSystem.sr_state r.2 = st
    /\ (forall fm tm,
          filemode.NewFromOSFileMode (os.Mode info) = Go.Ok fm ->
          filemode.NewFromOSFileMode replaced = Go.Ok tm ->
          r.1 = writeErr (GitDiffSystem.encoder w)
          /\ exists fp,
               emits w r.2 fp
               /\ mode_change fp (Go.TrimPrefix name (GitDiffSystem.prefix s)) fm tm
               /\ isBinaryFlag fp = false /\ chunks fp = [])
    /\ (forall err,
          filemode.NewFromOSFileMode (os.Mode info) = Go.Err err
          \/ ((exists fm, filemode.NewFromOSFileMode (os.Mode info) = Go.Ok fm)
              /\ filemode.NewFromOSFileMode replaced = Go.Err err) ->
          r.1 = Some err /\ silent w r.2)
    /\ (os.andnot mode os.ModePerm = 0 ->
        os.andnot replaced os.ModePerm = os.andnot (os.Mode info) os.ModePerm).
Proof.
  intros St Clock R s name mode w info st HStat replaced r.
  subst r replaced. rewrite Chmod_cases, HStat.
  split; [| split; [| split; [| split]]].
  - destruct (filemode.NewFromOSFileMode (os.Mode info)); [| reflexivity].
    destruct (filemode.NewFromOSFileMode (Z.lor _ mode)); reflexivity.
  - destruct (filemode.NewFromOSFileMode (os.Mode info)); [| reflexivity].
    destruct (filemode.NewFromOSFileMode (Z.lor _ mode)); reflexivity.
  - intros fm tm -> ->. split; [reflexivity |].
    eexists. split; [reflexivity |]. split; [| split; reflexivity].
    eexists. eexists. repeat split.
  - intros err [-> | [[fm ->] ->]]; split; reflexivity.
  - apply andnot_replaced_perm.
Qed.

Lemma GitDiffSystem_Chmod_encodes_mode_change_witness :
  let r := GitDiffSystem.Chmod (H := RealSystem.reader Sample.real) Sample.gitDiff
             "/home/user/.bashrc" 493 Sample.world in
  GitDiffSystem.sr_calls r.2 = [CallStat "/home/user/.bashrc"]
  /\ r.1 = None
  /\ exists fp,
       emits Sample.world r.2 fp
       /\ mode_change fp ".bashrc" filemode.Regular filemode.Executable
       /\ isBinaryFlag fp = false /\ chunks fp = [].
Proof.
  destruct (GitDiffSystem_Chmod_encodes_mode_change OS nat (RealSystem.reader Sample.real)
              Sample.gitDiff "/home/user/.bashrc" 493 Sample.world
              (os.mkFileInfo ".bashrc" 3 420) (GitDiffSystem.sr_state Sample.world)
              ltac:(vm_compute; reflexivity)) as (Hcalls & _ & Hok & _ & _).
  destruct (Hok filemode.Regular filemode.Executable
              ltac:(vm_compute; reflexivity) ltac:(vm_compute; reflexivity))
    as [Herr Hfp].
  exact (conj Hcalls (conj Herr Hfp)).
Defined.

(** C5 as it was stated, for every name and mode on which Stat succeeds, does
    not hold: Stat succeeds on a named pipe, but a pipe has no git mode, so
    Chmod returns the error of the translation and encodes nothing. *)
Lemma Chmod_on_a_pipe_encodes_nothing :
  (sr_Stat (SystemReader := RealSystem.reader Sample.real) "/home/user/pipe"
     (GitDiffSystem.sr_state Sample.world)).1
  = Go.Ok (os.mkFileInfo "pipe" 0 (Z.lor os.ModeNamedPipe 420))
  /\ (GitDiffSystem.Chmod (H := RealSystem.reader Sample.real) Sample.gitDiff
        "/home/user/pipe" 420 Sample.world).1 = Some filemode.noEquivalent
  /\ ~ Chmod_encodes_whenever_Stat_succeeds (H := RealSystem.reader Sample.real)
         Sample.gitDiff "/home/user/pipe" 420 Sample.world.
Proof.
  split; [vm_compute; reflexivity |]. split; [vm_compute; reflexivity |].
  intros Hclaim.
  destruct (Hclaim (os.mkFileInfo "pipe" 0 (Z.lor os.ModeNamedPipe 420))
              (GitDiffSystem.sr_state Sample.world) ltac:(vm_compute; reflexivity))
    as (fp & fm & tm & Hemit & _).
  unfold emits in Hemit. vm_compute in Hemit. discriminate Hemit.
Qed.

(** ** The direct backend: primitives *)

Lemma files_set_files fs m d : files fs (set_files fs m d) = m.
Proof. destruct fs; reflexivity. Qed.

Lemma update_file_at f g d m c :
  files (h_fs f) d !! h_name f = Some (vfs.File m c) ->
  files (h_fs f) (update_file f g d) !! h_name f = Some (g m c).
Proof.
  intros Hf. unfold update_file. rewrite Hf, files_set_files.
  apply lookup_insert_eq.
Qed.

Lemma Perm_replaced (old mode : os.FileMode) :
  os.Perm (Z.lor (os.andnot old os.chmodBits) (os.syscallMode mode)) = os.Perm mode.
Proof.
  unfold os.Perm, os.andnot, os.syscallMode.
  rewrite Z.land_lor_distr_l, <- !Z.land_assoc.
  change (Z.land (Z.lxor os.chmodBits 4294967295) os.ModePerm) with 0.
  change (Z.land os.chmodBits os.ModePerm) with os.ModePerm.
  rewrite Z.land_0_r. reflexivity.
Qed.

(** One step of an open file: the step that was recorded, the world after it
    and what the file holds. *)
Lemma f_Chmod_step f mode o m c :
  files (h_fs f) (disk o) !! h_name f = Some (vfs.File m c) ->
  exists d m',
    f_Chmod f mode o
    = (fault (env o) (EvChmod f mode),
       record (EvChmod f mode) (fault (env o) (EvChmod f mode)) d o)
    /\ files (h_fs f) d !! h_name f = Some (vfs.File m' c)
    /\ (fault (env o) (EvChmod f mode) = None -> os.Perm m' = os.Perm mode)
    /\ (fault (env o) (EvChmod f mode) <> None -> m' = m).
Proof.
  intros Hf. unfold f_Chmod, primitive.
  destruct (fault (env o) (EvChmod f mode)) as [err |].
  - exists (disk o), m. repeat split; [exact Hf | discriminate].
  - eexists _, (Z.lor (os.andnot m os.chmodBits) (os.syscallMode mode)).
    split; [reflexivity |]. split; [| split].
    + exact (update_file_at f _ _ m c Hf).
    + intros _. apply Perm_replaced.
    + intros Hn. exfalso. apply Hn. reflexivity.
Qed.

Lemma f_Write_step f data o m :
  files (h_fs f) (disk o) !! h_name f = Some (vfs.File m []) ->
  exists d c,
    f_Write f data o
    = (fault (env o) (EvWrite f data),
       record (EvWrite f data) (fault (env o) (EvWrite f data)) d o)
    /\ files (h_fs f) d !! h_name f = Some (vfs.File m c)
    /\ (exists n, c = firstn n data)
    /\ (fault (env o) (EvWrite f data) = None -> c = data).
Proof.
  intros Hf. unfold f_Write.
  destruct (fault (env o) (EvWrite f data)) as [err |].
  - eexists _, (firstn (shortWrite (env o) (EvWrite f data)) data).
    split; [reflexivity |]. split; [| split].
    + rewrite (update_file_at f _ _ m [] Hf), skipn_nil, app_nil_r. reflexivity.
    + eexists. reflexivity.
    + discriminate.
  - eexists _, data. split; [reflexivity |]. split; [| split].
    + rewrite (update_file_at f _ _ m [] Hf), skipn_nil, app_nil_r. reflexivity.
    + exists (length data). rewrite firstn_all. reflexivity.
    + intros _. reflexivity.
Qed.

Lemma f_Close_step f o :
  f_Close f o
  = (fault (env o) (EvClose f), record (EvClose f) (fault (env o) (EvClose f)) (disk o) o).
Proof.
  unfold f_Close, primitive. destruct (fault (env o) (EvClose f)); reflexivity.
Qed.

(** Opening for writing with truncation: either it fails and the disk stays,
    or the file is there, empty. *)
Lemma fs_OpenFile_trunc fs name perm o :
  (exists err,
      fs_OpenFile fs name WriteFile_flag perm o
      = (Go.Err err, record (EvOpenFile fs name WriteFile_flag perm) (Some err) (disk o) o))
  \/ (exists f d m,
        fs_OpenFile fs name WriteFile_flag perm o
        = (Go.Ok f, record (EvOpenFile fs name WriteFile_flag perm) None d o)
        /\ h_fs f = fs
        /\ follow maxLinks (files fs (disk o)) name = Go.Ok (h_name f)
        /\ files fs d !! h_name f = Some (vfs.File m [])).
Proof.
  unfold fs_OpenFile.
  destruct (fault (env o) _) as [err |]; [left; eexists; reflexivity |].
  destruct (follow maxLinks (files fs (disk o)) name) as [target | err] eqn:Hfollow;
    [| left; eexists; reflexivity].
  destruct (files fs (disk o) !! target) as [[m c | t | m] |] eqn:Hat;
    try (left; eexists; reflexivity).
  - right. eexists (mkHandle fs target), _, m. split; [reflexivity |].
    repeat split. cbn [h_name]. rewrite files_set_files. apply lookup_insert_eq.
  - right. eexists (mkHandle fs target), _, _. split; [reflexivity |].
    repeat split. cbn [h_name]. rewrite files_set_files. apply lookup_insert_eq.
Qed.

Lemma fs_OpenFile_writable fs name perm o :
  fault (env o) (EvOpenFile fs name WriteFile_flag perm) = None ->
  writable fs name (disk o) ->
  exists r, (fs_OpenFile fs name WriteFile_flag perm o).1 = Go.Ok r.
Proof.
  intros Hfault (target & Hfollow & Hat). unfold fs_OpenFile.
  rewrite Hfault, Hfollow.
  destruct (files fs (disk o) !! target) as [[m c | t | m] |]; try contradiction;
    eexists; reflexivity.
Qed.

(** ** WriteFile of the direct backend *)

(** C3.  WriteFile(fs, filename, data, perm) opens the destination with
    truncation, then sets the permission bits to perm, then writes data, then
    closes, in this order; when the open fails nothing else is done, and when
    setting the permissions fails the file is closed without a write.  After
    every one of its steps the file shows either nothing, or bytes of data
    under permission perm: the new content is never there under another mode,
    and after the truncation the old content is never there at all.  When
    WriteFile returns nil the file holds data under perm; when no primitive
    fails and the name can be opened for writing, all four steps run and it
    returns nil. *)
Theorem WriteFile_sets_permissions_before_writing :
  forall (fs : vfs.FS) (filename : string) (data : list byte) (perm : os.FileMode)
         (o : OS),
    let r := WriteFile fs filename data perm o in
    let open := EvOpenFile fs filename WriteFile_flag perm in
    exists steps,
      trace r.2 = (trace o ++ steps)%list
      /\ ((exists err,
              r.1 = Some err /\ map event steps = [open]
              /\ map outcome steps = [Some err])
          \/ (exists f,
                h_fs f = fs
                /\ ((exists werr cerr,
                        map event steps = [open; EvChmod f perm; EvWrite f data; EvClose f]
                        /\ map outcome steps = [None; None; werr; cerr])
                    \/ (exists err cerr,
                          map event steps = [open; EvChmod f perm; EvClose f]
                          /\ map outcome steps = [None; Some err; cerr]))
                /\ Forall (shows_only f data perm) steps
                /\ (r.1 = None ->
                    exists m, file_at fs (h_name f) (disk r.2) = Some (m, data)
                              /\ os.Perm m = os.Perm perm)))
      /\ ((forall ev, fault (env o) ev = None) ->
          writable fs filename (disk o) ->
          r.1 = None /\ length steps = 4%nat).
Proof.
  intros fs filename data perm o r open. subst r. unfold WriteFile.
  fold WriteFile_flag. fold open.
  destruct (fs_OpenFile_trunc fs filename perm o)
    as [[err Hopen] | (f & d & m & Hopen & Hfs & Hfollow & Hat)].
  - (* the open fails *)
    fold open in Hopen. rewrite Hopen. eexists. split; [reflexivity |]. split.
    + left. exists err. repeat split.
    + intros Hquiet Hw.
      destruct (fs_OpenFile_writable fs filename perm o (Hquiet _) Hw) as [h Hh].
      fold open in Hh. rewrite Hopen in Hh. discriminate Hh.
  - fold open in Hopen. rewrite Hopen.
    set (o1 := record open None d o).
    assert (files (h_fs f) (disk o1) !! h_name f = Some (vfs.File m [])) as Hat1
      by (rewrite Hfs; exact Hat).
    destruct (f_Chmod_step f perm o1 m [] Hat1) as (d2 & m2 & Hchmod & Hat2 & Hperm & Hkeep).
    rewrite Hchmod.
    set (o2 := record (EvChmod f perm) (fault (env o1) (EvChmod f perm)) d2 o1).
    destruct (fault (env o1) (EvChmod f perm)) as [err |] eqn:Hfault.
    + (* setting the permissions fails *)
      rewrite (f_Close_step f o2).
      eexists [_; _; _]. split; [cbn; rewrite <- !app_assoc; reflexivity |]. split.
      * right. exists f. split; [exact Hfs |]. split; [| split].
        -- right. eexists _, _. split; reflexivity.
        -- repeat constructor; cbn [disk_after disk record o2 o1];
             eexists _, []; (split; [first [exact Hat1 | exact Hat2] | left; reflexivity]).
        -- cbn. destruct (fault _ (EvClose f)); discriminate.
      * intros Hquiet _. cbn in Hfault. rewrite Hquiet in Hfault. discriminate.
    + assert (files (h_fs f) (disk o2) !! h_name f = Some (vfs.File m2 [])) as Hat2'
        by exact Hat2.
      destruct (f_Write_step f data o2 m2 Hat2') as (d3 & c & Hwrite & Hat3 & Hprefix & Hdata).
      rewrite Hwrite.
      set (o3 := record (EvWrite f data) (fault (env o2) (EvWrite f data)) d3 o2).
      rewrite (f_Close_step f o3).
      eexists [_; _; _; _]. split; [cbn; rewrite <- !app_assoc; reflexivity |]. split.
      * right. exists f. split; [exact Hfs |]. split; [| split].
        -- left. eexists _, _. split; reflexivity.
        -- repeat constructor; cbn [disk_after disk record o3 o2 o1].
           ++ eexists _, []. split; [exact Hat1 | left; reflexivity].
           ++ eexists _, []. split; [exact Hat2 | left; reflexivity].
           ++ eexists _, c. split; [exact Hat3 |]. right.
              split; [apply Hperm; reflexivity | exact Hprefix].
           ++ eexists _, c. split; [exact Hat3 |]. right.
              split; [apply Hperm; reflexivity | exact Hprefix].
        -- cbn [fst snd]. intros Herr.
           destruct (fault (env o2) (EvWrite f data)) eqn:Hw;
             [destruct (fault (env o3) (EvClose f)); discriminate Herr |].
           exists m2. split; [| apply Hperm; reflexivity].
           unfold file_at. cbn [disk record o3]. rewrite <- Hfs, Hat3, (Hdata eq_refl).
           reflexivity.
      * intros Hquiet _. split; [| reflexivity].
        cbn [fst]. cbn [env record o3 o2 o1]. rewrite !Hquiet. reflexivity.
Qed.

Lemma WriteFile_sets_permissions_before_writing_witness :
  let r := WriteFile vfs.TestFS "/home/user/a" (Go.bytes_of_string "new") 420
             (Sample.machine vfs.TestFS Sample.quiet) in
  r.1 = None /\ length (trace r.2) = 4%nat.
Proof.
  destruct (WriteFile_sets_permissions_before_writing vfs.TestFS "/home/user/a"
              (Go.bytes_of_string "new") 420 (Sample.machine vfs.TestFS Sample.quiet))
    as (steps & Htrace & _ & Hquiet).
  destruct Hquiet as [Hnil Hlen].
  - intros ev. reflexivity.
  - exists "/home/user/a". split; vm_compute; [reflexivity | exact I].
  - split; [exact Hnil |]. rewrite Htrace. exact Hlen.
Defined.

(** The scenario: /a had mode 0777 and content "old"; after
    write-file(/a, "new", 0644) its mode is 0644 and its content "new", and
    the steps were open, chmod, write, close. *)
Example WriteFile_scenario :
  let o := Sample.machine vfs.TestFS Sample.quiet in
  let r := WriteFile vfs.TestFS "/home/user/a" (Go.bytes_of_string "new") 420 o in
  let f := mkHandle vfs.TestFS "/home/user/a" in
  file_at vfs.TestFS "/home/user/a" (disk o) = Some (511, Go.bytes_of_string "old")
  /\ r.1 = None
  /\ file_at vfs.TestFS "/home/user/a" (disk r.2) = Some (420, Go.bytes_of_string "new")
  /\ map event (trace r.2)
     = [ EvOpenFile vfs.TestFS "/home/user/a" WriteFile_flag 420; EvChmod f 420;
         EvWrite f (Go.bytes_of_string "new"); EvClose f ]
  /\ map (fun st => file_at vfs.TestFS "/home/user/a" (disk_after st)) (trace r.2)
     = [ Some (511, []); Some (420, []); Some (420, Go.bytes_of_string "new");
         Some (420, Go.bytes_of_string "new") ].
Proof. vm_compute. repeat split. Qed.

(** A new file is created with perm less the umask and then given perm. *)
Example WriteFile_new_file :
  let r := WriteFile vfs.TestFS "/home/user/new" (Go.bytes_of_string "x") 438
             (Sample.machine vfs.TestFS Sample.quiet) in
  map (fun st => file_at vfs.TestFS "/home/user/new" (disk_after st)) (trace r.2)
  = [ Some (420, []); Some (438, []); Some (438, [x78]); Some (438, [x78]) ].
Proof. vm_compute. reflexivity. Qed.

(** ** RunScript of the direct backend *)

Lemma primitive_record ev effect o :
  exists d,
    primitive ev effect o = (fault (env o) ev, record ev (fault (env o) ev) d o)
    /\ (fault (env o) ev = None -> d = effect (disk o)).
Proof.
  unfold primitive. destruct (fault (env o) ev).
  - exists (disk o). split; [reflexivity | discriminate].
  - exists (effect (disk o)). split; reflexivity.
Qed.

Lemma f_Write_record f data o :
  exists d,
    f_Write f data o
    = (fault (env o) (EvWrite f data),
       record (EvWrite f data) (fault (env o) (EvWrite f data)) d o).
Proof.
  unfold f_Write. destruct (fault (env o) (EvWrite f data)); eexists; reflexivity.
Qed.

Lemma ioutil_TempFile_record dir pattern o :
  (exists err,
      ioutil_TempFile dir pattern o
      = (Go.Err err, record (EvTempFile dir pattern) (Some err) (disk o) o))
  \/ (exists f d,
        ioutil_TempFile dir pattern o
        = (Go.Ok f, record (EvTempFile dir pattern) None d o)
        /\ h_fs f = vfs.OSFS).
Proof.
  unfold ioutil_TempFile.
  destruct (match prefixAndSuffix pattern with Some ps => ps | None => _ end) as [pre suf].
  destruct (fault (env o) _); [left; eexists; reflexivity |].
  destruct (live (disk o) !! _); [left; eexists; reflexivity |].
  right. eexists (mkHandle vfs.OSFS _), _. split; reflexivity.
Qed.

Lemma removeTree_gone name m : removeTree name m !! name = None.
Proof.
  unfold removeTree. apply map_lookup_filter_None. right.
  intros x _. cbn. unfold under. rewrite String.eqb_refl. discriminate.
Qed.

Lemma Errors_Append (a b : option Go.error) :
  Go.Errors (Go.Append a b) = (Go.Errors a ++ Go.Errors b)%list.
Proof.
  destruct a as [a |], b as [b |]; cbn [Go.Append];
    [reflexivity | rewrite app_nil_r; reflexivity | reflexivity | reflexivity].
Qed.

Lemma Append_nil_inv (a b : option Go.error) : Go.Append a b = None -> a = None /\ b = None.
Proof. destruct a, b; cbn; intros Heq; try discriminate; split; reflexivity. Qed.

(** What runs under the deferred removal: the steps, the world after them and
    the primary error. *)
Lemma runTempFile_record f data o :
  exists steps d,
    (RealSystem.runTempFile f data o).2
    = mkOS (env o) d (pstate o) (trace o ++ steps)
    /\ ((exists err,
            map event steps = [EvChmod f 448] /\ map outcome steps = [Some err]
            /\ (RealSystem.runTempFile f data o).1 = Some err)
        \/ (exists werr cerr,
              map event steps = [EvChmod f 448; EvWrite f data; EvClose f]
              /\ map outcome steps = [None; werr; cerr]
              /\ Go.Append werr cerr <> None
              /\ (RealSystem.runTempFile f data o).1 = Go.Append werr cerr)
        \/ (exists xerr,
              map event steps
              = [EvChmod f 448; EvWrite f data; EvClose f; EvRun (h_name f)]
              /\ map outcome steps = [None; None; None; xerr]
              /\ (RealSystem.runTempFile f data o).1 = xerr)).
Proof.
  unfold RealSystem.runTempFile, f_Chmod.
  destruct (primitive_record (EvChmod f 448)
              (update_file f (fun old data0 =>
                 vfs.File (Z.lor (os.andnot old os.chmodBits) (os.syscallMode 448)) data0)) o)
    as (d1 & -> & _).
  destruct (fault (env o) (EvChmod f 448)) as [err |].
  - eexists [_], _. split; [reflexivity |]. left. exists err. repeat split.
  - set (o1 := record (EvChmod f 448) None d1 o).
    destruct (f_Write_record f data o1) as (d2 & ->).
    set (o2 := record (EvWrite f data) (fault (env o1) (EvWrite f data)) d2 o1).
    rewrite (f_Close_step f o2).
    destruct (Go.Append (fault (env o1) (EvWrite f data)) (fault (env o2) (EvClose f)))
      as [err |] eqn:Happ.
    + eexists [_; _; _], _. split; [subst o2 o1; unfold record; cbn; rewrite <- !app_assoc; reflexivity |].
      right. left.
      exists (fault (env o1) (EvWrite f data)), (fault (env o2) (EvClose f)).
      split; [reflexivity |]. split; [reflexivity |].
      cbn [fst]. rewrite Happ. split; [discriminate | reflexivity].
    + apply Append_nil_inv in Happ as [Hw Hc].
      eexists [_; _; _; _], _.
      split; [subst o2 o1; unfold cmd_Run, record; cbn; rewrite <- !app_assoc; reflexivity |].
      right. right. eexists. split; [reflexivity |]. split; [| reflexivity].
      subst o2 o1. cbn in Hw, Hc |- *. rewrite Hw, Hc. reflexivity.
Qed.

(** A temporary file is a new one: its name was free, and it is there, empty
    and for its owner only, once it is created. *)
Lemma ioutil_TempFile_new dir pattern o f o1 :
  ioutil_TempFile dir pattern o = (Go.Ok f, o1) ->
  live (disk o) !! h_name f = None
  /\ live (disk o1) !! h_name f = Some (vfs.File 384 []).
Proof.
  unfold ioutil_TempFile.
  destruct (match prefixAndSuffix pattern with Some ps => ps | None => _ end) as [pre suf].
  destruct (fault (env o) _); [discriminate |].
  destruct (live (disk o) !! _) eqn:Hfree; [discriminate |].
  intros Heq. injection Heq as <- <-. split; [exact Hfree |].
  cbn [disk record live set_files h_name]. apply lookup_insert_eq.
Qed.

(** C6.  RunScript removes the temporary script file on every exit path.
    Unless the temporary file could not be created (then there is none, and
    the disk is as before), the file that ioutil.TempFile created, which was
    not there before and is there after the first step, is the file whose
    permissions are set, that is written, closed and run, and its removal is
    the last primitive issued, whether setting the permissions failed, the
    write or the close failed, or the script ran (with or without an error).
    The error returned is multierr.Append of the primary error and the error
    of the removal, so it reports the errors of both; and when the removal
    does not fail the temporary file is gone. *)
Theorem RealSystem_RunScript_removes_temp_file :
  forall (s : RealSystem.RealSystem) (name : string) (data : list byte) (o : OS),
    let r := RealSystem.RunScript s name data o in
    let tmp := EvTempFile "" (script_pattern name) in
    exists steps,
      trace r.2 = (trace o ++ steps)%list
      /\ ((exists err,
              r.1 = Some err /\ map event steps = [tmp]
              /\ map outcome steps = [Some err] /\ disk r.2 = disk o)
          \/ (exists f d0 body results primary rerr,
                (ioutil_TempFile "" (script_pattern name) o).1 = Go.Ok f
                /\ h_fs f = vfs.OSFS
                /\ live (disk o) !! h_name f = None
                /\ head (map disk_after steps) = Some d0
                /\ live d0 !! h_name f = Some (vfs.File 384 [])
                /\ map event steps
                   = (tmp :: body ++ [EvRemoveAll vfs.OSFS (h_name f)])%list
                /\ map outcome steps = (None :: results ++ [rerr])%list
                /\ ((body = [EvChmod f 448] /\ results = [primary] /\ primary <> None)
                    \/ (exists werr cerr,
                          body = [EvChmod f 448; EvWrite f data; EvClose f]
                          /\ results = [None; werr; cerr]
                          /\ primary = Go.Append werr cerr /\ primary <> None)
                    \/ (body = [EvChmod f 448; EvWrite f data; EvClose f; EvRun (h_name f)]
                        /\ results = [None; None; None; primary]))
                /\ r.1 = Go.Append primary rerr
                /\ Go.Errors r.1 = (Go.Errors primary ++ Go.Errors rerr)%list
                /\ (rerr = None -> live (disk r.2) !! h_name f = None))).
Proof.
  intros s name data o r tmp. subst r. unfold RealSystem.RunScript.
  fold (script_pattern name). fold tmp.
  destruct (ioutil_TempFile_record "" (script_pattern name) o)
    as [[err Htmp] | (f & d & Htmp & Hfs)]; fold tmp in Htmp;
    [| destruct (ioutil_TempFile_new _ _ _ _ _ Htmp) as [Hfree Hmade];
       cbn [disk record] in Hmade];
    rewrite Htmp.
  - eexists [_]. split; [reflexivity |]. left. exists err. repeat split.
  - set (o1 := record tmp None d o).
    destruct (runTempFile_record f data o1) as (body & d2 & Hworld & Hbody).
    destruct (RealSystem.runTempFile f data o1) as [primary o2].
    cbn [fst snd] in Hworld, Hbody. subst o2.
    set (o2 := mkOS (env o1) d2 (pstate o1) (trace o1 ++ body)).
    destruct (primitive_record (EvRemoveAll vfs.OSFS (h_name f))
                (fun d0 => set_files vfs.OSFS (removeTree (h_name f) (files vfs.OSFS d0)) d0) o2)
      as (d3 & Hremove & Hgone).
    unfold fs_RemoveAll. rewrite Hremove.
    set (rerr := fault (env o2) (EvRemoveAll vfs.OSFS (h_name f))) in *.
    exists (mkStep tmp None d :: body ++ [mkStep (EvRemoveAll vfs.OSFS (h_name f)) rerr d3])%list.
    split.
    { subst o2 o1. unfold record. cbn. rewrite <- !app_assoc. reflexivity. }
    right. exists f, d, (map event body), (map outcome body), primary, rerr.
    split; [reflexivity |]. split; [exact Hfs |]. split; [exact Hfree |].
    split; [reflexivity |]. split; [exact Hmade |].
    split; [cbn [map event]; rewrite map_app; reflexivity |].
    split; [cbn [map outcome]; rewrite map_app; reflexivity |].
    split; [| split; [reflexivity | split; [apply Errors_Append |]]].
    + destruct Hbody as [(err & Hev & Hout & Herr)
                        | [(werr & cerr & Hev & Hout & Hne & Herr) | (xerr & Hev & Hout & Herr)]].
      * left. rewrite Hev, Hout, Herr. repeat split. discriminate.
      * right. left. exists werr, cerr. rewrite Hev, Hout, Herr. repeat split. exact Hne.
      * right. right. rewrite Hev, Hout, Herr. split; reflexivity.
    + intros Hnone. cbn [snd disk record]. rewrite (Hgone Hnone).
      cbn [live set_files]. apply removeTree_gone.
Qed.

(** The script fails and so does the removal: both errors come back. *)
Example RunScript_reports_both_errors :
  let r := RealSystem.RunScript Sample.real "dir/install.sh" (Go.bytes_of_string "#!/bin/sh")
             (Sample.machine vfs.TestFS (failing run_and_remove_fail)) in
  r.1 = Some (Go.multiError ["exit status 1"; "permission denied"])
  /\ map event (trace r.2)
     = (let f := mkHandle vfs.OSFS "/tmp/316497.install.sh" in
        [ EvTempFile "" "*.install.sh"; EvChmod f 448;
          EvWrite f (Go.bytes_of_string "#!/bin/sh"); EvClose f;
          EvRun "/tmp/316497.install.sh"; EvRemoveAll vfs.OSFS "/tmp/316497.install.sh" ]).
Proof. vm_compute. split; reflexivity. Qed.

(** The script runs from a private file and is gone afterwards. *)
Example RunScript_scenario :
  let r := RealSystem.RunScript Sample.real "dir/install.sh" (Go.bytes_of_string "#!/bin/sh")
             (Sample.machine vfs.TestFS Sample.quiet) in
  r.1 = None
  /\ map (fun st => file_at vfs.OSFS "/tmp/316497.install.sh" (disk_after st)) (trace r.2)
     = [ Some (384, []); Some (448, []); Some (448, Go.bytes_of_string "#!/bin/sh");
         Some (448, Go.bytes_of_string "#!/bin/sh");
         Some (448, Go.bytes_of_string "#!/bin/sh"); None ].
Proof. vm_compute. split; reflexivity. Qed.

(** ** WriteSymlink of the direct backend *)

Lemma fs_Symlink_record fs oldname newname o :
  exists e d,
    fs_Symlink fs oldname newname o = (e, record (EvSymlink fs oldname newname) e d o)
    /\ (e = None -> files fs d !! newname = Some (vfs.Symlink oldname)).
Proof.
  unfold fs_Symlink. destruct (fault (env o) _) as [err |].
  - eexists _, _. split; [reflexivity | discriminate].
  - destruct (files fs (disk o) !! newname).
    + eexists _, _. split; [reflexivity | discriminate].
    + eexists _, _. split; [reflexivity |]. intros _.
      rewrite files_set_files. apply lookup_insert_eq.
Qed.

Lemma FS_eqb_OSFS (fs : vfs.FS) : vfs.FS_eqb fs vfs.OSFS = true <-> fs = vfs.OSFS.
Proof. destruct fs; split; intros Heq; try reflexivity; discriminate. Qed.

(** C7.  WriteSymlink replaces the link through renameio.Symlink, the atomic
    rename-based operation, exactly when the filesystem of the backend is the
    live operating-system filesystem: then it is the only primitive issued,
    and newname goes in one step to the new link.  On any other filesystem
    the first primitive is the recursive removal of newname, after which
    newname is absent, and the creation of the link follows it, unless the
    removal failed with an error other than "does not exist", which is
    returned. *)
Theorem RealSystem_WriteSymlink_atomic_on_live_filesystem :
  forall (s : RealSystem.RealSystem) (oldname newname : string) (o : OS),
    let r := RealSystem.WriteSymlink s oldname newname o in
    let fs := RealSystem.FS s in
    exists steps,
      trace r.2 = (trace o ++ steps)%list
      /\ (In (EvRenameioSymlink oldname newname) (map event steps) <-> fs = vfs.OSFS)
      /\ (fs = vfs.OSFS ->
          map event steps = [EvRenameioSymlink oldname newname]
          /\ map outcome steps = [r.1]
          /\ (r.1 = None -> live (disk r.2) !! newname = Some (vfs.Symlink oldname)))
      /\ (fs <> vfs.OSFS ->
          exists rerr first,
            head steps = Some first
            /\ event first = EvRemoveAll fs newname /\ outcome first = rerr
            /\ (rerr = None -> files fs (disk_after first) !! newname = None)
            /\ ((map event steps = [EvRemoveAll fs newname; EvSymlink fs oldname newname]
                 /\ map outcome steps = [rerr; r.1]
                 /\ (rerr = None \/ IsNotExist rerr = true))
                \/ (map event steps = [EvRemoveAll fs newname]
                    /\ rerr <> None /\ IsNotExist rerr = false /\ r.1 = rerr))
            /\ (r.1 = None -> files fs (disk r.2) !! newname = Some (vfs.Symlink oldname))).
Proof.
  intros s oldname newname o r fs. subst r. unfold RealSystem.WriteSymlink. fold fs.
  destruct (vfs.FS_eqb fs vfs.OSFS) eqn:Hlive.
  - (* the live filesystem *)
    apply FS_eqb_OSFS in Hlive. unfold renameio_Symlink.
    destruct (primitive_record (EvRenameioSymlink oldname newname)
                (fun d => set_files vfs.OSFS (<[newname := vfs.Symlink oldname]> (live d)) d) o)
      as (d & -> & Hdone).
    eexists [_]. split; [reflexivity |]. split; [| split].
    + split; [intros _; exact Hlive | intros _; left; reflexivity].
    + intros _. repeat split. intros Hnone. cbn [fst] in Hnone.
      cbn [snd disk record]. rewrite (Hdone Hnone). cbn [live set_files].
      apply lookup_insert_eq.
    + intros Hne. contradiction.
  - assert (fs <> vfs.OSFS) as Hne
      by (intros Heq; apply FS_eqb_OSFS in Heq; congruence).
    unfold fs_RemoveAll.
    destruct (primitive_record (EvRemoveAll fs newname)
                (fun d => set_files fs (removeTree newname (files fs d)) d) o)
      as (d1 & -> & Hgone).
    set (rerr := fault (env o) (EvRemoveAll fs newname)) in *.
    set (o1 := record (EvRemoveAll fs newname) rerr d1 o).
    destruct (fs_Symlink_record fs oldname newname o1) as (e & d2 & Hlink & Hthere).
    assert (rerr = None -> files fs d1 !! newname = None) as Habsent.
    { intros Hnone. rewrite (Hgone Hnone), files_set_files. apply removeTree_gone. }
    destruct rerr as [err |] eqn:Hrerr.
    + destruct (negb (IsNotExist (Some err))) eqn:Hnot.
      * (* the removal failed for good *)
        eexists [_]. split; [reflexivity |]. split; [| split].
        -- split; [intros [Hin | []]; discriminate Hin | intros Heq; contradiction].
        -- intros Heq. contradiction.
        -- intros _. eexists _, _. split; [reflexivity |]. repeat split.
           ++ discriminate.
           ++ right. repeat split; [discriminate | apply negb_true_iff; exact Hnot].
           ++ discriminate.
      * (* there was nothing to remove *)
        rewrite Hlink. eexists [_; _].
        split; [subst o1; unfold record; cbn; rewrite <- !app_assoc; reflexivity |].
        split; [| split].
        -- split; [intros [Hin | [Hin | []]]; discriminate Hin | intros Heq; contradiction].
        -- intros Heq. contradiction.
        -- intros _. eexists _, _. split; [reflexivity |]. repeat split.
           ++ discriminate.
           ++ left. repeat split. right. apply negb_false_iff. exact Hnot.
           ++ exact Hthere.
    + rewrite Hlink. eexists [_; _].
      split; [subst o1; unfold record; cbn; rewrite <- !app_assoc; reflexivity |].
      split; [| split].
      * split; [intros [Hin | [Hin | []]]; discriminate Hin | intros Heq; contradiction].
      * intros Heq. contradiction.
      * intros _. eexists _, _. split; [reflexivity |]. repeat split.
        -- intros _. apply Habsent. reflexivity.
        -- left. repeat split. left. reflexivity.
        -- exact Hthere.
Qed.

Lemma RealSystem_WriteSymlink_atomic_on_live_filesystem_witness :
  (let r := RealSystem.WriteSymlink (RealSystem.NewRealSystem vfs.OSFS) "foo"
              "/home/user/link" (Sample.machine vfs.OSFS Sample.quiet) in
   map event (trace r.2) = [EvRenameioSymlink "foo" "/home/user/link"]
   /\ live (disk r.2) !! "/home/user/link" = Some (vfs.Symlink "foo"))
  /\ (let r := RealSystem.WriteSymlink Sample.real "foo" "/home/user/link"
                 (Sample.machine vfs.TestFS Sample.quiet) in
      map event (trace r.2)
      = [ EvRemoveAll vfs.TestFS "/home/user/link";
          EvSymlink vfs.TestFS "foo" "/home/user/link" ]
      /\ test (disk r.2) !! "/home/user/link" = Some (vfs.Symlink "foo")).
Proof.
  split.
  - destruct (RealSystem_WriteSymlink_atomic_on_live_filesystem
                (RealSystem.NewRealSystem vfs.OSFS) "foo" "/home/user/link"
                (Sample.machine vfs.OSFS Sample.quiet))
      as (steps & Htrace & _ & Hlive & _).
    destruct (Hlive eq_refl) as (Hev & _ & Hlink).
    split; [rewrite Htrace; exact Hev | apply Hlink; vm_compute; reflexivity].
  - destruct (RealSystem_WriteSymlink_atomic_on_live_filesystem
                Sample.real "foo" "/home/user/link"
                (Sample.machine vfs.TestFS Sample.quiet))
      as (steps & Htrace & _ & _ & Hother).
    destruct (Hother ltac:(discriminate)) as (rerr & first & _ & _ & _ & _ & _ & Hlink).
    split; [vm_compute; reflexivity | apply Hlink; vm_compute; reflexivity].
Defined.

(** On a filesystem that is not the live one there is a step after which
    the name does not exist; on the live one there is none. *)
Example WriteSymlink_window :
  map (fun st => test (disk_after st) !! "/home/user/link")
      (trace (RealSystem.WriteSymlink Sample.real "foo" "/home/user/link"
                (Sample.machine vfs.TestFS Sample.quiet)).2)
  = [None; Some (vfs.Symlink "foo")]
  /\ map (fun st => live (disk_after st) !! "/home/user/link")
         (trace (RealSystem.WriteSymlink (RealSystem.NewRealSystem vfs.OSFS) "foo"
                   "/home/user/link" (Sample.machine vfs.OSFS Sample.quiet)).2)
     = [Some (vfs.Symlink "foo")].
Proof. vm_compute. split; reflexivity. Qed.

(** ** The entry model: the private marker *)

Lemma parseFileName_private executablePrefix umask rest :
  TargetState.parseFileName executablePrefix umask ("private_" +:+ rest)
  = let '(name, executable, template) := TargetState.decodeRest executablePrefix rest in
    (name, false, 384, template).
Proof.
  unfold TargetState.parseFileName.
  change (Go.HasPrefix ("private_" +:+ rest) TargetState.symlinkPrefix) with false.
  change (Go.HasPrefix ("private_" +:+ rest) TargetState.privatePrefix) with true.
  change (Go.TrimPrefix ("private_" +:+ rest) TargetState.privatePrefix) with rest.
  destruct (TargetState.decodeRest executablePrefix rest) as [[name executable] template].
  reflexivity.
Qed.

Lemma parseDirName_private umask rest :
  TargetState.parseDirName umask ("private_" +:+ rest) = (TargetState.decodeDot rest, 448).
Proof. reflexivity. Qed.

(** C8.  Populating from a source entry whose name carries the private marker
    yields an entry filed under, and named by, the rest of the name decoded
    (the marker is gone), with permission exactly 0600 for a file and exactly
    0700 for a directory, whatever the umask.  Under root "/", source entry
    "private_foo" with content "bar" yields target entry "foo" with mode 0600
    and content "bar" (for any executable marker that "foo" does not carry). *)
Theorem private_entries_are_owner_only :
  forall (executablePrefix : string) (umask : os.FileMode)
         (sourceParent targetParent rest : string),
    (forall contents,
        exists target executable template,
          TargetState.decodeRest executablePrefix rest = (target, executable, template)
          /\ TargetState.populate executablePrefix umask sourceParent targetParent
               (TargetState.SrcFile ("private_" +:+ rest) contents)
             = (target,
                TargetState.File (TargetState.join sourceParent ("private_" +:+ rest))
                  (TargetState.join targetParent target) 384 template contents))
    /\ (forall children,
          exists entries,
            TargetState.populate executablePrefix umask sourceParent targetParent
              (TargetState.SrcDir ("private_" +:+ rest) children)
            = (TargetState.decodeDot rest,
               TargetState.Dir (TargetState.join sourceParent ("private_" +:+ rest))
                 (TargetState.join targetParent (TargetState.decodeDot rest)) 448 entries))
    /\ (Go.HasPrefix "foo" executablePrefix = false ->
        TargetState.Entries
          (TargetState.Populate executablePrefix (TargetState.NewTargetState "/" umask "/")
             [TargetState.SrcFile "private_foo" (Go.bytes_of_string "bar")])
        = [("foo", TargetState.File "private_foo" "foo" 384 false (Go.bytes_of_string "bar"))]).
Proof.
  intros executablePrefix umask sourceParent targetParent rest.
  split; [| split].
  - intros contents.
    destruct (TargetState.decodeRest executablePrefix rest) as [[target executable] template]
      eqn:Hrest.
    exists target, executable, template. split; [reflexivity |].
    cbn [TargetState.populate]. rewrite parseFileName_private, Hrest. reflexivity.
  - intros children. eexists. cbn [TargetState.populate].
    rewrite parseDirName_private. reflexivity.
  - intros Hfoo. unfold TargetState.Populate, TargetState.NewTargetState.
    cbn [TargetState.Entries TargetState.Umask map TargetState.populate].
    change (TargetState.parseFileName executablePrefix umask "private_foo")
      with (TargetState.parseFileName executablePrefix umask ("private_" +:+ "foo")).
    rewrite (parseFileName_private executablePrefix umask "foo").
    unfold TargetState.decodeRest, Go.TrimPrefix. rewrite Hfoo. reflexivity.
Qed.

Lemma private_entries_are_owner_only_witness :
  TargetState.Entries
    (TargetState.Populate "executable_" (TargetState.NewTargetState "/" 18 "/")
       [TargetState.SrcFile "private_foo" (Go.bytes_of_string "bar")])
  = [("foo", TargetState.File "private_foo" "foo" 384 false (Go.bytes_of_string "bar"))].
Proof.
  destruct (private_entries_are_owner_only "executable_" 18 "" "" "foo") as (_ & _ & Hscenario).
  apply Hscenario. reflexivity.
Defined.

(** The rows of the test table on the private marker, and its neighbours. *)
Example populate_private_file :
  TargetState.Populate "executable_" (TargetState.NewTargetState "/" 0 "/")
    [TargetState.SrcFile "private_foo" (Go.bytes_of_string "bar")]
  = TargetState.mkTargetState "/" 0 "/"
      [("foo", TargetState.File "private_foo" "foo" 384 false (Go.bytes_of_string "bar"))].
Proof. reflexivity. Qed.

Example populate_file_in_private_dot_subdir :
  TargetState.Populate "executable_" (TargetState.NewTargetState "/" 0 "/")
    [TargetState.SrcDir "private_dot_foo"
       [TargetState.SrcFile "bar" (Go.bytes_of_string "baz")]]
  = TargetState.mkTargetState "/" 0 "/"
      [(".foo",
        TargetState.Dir "private_dot_foo" ".foo" 448
          [("bar", TargetState.File "private_dot_foo/bar" ".foo/bar" 438 false
                     (Go.bytes_of_string "baz"))])].
Proof. reflexivity. Qed.

Example populate_simple_and_dot_and_symlink :
  TargetState.Entries
    (TargetState.Populate "executable_" (TargetState.NewTargetState "/" 0 "/")
       [ TargetState.SrcFile "foo" (Go.bytes_of_string "bar");
         TargetState.SrcFile "dot_foo" (Go.bytes_of_string "bar");
         TargetState.SrcFile "symlink_dot_foo" (Go.bytes_of_string "bar");
         TargetState.SrcFile "dot_gitconfig.tmpl" [] ])
  = [ ("foo", TargetState.File "foo" "foo" 438 false (Go.bytes_of_string "bar"));
      (".foo", TargetState.File "dot_foo" ".foo" 438 false (Go.bytes_of_string "bar"));
      (".foo", TargetState.Symlink "symlink_dot_foo" ".foo" false "bar");
      (".gitconfig", TargetState.File "dot_gitconfig.tmpl" ".gitconfig" 438 true []) ].
Proof. reflexivity. Qed.

(** * Further properties of the backends *)

(** ** The diff-encoding backend: reads *)

Lemma sr_call_result {St Clock : Type} {A : Type} (c : Call) (m : St -> A * St)
    (w : GitDiffSystem.World St Clock) :
  (GitDiffSystem.sr_call c m w).1 = (m (GitDiffSystem.sr_state w)).1
  /\ GitDiffSystem.encoder (GitDiffSystem.sr_call c m w).2 = GitDiffSystem.encoder w.
Proof.
  unfold GitDiffSystem.sr_call. destruct (m (GitDiffSystem.sr_state w)). split; reflexivity.
Qed.

(** X1.  The reads of a GitDiffSystem show the state as it is, not the
    pending patches: after any sequence of write calls, every read method
    (Get, Glob, IdempotentCmdOutput, Lstat, ReadDir, ReadFile, Readlink, Stat)
    returns what the wrapped reader returned on its state before the writes,
    and a read encodes nothing. *)
Theorem GitDiffSystem_reads_ignore_pending_patches :
  forall (St Clock : Type) (R : SystemReader St) (dmp : diffmatchpatch.Library Clock),
    (forall name st, (sr_Stat name st).2 = st) ->
    (forall name st, (sr_ReadFile name st).2 = st) ->
    forall (s : GitDiffSystem.GitDiffSystem) (cs : list GitDiffSystem.WriteCall)
           (w : GitDiffSystem.World St Clock),
      let w' := (GitDiffSystem.writes dmp s cs w).2 in
      let st := GitDiffSystem.sr_state w in
      let e := GitDiffSystem.encoder w' in
      (forall bucket key,
          (GitDiffSystem.Get s bucket key w').1 = (sr_Get bucket key st).1
          /\ GitDiffSystem.encoder (GitDiffSystem.Get s bucket key w').2 = e)
      /\ (forall pattern,
            (GitDiffSystem.Glob s pattern w').1 = (sr_Glob pattern st).1
            /\ GitDiffSystem.encoder (GitDiffSystem.Glob s pattern w').2 = e)
      /\ (forall cmd,
            (GitDiffSystem.IdempotentCmdOutput s cmd w').1 = (sr_IdempotentCmdOutput cmd st).1
            /\ GitDiffSystem.encoder (GitDiffSystem.IdempotentCmdOutput s cmd w').2 = e)
      /\ (forall name,
            (GitDiffSystem.Lstat s name w').1 = (sr_Lstat name st).1
            /\ GitDiffSystem.encoder (GitDiffSystem.Lstat s name w').2 = e)
      /\ (forall dirname,
            (GitDiffSystem.ReadDir s dirname w').1 = (sr_ReadDir dirname st).1
            /\ GitDiffSystem.encoder (GitDiffSystem.ReadDir s dirname w').2 = e)
      /\ (forall filename,
            (GitDiffSystem.ReadFile s filename w').1 = (sr_ReadFile filename st).1
            /\ GitDiffSystem.encoder (GitDiffSystem.ReadFile s filename w').2 = e)
      /\ (forall name,
            (GitDiffSystem.Readlink s name w').1 = (sr_Readlink name st).1
            /\ GitDiffSystem.encoder (GitDiffSystem.Readlink s name w').2 = e)
      /\ (forall name,
            (GitDiffSystem.Stat s name w').1 = (sr_Stat name st).1
            /\ GitDiffSystem.encoder (GitDiffSystem.Stat s name w').2 = e).
Proof.
  intros St Clock R dmp HStat HReadFile s cs w w' st e.
  assert (GitDiffSystem.sr_state w' = st) as Hframe by (apply writes_frame; assumption).
  unfold GitDiffSystem.Get, GitDiffSystem.Glob, GitDiffSystem.IdempotentCmdOutput,
    GitDiffSystem.Lstat, GitDiffSystem.ReadDir, GitDiffSystem.ReadFile,
    GitDiffSystem.Readlink, GitDiffSystem.Stat.
  repeat split;
    match goal with
    | |- (GitDiffSystem.sr_call ?c ?m w').1 = _ =>
        rewrite (proj1 (sr_call_result c m w')), Hframe; reflexivity
    | |- GitDiffSystem.encoder (GitDiffSystem.sr_call ?c ?m w').2 = _ =>
        exact (proj2 (sr_call_result c m w'))
    end.
Qed.

Lemma GitDiffSystem_reads_ignore_pending_patches_witness :
  let w' := (GitDiffSystem.writes (H := RealSystem.reader Sample.real)
               Sample.wholeText Sample.gitDiff Sample_calls Sample.world).2 in
  (GitDiffSystem.ReadFile (H := RealSystem.reader Sample.real) Sample.gitDiff
     "/home/user/.bashrc" w').1 = Go.Ok (Go.bytes_of_string "foo")
  /\ (GitDiffSystem.Get (H := RealSystem.reader Sample.real) Sample.gitDiff
        (Go.bytes_of_string "scripts") (Go.bytes_of_string "install.sh") w').1
     = Go.Ok [x01; x02].
Proof.
  destruct (GitDiffSystem_reads_ignore_pending_patches OS nat
              (RealSystem.reader Sample.real) Sample.wholeText
              (RealSystem_Stat_reads Sample.real) (RealSystem_ReadFile_reads Sample.real)
              Sample.gitDiff Sample_calls Sample.world)
    as (HGet & _ & _ & _ & _ & HReadFile & _).
  split.
  - rewrite (proj1 (HReadFile "/home/user/.bashrc")). vm_compute. reflexivity.
  - rewrite (proj1 (HGet (Go.bytes_of_string "scripts") (Go.bytes_of_string "install.sh"))).
    vm_compute. reflexivity.
Defined.

(** ** The diff-encoding backend: what the other write methods encode *)

(** A mode with the directory bit is a directory for git, whatever else it
    has. *)
Lemma NewFromOSFileMode_dir (perm : os.FileMode) :
  filemode.NewFromOSFileMode (Z.lor os.ModeDir perm) = Go.Ok filemode.Dir.
Proof.
  assert (forall mask, Z.testbit mask 31 = true ->
            (Z.land (Z.lor os.ModeDir perm) mask =? 0) = false) as Hbit.
  { intros mask Hmask. apply Z.eqb_neq. intros Hzero.
    apply (f_equal (fun z => Z.testbit z 31)) in Hzero.
    rewrite Z.land_spec, Z.lor_spec, Hmask in Hzero.
    change (Z.testbit os.ModeDir 31) with true in Hzero. discriminate Hzero. }
  unfold filemode.NewFromOSFileMode, os.IsRegular, os.IsDir.
  rewrite !Hbit by reflexivity. reflexivity.
Qed.

(** X2.  Mkdir cannot fail in the translation of the mode and reads nothing:
    for every name and perm it encodes exactly one file-patch, with no from
    descriptor and a to descriptor of directory mode, the prefix-trimmed name
    and the zero hash, without chunks; it returns what the encoder returns.
    The permission asked for does not show in the patch: Mkdir with any other
    perm encodes the same. *)
Theorem GitDiffSystem_Mkdir_always_encodes :
  forall (St Clock : Type) (s : GitDiffSystem.GitDiffSystem) (name : string)
         (perm : os.FileMode) (w : GitDiffSystem.World St Clock),
    let r := GitDiffSystem.Mkdir s name perm w in
    r.1 = writeErr (GitDiffSystem.encoder w)
    /\ GitDiffSystem.sr_state r.2 = GitDiffSystem.sr_state w
    /\ GitDiffSystem.sr_calls r.2 = GitDiffSystem.sr_calls w
    /\ (exists fp t,
          emits w r.2 fp
          /\ from fp = None /\ to fp = Some t
          /\ fileMode t = filemode.Dir
          /\ path t = Go.TrimPrefix name (GitDiffSystem.prefix s)
          /\ hash t = plumbing.ZeroHash
          /\ isBinaryFlag fp = false /\ chunks fp = [])
    /\ (forall perm', GitDiffSystem.Mkdir s name perm' w = r).
Proof.
  intros St Clock s name perm w r. subst r. unfold GitDiffSystem.Mkdir.
  rewrite NewFromOSFileMode_dir. repeat split.
  - eexists _, _. repeat split.
  - intros perm'. rewrite NewFromOSFileMode_dir. reflexivity.
Qed.

Section GitDiffSystemMoreCases.

Context {St Clock : Type} `{SystemReader St}.

Implicit Types (s : GitDiffSystem.GitDiffSystem) (w : GitDiffSystem.World St Clock).

Lemma RemoveAll_cases s name w :
  GitDiffSystem.RemoveAll s name w
  = match sr_Stat name (GitDiffSystem.sr_state w) with
    | (Go.Err err, st) => (Some err, called w st [CallStat name])
    | (Go.Ok info, st) =>
        match filemode.NewFromOSFileMode (os.Mode info) with
        | Go.Err err => (Some err, called w st [CallStat name])
        | Go.Ok fm =>
            (writeErr (GitDiffSystem.encoder w),
             encoding w st [CallStat name] (GitDiffSystem.clock w)
               (mkPatch
                  [ mkFilePatch false
                      (Some (mkFile plumbing.ZeroHash fm (GitDiffSystem.trimPrefix s name)))
                      None [] ] ""))
        end
    end.
Proof.
  unfold GitDiffSystem.RemoveAll. rewrite getFileMode_cases.
  destruct (sr_Stat name (GitDiffSystem.sr_state w)) as [[info | err] st]; [| reflexivity].
  destruct (filemode.NewFromOSFileMode (os.Mode info)); reflexivity.
Qed.

Lemma Rename_cases s oldpath newpath w :
  GitDiffSystem.Rename s oldpath newpath w
  = match sr_Stat oldpath (GitDiffSystem.sr_state w) with
    | (Go.Err err, st) => (Some err, called w st [CallStat oldpath])
    | (Go.Ok info, st) =>
        match filemode.NewFromOSFileMode (os.Mode info) with
        | Go.Err err => (Some err, called w st [CallStat oldpath])
        | Go.Ok fm =>
            (writeErr (GitDiffSystem.encoder w),
             encoding w st [CallStat oldpath] (GitDiffSystem.clock w)
               (mkPatch
                  [ mkFilePatch false
                      (Some (mkFile plumbing.ZeroHash fm (GitDiffSystem.trimPrefix s oldpath)))
                      (Some (mkFile plumbing.ZeroHash fm (GitDiffSystem.trimPrefix s newpath)))
                      [] ] ""))
        end
    end.
Proof.
  unfold GitDiffSystem.Rename. rewrite getFileMode_cases.
  destruct (sr_Stat oldpath (GitDiffSystem.sr_state w)) as [[info | err] st]; [| reflexivity].
  destruct (filemode.NewFromOSFileMode (os.Mode info)); reflexivity.
Qed.

Lemma emits_encoding_self w st cs clk fp :
  emits w (encoding w st cs clk (mkPatch [fp] "")) fp.
Proof. reflexivity. Qed.

Lemma silent_called w st cs : silent w (called w st cs).
Proof. reflexivity. Qed.

End GitDiffSystemMoreCases.

(** X3.  RemoveAll asks the reader for Stat and for nothing else.  When Stat
    fails, as it does on a path that does not exist, RemoveAll returns that
    error and encodes nothing; so it does when the mode has no git equivalent.
    Otherwise it encodes exactly one file-patch with a from descriptor only:
    the git mode of what Stat reported, the prefix-trimmed name and the zero
    hash, the content being never read. *)
Theorem GitDiffSystem_RemoveAll_outcomes :
  forall (St Clock : Type) (R : SystemReader St) (s : GitDiffSystem.GitDiffSystem)
         (name : string) (w : GitDiffSystem.World St Clock),
    let r := GitDiffSystem.RemoveAll s name w in
    GitDiffSystem.sr_calls r.2 = (GitDiffSystem.sr_calls w ++ [CallStat name])%list
    /\ GitDiffSystem.sr_state r.2 = (sr_Stat name (GitDiffSystem.sr_state w)).2
    /\ (forall err,
          (sr_Stat name (GitDiffSystem.sr_state w)).1 = Go.Err err ->
          r.1 = Some err /\ silent w r.2)
    /\ (forall info err,
          (sr_Stat name (GitDiffSystem.sr_state w)).1 = Go.Ok info ->
          filemode.NewFromOSFileMode (os.Mode info) = Go.Err err ->
          r.1 = Some err /\ silent w r.2)
    /\ (forall info fm,
          (sr_Stat name (GitDiffSystem.sr_state w)).1 = Go.Ok info ->
          filemode.NewFromOSFileMode (os.Mode info) = Go.Ok fm ->
          r.1 = writeErr (GitDiffSystem.encoder w)
          /\ exists fp f,
               emits w r.2 fp
               /\ from fp = Some f /\ to fp = None
               /\ fileMode f = fm
               /\ path f = Go.TrimPrefix name (GitDiffSystem.prefix s)
               /\ hash f = plumbing.ZeroHash
               /\ isBinaryFlag fp = false /\ chunks fp = []).
Proof.
  intros St Clock R s name w r. subst r. rewrite RemoveAll_cases.
  destruct (sr_Stat name (GitDiffSystem.sr_state w)) as [[info | err] st]; cbn [fst snd].
  - destruct (filemode.NewFromOSFileMode (os.Mode info)) as [fm | err] eqn:Hmode;
      (split; [reflexivity |]); (split; [reflexivity |]);
      (split; [discriminate |]); split.
    + intros info' err' Hinfo. injection Hinfo as <-. rewrite Hmode. discriminate.
    + intros info' fm' Hinfo. injection Hinfo as <-. rewrite Hmode.
      intros Hfm. injection Hfm as <-. split; [reflexivity |].
      eexists _, _. split; [apply emits_encoding_self |]. repeat split.
    + intros info' err' Hinfo. injection Hinfo as <-. rewrite Hmode.
      intros Herr. injection Herr as <-. split; reflexivity.
    + intros info' fm' Hinfo. injection Hinfo as <-. rewrite Hmode. discriminate.
  - split; [reflexivity |]. split; [reflexivity |]. split; [| split].
    + intros err' Herr. injection Herr as <-. split; reflexivity.
    + discriminate.
    + discriminate.
Qed.

Lemma GitDiffSystem_RemoveAll_outcomes_witness :
  (let r := GitDiffSystem.RemoveAll (H := RealSystem.reader Sample.real) Sample.gitDiff
              "/home/user/missing" Sample.world in
   r.1 = Some ErrNotExist /\ silent Sample.world r.2)
  /\ (let r := GitDiffSystem.RemoveAll (H := RealSystem.reader Sample.real) Sample.gitDiff
                 "/home/user/pipe" Sample.world in
      r.1 = Some filemode.noEquivalent /\ silent Sample.world r.2)
  /\ (let r := GitDiffSystem.RemoveAll (H := RealSystem.reader Sample.real) Sample.gitDiff
                 "/home/user/a" Sample.world in
      r.1 = None
      /\ exists fp f,
           emits Sample.world r.2 fp /\ from fp = Some f /\ to fp = None
           /\ fileMode f = filemode.Executable /\ path f = "a"
           /\ hash f = plumbing.ZeroHash /\ isBinaryFlag fp = false /\ chunks fp = []).
Proof.
  split; [| split].
  - destruct (GitDiffSystem_RemoveAll_outcomes OS nat (RealSystem.reader Sample.real)
                Sample.gitDiff "/home/user/missing" Sample.world) as (_ & _ & Hmissing & _).
    apply Hmissing. vm_compute. reflexivity.
  - destruct (GitDiffSystem_RemoveAll_outcomes OS nat (RealSystem.reader Sample.real)
                Sample.gitDiff "/home/user/pipe" Sample.world) as (_ & _ & _ & Hpipe & _).
    apply (Hpipe (os.mkFileInfo "pipe" 0 (Z.lor os.ModeNamedPipe 420)));
      vm_compute; reflexivity.
  - destruct (GitDiffSystem_RemoveAll_outcomes OS nat (RealSystem.reader Sample.real)
                Sample.gitDiff "/home/user/a" Sample.world) as (_ & _ & _ & _ & Hfile).
    apply (Hfile (os.mkFileInfo "a" 3 511)); vm_compute; reflexivity.
Defined.

(** The direct backend, by contrast, removes a path that does not exist
    without an error. *)
Example direct_RemoveAll_of_nothing :
  (fs_RemoveAll vfs.TestFS "/home/user/missing" (Sample.machine vfs.TestFS Sample.quiet)).1
  = None.
Proof. reflexivity. Qed.

(** X4.  Rename asks the reader for Stat of the old path only: the new path
    is never examined.  When Stat fails it returns that error and encodes
    nothing.  When it encodes, the one file-patch has both descriptors, of
    the same git mode (the one of the old path), at the two prefix-trimmed
    paths, with the zero hash and without chunks. *)
Theorem GitDiffSystem_Rename_keeps_the_mode :
  forall (St Clock : Type) (R : SystemReader St) (s : GitDiffSystem.GitDiffSystem)
         (oldpath newpath : string) (w : GitDiffSystem.World St Clock),
    let r := GitDiffSystem.Rename s oldpath newpath w in
    GitDiffSystem.sr_calls r.2 = (GitDiffSystem.sr_calls w ++ [CallStat oldpath])%list
    /\ (forall err,
          (sr_Stat oldpath (GitDiffSystem.sr_state w)).1 = Go.Err err ->
          r.1 = Some err /\ silent w r.2)
    /\ (forall info fm,
          (sr_Stat oldpath (GitDiffSystem.sr_state w)).1 = Go.Ok info ->
          filemode.NewFromOSFileMode (os.Mode info) = Go.Ok fm ->
          r.1 = writeErr (GitDiffSystem.encoder w)
          /\ emits w r.2
               (mkFilePatch false
                  (Some (mkFile plumbing.ZeroHash fm
                           (Go.TrimPrefix oldpath (GitDiffSystem.prefix s))))
                  (Some (mkFile plumbing.ZeroHash fm
                           (Go.TrimPrefix newpath (GitDiffSystem.prefix s))))
                  []))
    /\ (forall fp,
          emits w r.2 fp ->
          exists f t,
            from fp = Some f /\ to fp = Some t /\ fileMode f = fileMode t
            /\ hash f = plumbing.ZeroHash /\ hash t = plumbing.ZeroHash).
Proof.
  intros St Clock R s oldpath newpath w r. subst r. rewrite Rename_cases.
  destruct (sr_Stat oldpath (GitDiffSystem.sr_state w)) as [[info | err] st]; cbn [fst snd].
  - destruct (filemode.NewFromOSFileMode (os.Mode info)) as [fm | err] eqn:Hmode;
      (split; [reflexivity |]); (split; [discriminate |]); split.
    + intros info' fm' Hinfo. injection Hinfo as <-. rewrite Hmode.
      intros Hfm. injection Hfm as <-. split; reflexivity.
    + intros fp Hemit. apply emits_encoding in Hemit. subst fp.
      eexists _, _. repeat split.
    + intros info' fm' Hinfo. injection Hinfo as <-. rewrite Hmode. discriminate.
    + intros fp Hemit. exfalso. exact (emits_called _ _ _ _ Hemit).
  - split; [reflexivity |]. split; [| split].
    + intros err' Herr. injection Herr as <-. split; reflexivity.
    + discriminate.
    + intros fp Hemit. exfalso. exact (emits_called _ _ _ _ Hemit).
Qed.

Lemma GitDiffSystem_Rename_keeps_the_mode_witness :
  let r := GitDiffSystem.Rename (H := RealSystem.reader Sample.real) Sample.gitDiff
             "/home/user/a" "/home/user/.bashrc" Sample.world in
  r.1 = None
  /\ emits Sample.world r.2
       (mkFilePatch false
          (Some (mkFile plumbing.ZeroHash filemode.Executable "a"))
          (Some (mkFile plumbing.ZeroHash filemode.Executable ".bashrc")) []).
Proof.
  destruct (GitDiffSystem_Rename_keeps_the_mode OS nat (RealSystem.reader Sample.real)
              Sample.gitDiff "/home/user/a" "/home/user/.bashrc" Sample.world)
    as (_ & _ & Hok & _).
  apply (Hok (os.mkFileInfo "a" 3 511)); vm_compute; reflexivity.
Defined.

(** X5.  WriteFile needs the file to be there: when Stat fails (the file does
    not exist), or the existing mode has no git equivalent, WriteFile returns
    that error having called Stat only, without reading the file and without
    encoding.  It returns nil only when it has encoded a patch.  The patch it
    encodes has both descriptors at the same path, the to-mode being the git
    mode of perm alone, after Stat and ReadFile and no other call. *)
Theorem GitDiffSystem_WriteFile_outcomes :
  forall (St Clock : Type) (R : SystemReader St) (dmp : diffmatchpatch.Library Clock)
         (s : GitDiffSystem.GitDiffSystem) (filename : string) (data : list byte)
         (perm : os.FileMode) (w : GitDiffSystem.World St Clock),
    let r := GitDiffSystem.WriteFile dmp s filename data perm w in
    (forall err,
        (sr_Stat filename (GitDiffSystem.sr_state w)).1 = Go.Err err ->
        r.1 = Some err /\ silent w r.2
        /\ GitDiffSystem.sr_calls r.2 = (GitDiffSystem.sr_calls w ++ [CallStat filename])%list)
    /\ (forall info err,
          (sr_Stat filename (GitDiffSystem.sr_state w)).1 = Go.Ok info ->
          filemode.NewFromOSFileMode (os.Mode info) = Go.Err err ->
          r.1 = Some err /\ silent w r.2
          /\ GitDiffSystem.sr_calls r.2
             = (GitDiffSystem.sr_calls w ++ [CallStat filename])%list)
    /\ (r.1 = None -> exists fp, emits w r.2 fp)
    /\ (forall fp,
          emits w r.2 fp ->
          r.1 = writeErr (GitDiffSystem.encoder w)
          /\ GitDiffSystem.sr_calls r.2
             = (GitDiffSystem.sr_calls w ++ [CallStat filename; CallReadFile filename])%list
          /\ exists f t tm,
               from fp = Some f /\ to fp = Some t
               /\ path f = Go.TrimPrefix filename (GitDiffSystem.prefix s)
               /\ path t = path f
               /\ filemode.NewFromOSFileMode perm = Go.Ok tm /\ fileMode t = tm).
Proof.
  intros St Clock R dmp s filename data perm w r. subst r. rewrite WriteFile_cases.
  destruct (sr_Stat filename (GitDiffSystem.sr_state w)) as [[info | err] st]; cbn [fst snd].
  - destruct (filemode.NewFromOSFileMode (os.Mode info)) as [fm | err] eqn:Hmode.
    + split; [discriminate |]. split.
      { intros info' err' Hinfo. injection Hinfo as <-. rewrite Hmode. discriminate. }
      destruct (sr_ReadFile filename st) as [[fromData | err] st'].
      * destruct (filemode.NewFromOSFileMode perm) as [tm | err] eqn:Hperm.
        -- cbv zeta. cbn [fst snd]. split.
           ++ intros _. eexists. apply emits_encoding_self.
           ++ intros fp Hemit. apply emits_encoding in Hemit. subst fp.
              split; [reflexivity |]. split; [reflexivity |].
              eexists _, _, tm. repeat split.
        -- split; [discriminate |].
           intros fp Hemit. exfalso. exact (emits_called _ _ _ _ Hemit).
      * split; [discriminate |].
        intros fp Hemit. exfalso. exact (emits_called _ _ _ _ Hemit).
    + split; [discriminate |]. split.
      { intros info' err' Hinfo. injection Hinfo as <-. rewrite Hmode.
        intros Herr. injection Herr as <-. repeat split. }
      split; [discriminate |].
      intros fp Hemit. exfalso. exact (emits_called _ _ _ _ Hemit).
  - split.
    { intros err' Herr. injection Herr as <-. repeat split. }
    split; [discriminate |]. split; [discriminate |].
    intros fp Hemit. exfalso. exact (emits_called _ _ _ _ Hemit).
Qed.

Lemma GitDiffSystem_WriteFile_outcomes_witness :
  (let r := GitDiffSystem.WriteFile (H := RealSystem.reader Sample.real) Sample.wholeText
              Sample.gitDiff "/home/user/new" (Go.bytes_of_string "x") 420 Sample.world in
   r.1 = Some ErrNotExist /\ silent Sample.world r.2
   /\ GitDiffSystem.sr_calls r.2 = [CallStat "/home/user/new"])
  /\ (let r := GitDiffSystem.WriteFile (H := RealSystem.reader Sample.real) Sample.wholeText
                 Sample.gitDiff "/home/user/a" (Go.bytes_of_string "new") 420 Sample.world in
      exists fp, emits Sample.world r.2 fp).
Proof.
  split.
  - destruct (GitDiffSystem_WriteFile_outcomes OS nat (RealSystem.reader Sample.real)
                Sample.wholeText Sample.gitDiff "/home/user/new" (Go.bytes_of_string "x")
                420 Sample.world) as (Hmissing & _).
    apply Hmissing. vm_compute. reflexivity.
  - destruct (GitDiffSystem_WriteFile_outcomes OS nat (RealSystem.reader Sample.real)
                Sample.wholeText Sample.gitDiff "/home/user/a" (Go.bytes_of_string "new")
                420 Sample.world) as (_ & _ & Hnil & _).
    apply Hnil. vm_compute. reflexivity.
Defined.

(** X6.  WriteSymlink reads nothing and cannot fail but in the encoder: for
    every old and new name it encodes exactly one file-patch with no from
    descriptor, a to descriptor of symlink mode at the prefix-trimmed new
    name, and the one add chunk whose content is the old name.  The patch is
    never marked binary, whatever bytes the old name has. *)
Theorem GitDiffSystem_WriteSymlink_encodes_link :
  forall (St Clock : Type) (s : GitDiffSystem.GitDiffSystem) (oldname newname : string)
         (w : GitDiffSystem.World St Clock),
    let r := GitDiffSystem.WriteSymlink s oldname newname w in
    r.1 = writeErr (GitDiffSystem.encoder w)
    /\ GitDiffSystem.sr_state r.2 = GitDiffSystem.sr_state w
    /\ GitDiffSystem.sr_calls r.2 = GitDiffSystem.sr_calls w
    /\ GitDiffSystem.clock r.2 = GitDiffSystem.clock w
    /\ exists fp t,
         emits w r.2 fp
         /\ from fp = None /\ to fp = Some t
         /\ fileMode t = filemode.Symlink
         /\ path t = Go.TrimPrefix newname (GitDiffSystem.prefix s)
         /\ isBinaryFlag fp = false
         /\ chunks fp = [mkChunk oldname diff.Add].
Proof.
  intros St Clock s oldname newname w r. subst r. unfold GitDiffSystem.WriteSymlink.
  split; [reflexivity |]. split; [reflexivity |]. split; [reflexivity |].
  split; [reflexivity |]. eexists _, _. repeat split.
Qed.

(** A link whose target starts with a null byte is still shown as text,
    where a script with the same bytes is binary. *)
Example symlink_is_never_binary :
  let target := String (ascii_of_nat 0) "x" in
  isBinary (Go.bytes_of_string target) = true
  /\ map isBinaryFlag
       (flat_map filePatches
          (encoded (GitDiffSystem.encoder
             (GitDiffSystem.WriteSymlink Sample.gitDiff target "/home/user/link"
                Sample.world).2))) = [false]
  /\ map isBinaryFlag
       (flat_map filePatches
          (encoded (GitDiffSystem.encoder
             (GitDiffSystem.RunScript Sample.gitDiff "x.sh" (Go.bytes_of_string target)
                Sample.world).2))) = [true].
Proof. vm_compute. repeat split. Qed.

(** ** The diff-encoding backend: a sequence of writes *)

Section GitDiffSystemAppends.

Context {St Clock : Type} `{SystemReader St} (dmp : diffmatchpatch.Library Clock).

Implicit Types (s : GitDiffSystem.GitDiffSystem) (w : GitDiffSystem.World St Clock).

(** One write call: the encoder's writer is not replaced, and either nothing
    is encoded (and the call fails, unless it is on the persistent state) or
    one patch of one file-patch is, and the encoder's answer is returned. *)
Lemma write_appends s c w :
  let r := GitDiffSystem.write dmp s c w in
  writeErr (GitDiffSystem.encoder r.2) = writeErr (GitDiffSystem.encoder w)
  /\ ((silent w r.2 /\ (r.1 = None <-> encodes c = false))
      \/ (encodes c = true
          /\ r.1 = writeErr (GitDiffSystem.encoder w)
          /\ exists fp, emits w r.2 fp)).
Proof.
  assert (forall err : Go.error, Some err = None <-> true = false) as Hfailed
    by (intros err; split; discriminate).
  assert ((@None Go.error) = None <-> false = false) as Hstate by (split; reflexivity).
  destruct c; cbn [GitDiffSystem.write encodes].
  - rewrite Chmod_cases.
    destruct (sr_Stat name _) as [[info | err] st]; [| split; [reflexivity | left; split; [apply silent_called | apply Hfailed]]].
    destruct (filemode.NewFromOSFileMode (os.Mode info));
      [| split; [reflexivity | left; split; [apply silent_called | apply Hfailed]]].
    destruct (filemode.NewFromOSFileMode (Z.lor _ mode));
      [| split; [reflexivity | left; split; [apply silent_called | apply Hfailed]]].
    split; [reflexivity |]. right. split; [reflexivity |]. split; [reflexivity |].
    eexists. apply emits_encoding_self.
  - unfold GitDiffSystem.Mkdir. rewrite NewFromOSFileMode_dir.
    split; [reflexivity |]. right. split; [reflexivity |]. split; [reflexivity |].
    eexists. reflexivity.
  - rewrite RemoveAll_cases.
    destruct (sr_Stat name _) as [[info | err] st]; [| split; [reflexivity | left; split; [apply silent_called | apply Hfailed]]].
    destruct (filemode.NewFromOSFileMode (os.Mode info));
      [| split; [reflexivity | left; split; [apply silent_called | apply Hfailed]]].
    split; [reflexivity |]. right. split; [reflexivity |]. split; [reflexivity |].
    eexists. apply emits_encoding_self.
  - rewrite Rename_cases.
    destruct (sr_Stat oldpath _) as [[info | err] st]; [| split; [reflexivity | left; split; [apply silent_called | apply Hfailed]]].
    destruct (filemode.NewFromOSFileMode (os.Mode info));
      [| split; [reflexivity | left; split; [apply silent_called | apply Hfailed]]].
    split; [reflexivity |]. right. split; [reflexivity |]. split; [reflexivity |].
    eexists. apply emits_encoding_self.
  - split; [reflexivity |]. right. split; [reflexivity |]. split; [reflexivity |].
    eexists. reflexivity.
  - rewrite WriteFile_cases.
    destruct (sr_Stat filename _) as [[info | err] st]; [| split; [reflexivity | left; split; [apply silent_called | apply Hfailed]]].
    destruct (filemode.NewFromOSFileMode (os.Mode info));
      [| split; [reflexivity | left; split; [apply silent_called | apply Hfailed]]].
    destruct (sr_ReadFile filename st) as [[fromData | err] st'];
      [| split; [reflexivity | left; split; [apply silent_called | apply Hfailed]]].
    destruct (filemode.NewFromOSFileMode perm);
      [| split; [reflexivity | left; split; [apply silent_called | apply Hfailed]]].
    cbv zeta. split; [reflexivity |]. right. split; [reflexivity |]. split; [reflexivity |].
    eexists. apply emits_encoding_self.
  - split; [reflexivity |]. right. split; [reflexivity |]. split; [reflexivity |].
    eexists. reflexivity.
  - split; [reflexivity |]. left. split; [reflexivity | apply Hstate].
  - split; [reflexivity |]. left. split; [reflexivity | apply Hstate].
Qed.

End GitDiffSystemAppends.

(** X7.  Writes only append to what is encoded.  After any sequence of write
    calls the patches encoded before are still there, in order, followed by
    new ones, each of exactly one file-patch and no message; every call has
    its result.  When the encoder's writer does not fail, there is one new
    patch for each call that returned nil, the calls on the persistent state
    apart: a call that fails adds nothing. *)
Theorem GitDiffSystem_writes_append_patches :
  forall (St Clock : Type) (R : SystemReader St) (dmp : diffmatchpatch.Library Clock)
         (s : GitDiffSystem.GitDiffSystem) (cs : list GitDiffSystem.WriteCall)
         (w : GitDiffSystem.World St Clock),
    let r := GitDiffSystem.writes dmp s cs w in
    exists ps,
      encoded (GitDiffSystem.encoder r.2) = (encoded (GitDiffSystem.encoder w) ++ ps)%list
      /\ Forall single ps
      /\ length r.1 = length cs
      /\ writeErr (GitDiffSystem.encoder r.2) = writeErr (GitDiffSystem.encoder w)
      /\ (writeErr (GitDiffSystem.encoder w) = None -> length ps = successes cs r.1).
Proof.
  intros St Clock R dmp s cs. induction cs as [| c cs IH]; intros w r; subst r.
  - exists []. cbn. rewrite app_nil_r. repeat split. constructor.
  - cbn [GitDiffSystem.writes].
    pose proof (write_appends dmp s c w) as [Hwriter Hstep]. cbv zeta in Hwriter, Hstep.
    destruct (GitDiffSystem.write dmp s c w) as [err w1]. cbn [fst snd] in Hwriter, Hstep.
    specialize (IH w1). cbv zeta in IH. destruct IH as (ps & Hps & Hsingle & Hlen & Hw & Hcount).
    destruct (GitDiffSystem.writes dmp s cs w1) as [errs w2]. cbn [fst snd] in *.
    destruct Hstep as [[Hsilent Hnil] | (Henc & Herr & fp & Hemit)].
    + exists ps. unfold silent in Hsilent. rewrite Hps, Hsilent.
      split; [reflexivity |]. split; [exact Hsingle |]. split; [cbn; congruence |].
      split; [congruence |]. intros Hquiet. cbn [successes].
      rewrite Hcount by congruence.
      destruct (encodes c); [| reflexivity].
      destruct err; [reflexivity |].
      assert (true = false) as Habs by (apply Hnil; reflexivity). discriminate Habs.
    + exists (mkPatch [fp] "" :: ps). unfold emits in Hemit. rewrite Hps, Hemit, <- app_assoc.
      split; [reflexivity |].
      split; [constructor; [eexists; reflexivity | exact Hsingle] |].
      split; [cbn; congruence |]. split; [congruence |].
      intros Hquiet. cbn [successes length]. rewrite Hcount by congruence.
      rewrite Henc, Herr, Hquiet. reflexivity.
Qed.

(** In the sample run nine calls encode seven patches on top of two that
    were there; a failing call in the middle adds none. *)
Example sample_run_appends :
  let w := GitDiffSystem.mkWorld (Sample.machine vfs.TestFS Sample.quiet) []
             (mkEncoder [mkPatch [] "first"; mkPatch [] "second"] None) O in
  let r := GitDiffSystem.writes (H := RealSystem.reader Sample.real) Sample.wholeText
             Sample.gitDiff
             (GitDiffSystem.DoChmod "/home/user/pipe" 420 :: Sample_calls) w in
  take 2 (encoded (GitDiffSystem.encoder r.2)) = [mkPatch [] "first"; mkPatch [] "second"]
  /\ length (encoded (GitDiffSystem.encoder r.2)) = 9%nat
  /\ successes (GitDiffSystem.DoChmod "/home/user/pipe" 420 :: Sample_calls) r.1 = 7%nat.
Proof. vm_compute. repeat split. Qed.

(** ** Paths relative to the prefix *)

Lemma HasPrefix_append (p r : string) : Go.HasPrefix (p +:+ r) p = true.
Proof.
  induction p as [| c p IH]; [reflexivity |].
  change (String c p +:+ r) with (String c (p +:+ r)).
  cbn [Go.HasPrefix]. rewrite Ascii.eqb_refl. exact IH.
Qed.

Lemma drop_string_append (p r : string) : Go.drop_string (String.length p) (p +:+ r) = r.
Proof. induction p as [| c p IH]; [reflexivity | exact IH]. Qed.

Lemma HasPrefix_split (p : string) : forall s,
  Go.HasPrefix s p = true -> p +:+ Go.drop_string (String.length p) s = s.
Proof.
  induction p as [| c p IH]; intros s Hs; [reflexivity |].
  destruct s as [| d s]; [discriminate |]. cbn [Go.HasPrefix] in Hs.
  destruct (Ascii.eqb c d) eqn:Hcd; [| discriminate].
  apply Ascii.eqb_eq in Hcd. subst d.
  change (String c (p +:+ Go.drop_string (String.length p) s) = String c s).
  rewrite (IH s Hs). reflexivity.
Qed.

(** X8.  The path of a patch is the name with the prefix of the
    GitDiffSystem taken off its front, once: a name made of the prefix and a
    rest gives the rest; a name that starts with the prefix is the prefix
    followed by its path; a name that does not start with the prefix is left
    as it is, not made relative. *)
Theorem GitDiffSystem_trimPrefix_relative :
  forall (s : GitDiffSystem.GitDiffSystem) (name : string),
    (forall rest, GitDiffSystem.trimPrefix s (GitDiffSystem.prefix s +:+ rest) = rest)
    /\ (Go.HasPrefix name (GitDiffSystem.prefix s) = true ->
        GitDiffSystem.prefix s +:+ GitDiffSystem.trimPrefix s name = name)
    /\ (Go.HasPrefix name (GitDiffSystem.prefix s) = false ->
        GitDiffSystem.trimPrefix s name = name).
Proof.
  intros s name. unfold GitDiffSystem.trimPrefix, Go.TrimPrefix. split; [| split].
  - intros rest. rewrite HasPrefix_append. apply drop_string_append.
  - intros Hs. rewrite Hs. apply HasPrefix_split. exact Hs.
  - intros Hs. rewrite Hs. reflexivity.
Qed.

(** The prefix is taken off as text: it is not a path operation. *)
Example trimPrefix_is_textual :
  let s := GitDiffSystem.NewGitDiffSystem "/home/user" in
  GitDiffSystem.trimPrefix s "/home/user/.bashrc" = "/.bashrc"
  /\ GitDiffSystem.trimPrefix s "/home/username/.bashrc" = "name/.bashrc"
  /\ GitDiffSystem.trimPrefix s "/etc/passwd" = "/etc/passwd".
Proof. repeat split. Qed.

(** ** The operations of the chunks *)

Lemma gitDiffOperation_missing (t : diffmatchpatch.Operation) :
  t <> diffmatchpatch.DiffDelete -> t <> diffmatchpatch.DiffEqual ->
  t <> diffmatchpatch.DiffInsert ->
  gitDiffOperation !! t = None.
Proof.
  intros Hd He Hi. unfold gitDiffOperation.
  rewrite !lookup_insert_ne by congruence. apply lookup_singleton_ne. congruence.
Qed.

(** X9.  The operation of a chunk is read off the map gitDiffOperation:
    delete for the library's delete, equal for its equal, add for its insert,
    and, the map having no other key, equal for any other value.  diffChunks
    keeps every diff the library returns, in order and with its text: a
    chunk is a delete exactly when the diff is a delete and an add exactly
    when the diff is an insert. *)
Theorem diffChunks_maps_operations :
  gitDiffOperation_at diffmatchpatch.DiffDelete = diff.Delete
  /\ gitDiffOperation_at diffmatchpatch.DiffEqual = diff.Equal
  /\ gitDiffOperation_at diffmatchpatch.DiffInsert = diff.Add
  /\ (forall t,
        t <> diffmatchpatch.DiffDelete -> t <> diffmatchpatch.DiffInsert ->
        gitDiffOperation_at t = diff.Equal)
  /\ (forall (Clock : Type) (dmp : diffmatchpatch.Library Clock) (from_ to_ : string)
             (clk : Clock),
        let '(fromRunes, toRunes, runesToLines) :=
          diffmatchpatch.DiffLinesToRunes dmp from_ to_ in
        let diffs :=
          diffmatchpatch.DiffCharsToLines dmp
            (diffmatchpatch.DiffMainRunes dmp diffmatchpatch.Second fromRunes toRunes
               false clk).1 runesToLines in
        Forall2
          (fun c d =>
             content c = diffmatchpatch.Text d
             /\ (operation c = diff.Delete
                 <-> diffmatchpatch.Type_ d = diffmatchpatch.DiffDelete)
             /\ (operation c = diff.Add
                 <-> diffmatchpatch.Type_ d = diffmatchpatch.DiffInsert))
          (diffChunks dmp from_ to_ clk).1 diffs).
Proof.
  assert (forall t,
            t <> diffmatchpatch.DiffDelete -> t <> diffmatchpatch.DiffInsert ->
            gitDiffOperation_at t = diff.Equal) as Hother.
  { intros t Hd Hi. destruct (Z.eq_dec t diffmatchpatch.DiffEqual) as [-> | He];
      [reflexivity |].
    unfold gitDiffOperation_at. rewrite gitDiffOperation_missing by assumption.
    reflexivity. }
  split; [reflexivity |]. split; [reflexivity |]. split; [reflexivity |].
  split; [exact Hother |].
  intros Clock dmp from_ to_ clk. unfold diffChunks.
  destruct (diffmatchpatch.DiffLinesToRunes dmp from_ to_) as [[fromRunes toRunes] lines].
  destruct (diffmatchpatch.DiffMainRunes dmp diffmatchpatch.Second fromRunes toRunes false clk)
    as [ds clk'].
  cbn [fst]. induction (diffmatchpatch.DiffCharsToLines dmp ds lines) as [| d diffs IH];
    cbn [map]; constructor; [| exact IH].
  cbn [content operation]. split; [reflexivity |].
  destruct (Z.eq_dec (diffmatchpatch.Type_ d) diffmatchpatch.DiffDelete) as [Hd | Hd].
  { rewrite Hd. split; split; try reflexivity; discriminate. }
  destruct (Z.eq_dec (diffmatchpatch.Type_ d) diffmatchpatch.DiffInsert) as [Hi | Hi].
  { rewrite Hi. split; split; try reflexivity; discriminate. }
  rewrite (Hother _ Hd Hi). split; split; intros Habs; try discriminate; contradiction.
Qed.

(** A value that is no operation of the library shows as context. *)
Example unknown_operation_is_equal :
  gitDiffOperation_at 7 = diff.Equal /\ gitDiffOperation_at (-2) = diff.Equal.
Proof. split; reflexivity. Qed.

(** ** Sniffing looks at the first 512 bytes *)

Lemma DetectContentType_take (data : list byte) :
  http.DetectContentType (take http.sniffLen data) = http.DetectContentType data.
Proof.
  unfold http.DetectContentType. rewrite firstn_firstn, Nat.min_id. reflexivity.
Qed.

(** X10.  isBinary is decided by the first 512 bytes of the content: it is
    the same on a content and on its first 512 bytes, so two contents that
    agree on their first 512 bytes are both binary or both not, whatever
    follows. *)
Theorem isBinary_looks_at_512_bytes :
  forall data : list byte,
    isBinary data = isBinary (take http.sniffLen data)
    /\ (forall data',
          take http.sniffLen data' = take http.sniffLen data ->
          isBinary data' = isBinary data).
Proof.
  assert (forall data, isBinary data = isBinary (take http.sniffLen data)) as Htake.
  { intros data. unfold isBinary. rewrite DetectContentType_take.
    replace (length (take http.sniffLen data) =? 0)%nat with (length data =? 0)%nat;
      [reflexivity |].
    destruct data as [| b data]; [reflexivity |].
    change (take http.sniffLen (b :: data)) with (b :: take 511 data).
    cbn [length Nat.eqb]. reflexivity. }
  intros data. split; [apply Htake |].
  intros data' Heq. rewrite (Htake data'), Heq, <- Htake. reflexivity.
Qed.

(** 512 letters followed by null bytes are text; the same null bytes in
    front make the content binary. *)
Example isBinary_beyond_512 :
  isBinary (repeat x61 512 ++ [x00; x00; xff]) = false
  /\ isBinary ([x00; x00; xff] ++ repeat x61 512) = true.
Proof. lazy. split; reflexivity. Qed.

(** ** RunScript of the direct backend: the file the script is run from *)

Lemma new_steps_app (o o' : OS) (steps : list Step) :
  trace o' = (trace o ++ steps)%list -> new_steps o o' = steps.
Proof. intros Htrace. unfold new_steps. rewrite Htrace. apply drop_app_length. Qed.

Lemma Perm_private (m : os.FileMode) : os.Perm m = 448 -> Z.land m 63 = 0.
Proof.
  unfold os.Perm. intros Hperm.
  change 63 with (Z.land os.ModePerm 63). rewrite Z.land_assoc, Hperm. reflexivity.
Qed.

Lemma prefixAndSuffix_no_star (s : string) : has_star s = false -> prefixAndSuffix s = None.
Proof.
  induction s as [| c s IH]; [reflexivity |]. cbn [has_star prefixAndSuffix].
  intros Hstar. apply orb_false_iff in Hstar as [Hc Hs].
  rewrite (IH Hs), Hc. reflexivity.
Qed.

Lemma prefixAndSuffix_script (b : string) :
  has_star b = false -> prefixAndSuffix ("*." +:+ b) = Some (EmptyString, "." +:+ b).
Proof.
  intros Hstar. change ("*." +:+ b) with (String "*" (String "." b)).
  cbn [prefixAndSuffix]. rewrite (prefixAndSuffix_no_star b Hstar). reflexivity.
Qed.

(** A temporary file is created empty, for its owner only. *)
Lemma ioutil_TempFile_file dir pattern o :
  (exists err,
      ioutil_TempFile dir pattern o
      = (Go.Err err, record (EvTempFile dir pattern) (Some err) (disk o) o))
  \/ (exists f d,
        ioutil_TempFile dir pattern o
        = (Go.Ok f, record (EvTempFile dir pattern) None d o)
        /\ h_fs f = vfs.OSFS
        /\ files vfs.OSFS d !! h_name f = Some (vfs.File 384 [])
        /\ (forall b, dir = EmptyString -> pattern = "*." +:+ b -> has_star b = false ->
            h_name f = TempDir +:+ "/" +:+ random (env o) +:+ "." +:+ b)).
Proof.
  unfold ioutil_TempFile.
  destruct (match prefixAndSuffix pattern with Some ps => ps | None => _ end)
    as [pre suf] eqn:Hps.
  destruct (fault (env o) _); [left; eexists; reflexivity |].
  destruct (live (disk o) !! _); [left; eexists; reflexivity |].
  right. eexists (mkHandle vfs.OSFS _), _. split; [reflexivity |].
  split; [reflexivity |]. split.
  - cbn [h_name files set_files live]. apply lookup_insert_eq.
  - intros b -> -> Hstar. rewrite (prefixAndSuffix_script b Hstar) in Hps.
    injection Hps as <- <-. reflexivity.
Qed.

(** The steps under the deferred removal, with what the file holds after each
    of them. *)
Lemma runTempFile_states f data o :
  files (h_fs f) (disk o) !! h_name f = Some (vfs.File 384 []) ->
  exists steps d,
    (RealSystem.runTempFile f data o).2 = mkOS (env o) d (pstate o) (trace o ++ steps)
    /\ ((exists err d1,
            steps = [mkStep (EvChmod f 448) (Some err) d1] /\ private_on f data d1)
        \/ (exists werr cerr d1 d2 d3,
              steps = [ mkStep (EvChmod f 448) None d1; mkStep (EvWrite f data) werr d2;
                        mkStep (EvClose f) cerr d3 ]
              /\ private_on f data d1 /\ private_on f data d2 /\ private_on f data d3)
        \/ (exists xerr d1 d2 d3 d4 m,
              steps = [ mkStep (EvChmod f 448) None d1; mkStep (EvWrite f data) None d2;
                        mkStep (EvClose f) None d3; mkStep (EvRun (h_name f)) xerr d4 ]
              /\ private_on f data d1 /\ private_on f data d2 /\ private_on f data d3
              /\ files (h_fs f) d3 !! h_name f = Some (vfs.File m data)
              /\ os.Perm m = 448)).
Proof.
  intros Hat. unfold RealSystem.runTempFile.
  destruct (f_Chmod_step f 448 o 384 [] Hat) as (d1 & m1 & -> & Hat1 & Hperm & Hkeep).
  destruct (fault (env o) (EvChmod f 448)) as [err |] eqn:Hchmod.
  - eexists [_], _. split; [reflexivity |]. left. eexists _, _. split; [reflexivity |].
    exists m1, []. split; [exact Hat1 |]. split; [| left; reflexivity].
    rewrite (Hkeep ltac:(discriminate)). reflexivity.
  - specialize (Hperm eq_refl). change (os.Perm 448) with 448 in Hperm.
    set (o1 := record (EvChmod f 448) None d1 o).
    assert (private_on f data d1) as Hp1.
    { exists m1, []. split; [exact Hat1 |]. split; [apply Perm_private; exact Hperm |].
      left. reflexivity. }
    destruct (f_Write_step f data o1 m1 Hat1) as (d2 & c & -> & Hat2 & Hprefix & Hdata).
    set (o2 := record (EvWrite f data) (fault (env o1) (EvWrite f data)) d2 o1).
    assert (private_on f data d2) as Hp2.
    { exists m1, c. split; [exact Hat2 |]. split; [apply Perm_private; exact Hperm |].
      right. split; [exact Hperm | exact Hprefix]. }
    rewrite (f_Close_step f o2).
    destruct (Go.Append (fault (env o1) (EvWrite f data)) (fault (env o2) (EvClose f)))
      as [err |] eqn:Happ.
    + eexists [_; _; _], _.
      split; [subst o2 o1; unfold record; cbn; rewrite <- !app_assoc; reflexivity |].
      right. left. eexists _, _, _, _, _. split; [reflexivity |].
      split; [exact Hp1 |]. split; exact Hp2.
    + apply Append_nil_inv in Happ as [Hw Hc].
      eexists [_; _; _; _], _.
      split; [subst o2 o1; unfold cmd_Run, record; cbn; rewrite <- !app_assoc; reflexivity |].
      right. right. eexists _, _, _, _, _, m1.
      split; [subst o2 o1; cbn in Hw, Hc |- *; rewrite Hw, Hc; reflexivity |].
      split; [exact Hp1 |]. split; [exact Hp2 |]. split; [exact Hp2 |].
      split; [| exact Hperm]. cbn [disk record o2]. rewrite Hat2, (Hdata Hw). reflexivity.
Qed.

(** RunScript as a whole: the temporary file could not be created, or it was
    created private, the steps above were taken and its removal came last. *)
Lemma RunScript_states (s : RealSystem.RealSystem) name data o :
  let r := RealSystem.RunScript s name data o in
  (exists err,
      new_steps o r.2 = [mkStep (EvTempFile "" (script_pattern name)) (Some err) (disk o)])
  \/ (exists f d0 body rerr d,
        new_steps o r.2
        = (mkStep (EvTempFile "" (script_pattern name)) None d0 :: body
           ++ [mkStep (EvRemoveAll vfs.OSFS (h_name f)) rerr d])%list
        /\ h_fs f = vfs.OSFS
        /\ private_on f data d0
        /\ (has_star (path_.Base name) = false -> h_name f = script_file (env o) name)
        /\ ((exists err d1,
                body = [mkStep (EvChmod f 448) (Some err) d1] /\ private_on f data d1)
            \/ (exists werr cerr d1 d2 d3,
                  body = [ mkStep (EvChmod f 448) None d1; mkStep (EvWrite f data) werr d2;
                           mkStep (EvClose f) cerr d3 ]
                  /\ private_on f data d1 /\ private_on f data d2 /\ private_on f data d3)
            \/ (exists xerr d1 d2 d3 d4 m,
                  body = [ mkStep (EvChmod f 448) None d1; mkStep (EvWrite f data) None d2;
                           mkStep (EvClose f) None d3; mkStep (EvRun (h_name f)) xerr d4 ]
                  /\ private_on f data d1 /\ private_on f data d2 /\ private_on f data d3
                  /\ files (h_fs f) d3 !! h_name f = Some (vfs.File m data)
                  /\ os.Perm m = 448))).
Proof.
  intros r. subst r. unfold RealSystem.RunScript. fold (script_pattern name).
  destruct (ioutil_TempFile_file "" (script_pattern name) o)
    as [[err ->] | (f & d0 & -> & Hfs & Hat & Hname)].
  - left. exists err. apply new_steps_app. reflexivity.
  - right. set (o1 := record (EvTempFile "" (script_pattern name)) None d0 o).
    assert (files (h_fs f) (disk o1) !! h_name f = Some (vfs.File 384 [])) as Hat1
      by (rewrite Hfs; exact Hat).
    destruct (runTempFile_states f data o1 Hat1) as (body & d2 & Hworld & Hbody).
    destruct (RealSystem.runTempFile f data o1) as [primary o2].
    cbn [snd] in Hworld. subst o2.
    set (o2 := mkOS (env o1) d2 (pstate o1) (trace o1 ++ body)).
    destruct (primitive_record (EvRemoveAll vfs.OSFS (h_name f))
                (fun d => set_files vfs.OSFS (removeTree (h_name f) (files vfs.OSFS d)) d) o2)
      as (d3 & Hremove & _).
    unfold fs_RemoveAll. rewrite Hremove.
    exists f, d0, body, (fault (env o2) (EvRemoveAll vfs.OSFS (h_name f))), d3.
    split.
    { apply new_steps_app. subst o2 o1. unfold record. cbn.
      rewrite <- !app_assoc. reflexivity. }
    split; [exact Hfs |]. split.
    { exists 384, []. split; [exact Hat1 |]. split; [reflexivity | left; reflexivity]. }
    split; [| exact Hbody].
    intros Hstar. apply (Hname (path_.Base name)); [reflexivity | reflexivity | exact Hstar].
Qed.

(** X11.  When RunScript starts the script, the file it starts is its
    temporary file, which at that moment holds exactly the script's bytes
    under permission 0700; and that file's removal is among the steps that
    follow. *)
Theorem RealSystem_RunScript_runs_what_it_wrote :
  forall (s : RealSystem.RealSystem) (name : string) (data : list byte) (o : OS)
         (p : string) (d : Disk),
    let r := RealSystem.RunScript s name data o in
    disk_before_run (disk o) (new_steps o r.2) = Some (p, d) ->
    exists m,
      file_at vfs.OSFS p d = Some (m, data)
      /\ os.Perm m = 448
      /\ In (EvRemoveAll vfs.OSFS p) (map event (new_steps o r.2)).
Proof.
  intros s name data o p d r Hrun. subst r.
  destruct (RunScript_states s name data o)
    as [[err Hsteps] | (f & d0 & body & rerr & d' & Hsteps & Hfs & _ & _ & Hbody)];
    rewrite Hsteps in Hrun |- *; [discriminate Hrun |].
  destruct Hbody as [(err & d1 & -> & _)
                    | [(werr & cerr & d1 & d2 & d3 & -> & _)
                      | (xerr & d1 & d2 & d3 & d4 & m & -> & _ & _ & _ & Hat & Hperm)]];
    cbn in Hrun; try discriminate Hrun.
  injection Hrun as <- <-. exists m. split; [| split; [exact Hperm |]].
  - unfold file_at. rewrite <- Hfs, Hat. reflexivity.
  - cbn. tauto.
Qed.

Lemma RealSystem_RunScript_runs_what_it_wrote_witness :
  let o := Sample.machine vfs.TestFS Sample.quiet in
  let r := RealSystem.RunScript Sample.real "dir/install.sh" (Go.bytes_of_string "#!/bin/sh") o in
  exists d,
    disk_before_run (disk o) (new_steps o r.2) = Some ("/tmp/316497.install.sh", d)
    /\ exists m,
         file_at vfs.OSFS "/tmp/316497.install.sh" d = Some (m, Go.bytes_of_string "#!/bin/sh")
         /\ os.Perm m = 448
         /\ In (EvRemoveAll vfs.OSFS "/tmp/316497.install.sh") (map event (new_steps o r.2)).
Proof.
  eexists. split; [vm_compute; reflexivity |].
  apply (RealSystem_RunScript_runs_what_it_wrote Sample.real "dir/install.sh"
           (Go.bytes_of_string "#!/bin/sh") (Sample.machine vfs.TestFS Sample.quiet)).
  vm_compute. reflexivity.
Defined.

(** X12.  RunScript makes the script private before writing it: unless the
    temporary file could not be created, after each step up to the start of
    the script the temporary file is closed to group and others, and shows
    either nothing or bytes of the script under permission 0700; no byte of
    the script is written when setting the permission fails. *)
Theorem RealSystem_RunScript_keeps_the_script_private :
  forall (s : RealSystem.RealSystem) (name : string) (data : list byte) (o : OS),
    let r := RealSystem.RunScript s name data o in
    (exists err,
        new_steps o r.2 = [mkStep (EvTempFile "" (script_pattern name)) (Some err) (disk o)])
    \/ (exists f,
          h_fs f = vfs.OSFS
          /\ In (EvRemoveAll vfs.OSFS (h_name f)) (map event (new_steps o r.2))
          /\ Forall (fun st => private_on f data (disk_after st))
               (List.filter setup_step (new_steps o r.2))
          /\ (In (EvWrite f data) (map event (new_steps o r.2)) ->
              In (mkStep (EvChmod f 448) None
                    (nth 1 (map disk_after (new_steps o r.2)) (disk o)))
                 (new_steps o r.2))).
Proof.
  intros s name data o r. subst r.
  destruct (RunScript_states s name data o)
    as [[err Hsteps] | (f & d0 & body & rerr & d' & Hsteps & Hfs & Hp0 & _ & Hbody)];
    [left; exists err; exact Hsteps |].
  right. exists f. rewrite Hsteps. split; [exact Hfs |].
  destruct Hbody as [(err & d1 & -> & Hp1)
                    | [(werr & cerr & d1 & d2 & d3 & -> & Hp1 & Hp2 & Hp3)
                      | (xerr & d1 & d2 & d3 & d4 & m & -> & Hp1 & Hp2 & Hp3 & _)]];
    cbn; (split; [tauto |]); (split; [repeat constructor; assumption |]).
  - intros [Hin | [Hin | [Hin | []]]]; discriminate Hin.
  - intros _. tauto.
  - intros _. tauto.
Qed.

(** X13.  The temporary file of a script is named after the script: when the
    last element of the script's name has no "*", the file is the random
    string followed by a dot and that last element, in the temporary
    directory, so the extension of the script is kept; it is the file that is
    run and the file that is removed. *)
Theorem RealSystem_RunScript_keeps_the_extension :
  forall (s : RealSystem.RealSystem) (name : string) (data : list byte) (o : OS),
    has_star (path_.Base name) = false ->
    let events := map event (new_steps o (RealSystem.RunScript s name data o).2) in
    (forall p, In (EvRun p) events -> p = script_file (env o) name)
    /\ (forall fs p,
          In (EvRemoveAll fs p) events -> fs = vfs.OSFS /\ p = script_file (env o) name)
    /\ (forall f mode, In (EvChmod f mode) events ->
          f = mkHandle vfs.OSFS (script_file (env o) name) /\ mode = 448)
    /\ (forall f bytes, In (EvWrite f bytes) events ->
          f = mkHandle vfs.OSFS (script_file (env o) name) /\ bytes = data).
Proof.
  intros s name data o Hstar events. subst events.
  destruct (RunScript_states s name data o)
    as [[err Hsteps] | (f & d0 & body & rerr & d' & Hsteps & Hfs & _ & Hname & Hbody)];
    rewrite Hsteps.
  - cbn. repeat split; intros; destruct H as [H | []]; discriminate H.
  - specialize (Hname Hstar).
    assert (f = mkHandle vfs.OSFS (script_file (env o) name)) as Hf
      by (destruct f; cbn in Hfs, Hname; congruence).
    destruct Hbody as [(err & d1 & -> & _)
                      | [(werr & cerr & d1 & d2 & d3 & -> & _)
                        | (xerr & d1 & d2 & d3 & d4 & m & -> & _)]];
      cbn; rewrite Hname;
      (split; [intros p Hin | split; [intros fs p Hin | split; [intros g mode Hin | intros g bytes Hin]]]);
      repeat (destruct Hin as [Hin | Hin]; [try discriminate Hin |]);
      try contradiction;
      try (injection Hin as <-; reflexivity);
      try (injection Hin as <- <-; split; reflexivity);
      try (injection Hin as <- <-; split; [exact Hf | reflexivity]).
Qed.

Lemma RealSystem_RunScript_keeps_the_extension_witness :
  let events :=
    map event
      (new_steps (Sample.machine vfs.TestFS Sample.quiet)
         (RealSystem.RunScript Sample.real "scripts/install.ps1" [x61]
            (Sample.machine vfs.TestFS Sample.quiet)).2) in
  In (EvRun "/tmp/316497.install.ps1") events
  /\ (forall p, In (EvRun p) events -> p = "/tmp/316497.install.ps1").
Proof.
  split; [vm_compute; tauto |].
  exact (proj1 (RealSystem_RunScript_keeps_the_extension Sample.real "scripts/install.ps1"
                  [x61] (Sample.machine vfs.TestFS Sample.quiet) eq_refl)).
Defined.

(** With a "*" in its name the script still keeps what follows the last
    "*", the random string taking its place. *)
Example RunScript_name_with_star :
  map event
    (new_steps (Sample.machine vfs.TestFS Sample.quiet)
       (RealSystem.RunScript Sample.real "a*b.sh" [x61]
          (Sample.machine vfs.TestFS Sample.quiet)).2)
  = (let f := mkHandle vfs.OSFS "/tmp/*.a316497b.sh" in
     [ EvTempFile "" "*.a*b.sh"; EvChmod f 448; EvWrite f [x61]; EvClose f;
       EvRun "/tmp/*.a316497b.sh"; EvRemoveAll vfs.OSFS "/tmp/*.a316497b.sh" ]).
Proof. vm_compute. reflexivity. Qed.

(** ** WriteFile of the direct backend: the disk it leaves *)

Lemma put_put fs name n n' d : put fs name n' (put fs name n d) = put fs name n' d.
Proof.
  unfold put. rewrite files_set_files, insert_insert_eq. destruct fs; reflexivity.
Qed.

Lemma files_put fs name n d : files fs (put fs name n d) !! name = Some n.
Proof. unfold put. rewrite files_set_files. apply lookup_insert_eq. Qed.

Lemma update_file_put fs name g m c d :
  update_file (mkHandle fs name) g (put fs name (vfs.File m c) d) = put fs name (g m c) d.
Proof.
  unfold update_file. cbn [h_fs h_name]. rewrite files_put. apply put_put.
Qed.



Lemma replaced_replaced (m perm : os.FileMode) :
  replaced (replaced m perm) perm = replaced m perm.
Proof.
  unfold replaced, os.andnot, os.syscallMode. f_equal.
  rewrite Z.land_lor_distr_l, <- !Z.land_assoc, Z.land_diag.
  change (Z.land os.chmodBits (Z.lxor os.chmodBits 4294967295)) with 0.
  rewrite Z.land_0_r. apply Z.lor_0_r.
Qed.




(** Every outcome of WriteFile, with the disk it leaves. *)
Lemma WriteFile_disks fs filename data perm o :
  let r := WriteFile fs filename data perm o in
  (exists err,
      r.1 = Some err /\ disk r.2 = disk o
      /\ (fault (env o) (EvOpenFile fs filename WriteFile_flag perm) = None ->
          ~ writable fs filename (disk o)))
  \/ (exists target m0,
        follow maxLinks (files fs (disk o)) filename = Go.Ok target
        /\ opened fs target m0 perm o
        /\ fault (env o) (EvOpenFile fs filename WriteFile_flag perm) = None
        /\ ((exists err,
                fault (env o) (EvChmod (mkHandle fs target) perm) = Some err
                /\ r.1 <> None
                /\ disk r.2 = put fs target (vfs.File m0 []) (disk o))
            \/ (fault (env o) (EvChmod (mkHandle fs target) perm) = None
                /\ exists c,
                     disk r.2 = put fs target (vfs.File (replaced m0 perm) c) (disk o)
                     /\ (exists n, c = firstn n data)
                     /\ (r.1 = None -> c = data)
                     /\ (fault (env o) (EvWrite (mkHandle fs target) data) = None
                         -> c = data /\ r.1 = fault (env o) (EvClose (mkHandle fs target)))))).
Proof.
  intros r. subst r. unfold WriteFile, fs_OpenFile. fold WriteFile_flag.
  destruct (fault (env o) (EvOpenFile fs filename WriteFile_flag perm)) as [err |] eqn:Hopen;
    [left; exists err; split; [reflexivity | split; [reflexivity | discriminate]] |].
  destruct (follow maxLinks (files fs (disk o)) filename) as [target | err] eqn:Hfollow;
    [| left; exists err; split; [reflexivity | split; [reflexivity |]];
       intros _ (t & Hf & _); rewrite Hfollow in Hf; discriminate Hf].
  assert (forall m0 (o1 : OS),
            env o1 = env o -> disk o1 = put fs target (vfs.File m0 []) (disk o) ->
            opened fs target m0 perm o ->
            let r :=
              let '(err, o2) :=
                let '(err, o2) := f_Chmod (mkHandle fs target) perm o1 in
                match err with
                | Some _ => (err, o2)
                | None => f_Write (mkHandle fs target) data o2
                end in
              let '(cerr, o3) := f_Close (mkHandle fs target) o2 in
              (Go.Append err cerr, o3) in
            (exists err,
                fault (env o) (EvChmod (mkHandle fs target) perm) = Some err
                /\ r.1 <> None
                /\ disk r.2 = put fs target (vfs.File m0 []) (disk o))
            \/ (fault (env o) (EvChmod (mkHandle fs target) perm) = None
                /\ exists c,
                     disk r.2 = put fs target (vfs.File (replaced m0 perm) c) (disk o)
                     /\ (exists n, c = firstn n data)
                     /\ (r.1 = None -> c = data)
                     /\ (fault (env o) (EvWrite (mkHandle fs target) data) = None
                         -> c = data /\ r.1 = fault (env o) (EvClose (mkHandle fs target)))))
    as Hrest.
  { intros m0 o1 Henv Hdisk Hopened r. subst r.
    unfold f_Chmod, primitive. rewrite Henv.
    destruct (fault (env o) (EvChmod (mkHandle fs target) perm)) as [err |] eqn:Hchmod.
    - rewrite f_Close_step. left. exists err. split; [reflexivity |]. split.
      + cbn [fst]. destruct (fault _ (EvClose _)); discriminate.
      + cbn [snd disk record]. exact Hdisk.
    - right. split; [reflexivity |].
      rewrite Hdisk, update_file_put. fold (replaced m0 perm).
      unfold f_Write. cbn [env record disk]. rewrite Henv.
      destruct (fault (env o) (EvWrite (mkHandle fs target) data)) as [werr |] eqn:Hwrite;
        rewrite f_Close_step; cbn [fst snd disk record env]; rewrite update_file_put,
          skipn_nil, app_nil_r, Henv.
      + eexists. split; [reflexivity |]. split; [eexists; reflexivity |]. split.
        * destruct (fault (env o) (EvClose _)); discriminate.
        * discriminate.
      + exists data. split; [reflexivity |].
        split; [exists (length data); rewrite firstn_all; reflexivity |].
        split; [reflexivity |]. intros _. split; reflexivity. }
  destruct (files fs (disk o) !! target) as [[m c | t | m] |] eqn:Hat;
    try (left; eexists; split; [reflexivity | split; [reflexivity |]];
         intros _ (t' & Hf & Hnode); rewrite Hfollow in Hf; injection Hf as <-;
         rewrite Hat in Hnode; exact Hnode).
  - right. exists target, m. split; [reflexivity |].
    split; [right; exists c; exact Hat |]. split; [reflexivity |].
    apply Hrest; [reflexivity | reflexivity | right; exists c; exact Hat].
  - right. exists target, (os.andnot (os.syscallMode perm) (os.Perm (umask (env o)))).
    split; [reflexivity |]. split; [left; split; [exact Hat | reflexivity] |].
    split; [reflexivity |].
    apply Hrest; [reflexivity | reflexivity | left; split; [exact Hat | reflexivity]].
Qed.

Lemma follow_put (m : gmap string vfs.Node) (target : string) (n : vfs.Node) :
  match m !! target with Some (vfs.Symlink _) => False | _ => True end ->
  match n with vfs.Symlink _ => False | _ => True end ->
  forall fuel name, follow fuel (<[target := n]> m) name = follow fuel m name.
Proof.
  intros Hm Hn fuel. induction fuel as [| fuel IH]; intros name.
  - cbn [follow]. destruct (decide (target = name)) as [<- | Hne].
    + rewrite lookup_insert_eq.
      destruct n; try contradiction; destruct (m !! target) as [[| |] |];
        try contradiction; reflexivity.
    + rewrite lookup_insert_ne by exact Hne. reflexivity.
  - cbn [follow]. destruct (decide (target = name)) as [<- | Hne].
    + rewrite lookup_insert_eq.
      destruct n; try contradiction; destruct (m !! target) as [[| |] |];
        try contradiction; reflexivity.
    + rewrite lookup_insert_ne by exact Hne.
      destruct (m !! name) as [[| t |] |]; try reflexivity. apply IH.
Qed.

Lemma opened_not_link fs target m0 perm o :
  opened fs target m0 perm o ->
  match files fs (disk o) !! target with Some (vfs.Symlink _) => False | _ => True end.
Proof. intros [[-> _] | [c ->]]; exact I. Qed.

Lemma follow_written fs filename target m c d :
  match files fs d !! target with Some (vfs.Symlink _) => False | _ => True end ->
  follow maxLinks (files fs d) filename = Go.Ok target ->
  follow maxLinks (files fs (put fs target (vfs.File m c) d)) filename = Go.Ok target.
Proof.
  intros Hnode Hfollow. unfold put. rewrite files_set_files.
  rewrite follow_put; [exact Hfollow | exact Hnode | exact I].
Qed.




(** Writing through a link writes the file the link ends at; the link and
    the other files stay. *)
Example WriteFile_through_a_link :
  let r := WriteFile vfs.TestFS "/home/user/link" (Go.bytes_of_string "bar") 384
             (Sample.machine vfs.TestFS Sample.quiet) in
  test (disk r.2) !! "/home/user/link" = Some (vfs.Symlink "/home/user/.bashrc")
  /\ test (disk r.2) !! "/home/user/.bashrc" = Some (vfs.File 384 (Go.bytes_of_string "bar"))
  /\ test (disk r.2) !! "/home/user/a" = Some (vfs.File 511 (Go.bytes_of_string "old")).
Proof. vm_compute. repeat split. Qed.



Lemma WriteFile_env fs filename data perm o :
  env (WriteFile fs filename data perm o).2 = env o.
Proof.
  unfold WriteFile, fs_OpenFile.
  destruct (fault (env o) (EvOpenFile _ _ _ _)); [reflexivity |].
  destruct (follow maxLinks (files fs (disk o)) filename) as [target | err];
    [| reflexivity].
  assert (forall o1, env o1 = env o ->
            env (let '(err, o2) :=
                   let '(err, o2) := f_Chmod (mkHandle fs target) perm o1 in
                   match err with
                   | Some _ => (err, o2)
                   | None => f_Write (mkHandle fs target) data o2
                   end in
                 let '(cerr, o3) := f_Close (mkHandle fs target) o2 in
                 (Go.Append err cerr, o3)).2 = env o) as Hrest.
  { intros o1 Henv. unfold f_Chmod, primitive.
    destruct (fault (env o1) (EvChmod _ _)); [rewrite f_Close_step; exact Henv |].
    unfold f_Write. cbn [env record].
    destruct (fault (env o1) (EvWrite _ _)); rewrite f_Close_step; exact Henv. }
  destruct (files fs (disk o) !! target) as [[m c | t | m] |]; try reflexivity.
  - apply Hrest. reflexivity.
  - destruct (Z.land _ O_CREATE =? 0); [reflexivity |]. apply Hrest. reflexivity.
Qed.

(** X17.  Writing the same file twice is writing it once: when no primitive
    fails and a first WriteFile returned nil, a second WriteFile with the same
    arguments returns nil and leaves the disk exactly as the first left it. *)
Theorem WriteFile_twice_is_once :
  forall (fs : vfs.FS) (filename : string) (data : list byte) (perm : os.FileMode) (o : OS),
    (forall ev, fault (env o) ev = None) ->
    let r1 := WriteFile fs filename data perm o in
    let r2 := WriteFile fs filename data perm r1.2 in
    r1.1 = None ->
    r2.1 = None /\ disk r2.2 = disk r1.2.
Proof.
  intros fs filename data perm o Hquiet r1 r2 Hnil. subst r1 r2.
  pose proof (WriteFile_env fs filename data perm o) as Henv.
  destruct (WriteFile_disks fs filename data perm o)
    as [(err & Herr & _) | (target & m0 & Hfollow & Hopened & _ & Hrest)];
    [rewrite Herr in Hnil; discriminate Hnil |].
  destruct Hrest as [(err & _ & Hne & _) | (_ & c & Hdisk & _ & Hdata & _)];
    [contradiction |].
  rewrite (Hdata Hnil) in Hdisk. clear Hdata Hnil.
  set (o1 := (WriteFile fs filename data perm o).2) in *.
  pose proof (follow_written fs filename target (replaced m0 perm) data (disk o)
                (opened_not_link _ _ _ _ _ Hopened) Hfollow) as Hfollow1.
  rewrite <- Hdisk in Hfollow1.
  assert (files fs (disk o1) !! target = Some (vfs.File (replaced m0 perm) data)) as Hat1
    by (rewrite Hdisk; apply files_put).
  destruct (WriteFile_disks fs filename data perm o1)
    as [(err & _ & _ & Hnot) | (target' & m1 & Hfollow' & Hopened' & _ & Hrest')].
  - exfalso. apply Hnot; [rewrite Henv; apply Hquiet |].
    exists target. split; [exact Hfollow1 |]. rewrite Hat1. exact I.
  - rewrite Hfollow1 in Hfollow'. injection Hfollow' as <-.
    assert (m1 = replaced m0 perm) as ->.
    { destruct Hopened' as [[Hnone _] | [c' Hfile]]; congruence. }
    destruct Hrest' as [(err & Hchmod & _) | (_ & c' & Hdisk' & _ & _ & Hwrite)].
    + rewrite Henv, Hquiet in Hchmod. discriminate Hchmod.
    + destruct (Hwrite ltac:(rewrite Henv; apply Hquiet)) as [-> Hret].
      split; [rewrite Hret, Henv; apply Hquiet |].
      rewrite Hdisk', replaced_replaced, Hdisk. apply put_put.
Qed.

Lemma WriteFile_twice_is_once_witness :
  let o := Sample.machine vfs.TestFS Sample.quiet in
  let r1 := WriteFile vfs.TestFS "/home/user/a" (Go.bytes_of_string "new") 420 o in
  let r2 := WriteFile vfs.TestFS "/home/user/a" (Go.bytes_of_string "new") 420 r1.2 in
  r2.1 = None /\ disk r2.2 = disk r1.2.
Proof.
  apply (WriteFile_twice_is_once vfs.TestFS "/home/user/a" (Go.bytes_of_string "new") 420
           (Sample.machine vfs.TestFS Sample.quiet)).
  - intros ev. reflexivity.
  - vm_compute. reflexivity.
Defined.

(** ** WriteSymlink of the direct backend: the disk it leaves *)







(** A directory replaced by a link, on a filesystem that is not the live
    one: the directory and what was in it go, the files beside it stay. *)
Example WriteSymlink_over_a_directory :
  let r := RealSystem.WriteSymlink Sample.real "/etc" "/home/user"
             (Sample.machine vfs.TestFS Sample.quiet) in
  r.1 = None /\ map_to_list (test (disk r.2)) = [("/home/user", vfs.Symlink "/etc")].
Proof. vm_compute. split; reflexivity. Qed.

(** ** No error of a primitive is dropped *)

Lemma step_errors_app (a b : list Step) :
  step_errors (a ++ b) = (step_errors a ++ step_errors b)%list.
Proof. unfold step_errors. rewrite map_app, concat_app. reflexivity. Qed.

Lemma step_errors_outcomes (steps : list Step) :
  step_errors steps = concat (map Go.Errors (map outcome steps)).
Proof. unfold step_errors. rewrite map_map. reflexivity. Qed.

(** X19.  RunScript drops no error: the errors it returns are exactly the
    errors of the primitives it issued, in the order they were issued. *)
Theorem RealSystem_RunScript_reports_every_error :
  forall (s : RealSystem.RealSystem) (name : string) (data : list byte) (o : OS),
    let r := RealSystem.RunScript s name data o in
    Go.Errors r.1 = step_errors (new_steps o r.2).
Proof.
  intros s name data o r. subst r. unfold RealSystem.RunScript.
  destruct (ioutil_TempFile_record "" ("*." +:+ path_.Base name) o)
    as [[err ->] | (f & d & -> & _)].
  - unfold new_steps. cbn [fst snd trace record]. rewrite drop_app_length.
    unfold step_errors. cbn [map concat outcome]. rewrite app_nil_r. reflexivity.
  - set (o1 := record (EvTempFile "" ("*." +:+ path_.Base name)) None d o).
    destruct (runTempFile_record f data o1) as (body & d2 & Hworld & Hbody).
    destruct (RealSystem.runTempFile f data o1) as [primary o2].
    cbn [fst snd] in Hworld, Hbody. subst o2.
    set (o2 := mkOS (env o1) d2 (pstate o1) (trace o1 ++ body)).
    destruct (primitive_record (EvRemoveAll vfs.OSFS (h_name f))
                (fun d0 => set_files vfs.OSFS (removeTree (h_name f) (files vfs.OSFS d0)) d0) o2)
      as (d3 & Hremove & _).
    unfold fs_RemoveAll. rewrite Hremove. cbn [fst snd].
    rewrite Errors_Append.
    rewrite (new_steps_app o _
               (mkStep (EvTempFile "" ("*." +:+ path_.Base name)) None d
                  :: body ++ [mkStep (EvRemoveAll vfs.OSFS (h_name f))
                                (fault (env o2) (EvRemoveAll vfs.OSFS (h_name f))) d3]))
      by (subst o2 o1; unfold record; cbn; rewrite <- !app_assoc; reflexivity).
    change (step_errors (?st :: ?rest)) with (Go.Errors (outcome st) ++ step_errors rest)%list.
    cbn [outcome Go.Errors app]. rewrite step_errors_app.
    f_equal; [| unfold step_errors; cbn; rewrite app_nil_r; reflexivity].
    rewrite step_errors_outcomes.
    destruct Hbody as [(err & _ & -> & ->)
                      | [(werr & cerr & _ & -> & _ & ->) | (xerr & _ & -> & ->)]];
      cbn [map concat Go.Errors app]; rewrite ?app_nil_r; [reflexivity | | reflexivity].
    apply Errors_Append.
Qed.

(** X20.  WriteFile drops no error either: the errors it returns are exactly
    the errors of the open, of setting the permissions, of the write and of
    the close, in this order. *)
Theorem WriteFile_reports_every_error :
  forall (fs : vfs.FS) (filename : string) (data : list byte) (perm : os.FileMode) (o : OS),
    let r := WriteFile fs filename data perm o in
    Go.Errors r.1 = step_errors (new_steps o r.2).
Proof.
  intros fs filename data perm o r. subst r. unfold WriteFile.
  destruct (fs_OpenFile_trunc fs filename perm o)
    as [[err Hopen] | (f & d & m & Hopen & _)]; fold WriteFile_flag; rewrite Hopen.
  - unfold new_steps. cbn [fst snd trace record]. rewrite drop_app_length.
    unfold step_errors. cbn [map concat outcome]. rewrite app_nil_r. reflexivity.
  - set (o1 := record (EvOpenFile fs filename WriteFile_flag perm) None d o).
    unfold f_Chmod.
    destruct (primitive_record (EvChmod f perm)
                (update_file f (fun old data0 =>
                   vfs.File (Z.lor (os.andnot old os.chmodBits) (os.syscallMode perm)) data0)) o1)
      as (d1 & -> & _).
    set (o2 := record (EvChmod f perm) (fault (env o1) (EvChmod f perm)) d1 o1).
    destruct (fault (env o1) (EvChmod f perm)) as [err |] eqn:Hchmod.
    + rewrite (f_Close_step f o2). cbn [fst snd]. rewrite Errors_Append.
      unfold new_steps. subst o2 o1. unfold record. cbn [trace].
      rewrite <- !app_assoc, drop_app_length. unfold step_errors.
      cbn in Hchmod |- *. rewrite ?Hchmod, ?app_nil_r. reflexivity.
    + destruct (f_Write_record f data o2) as (d2 & ->).
      set (o3 := record (EvWrite f data) (fault (env o2) (EvWrite f data)) d2 o2).
      rewrite (f_Close_step f o3). cbn [fst snd]. rewrite Errors_Append.
      unfold new_steps. subst o3 o2 o1. unfold record. cbn [trace].
      rewrite <- !app_assoc, drop_app_length. unfold step_errors.
      cbn in Hchmod |- *. rewrite ?Hchmod, ?app_nil_r. reflexivity.
Qed.

(** The write and the close both fail: both errors come back. *)
Example WriteFile_reports_write_and_close :
  let bad ev := match ev with
                | EvWrite _ _ => Some (Go.errorString "no space left on device")
                | EvClose _ => Some (Go.errorString "input/output error")
                | _ => None
                end in
  let r := WriteFile vfs.TestFS "/home/user/a" (Go.bytes_of_string "new") 420
             (Sample.machine vfs.TestFS (failing bad)) in
  r.1 = Some (Go.multiError ["no space left on device"; "input/output error"])
  /\ file_at vfs.TestFS "/home/user/a" (disk r.2) = Some (420, [x6e]).
Proof. vm_compute. split; reflexivity. Qed.
